(** * GhostFAT / UF2 write ingestion: a shallow embedding of [src/main/ghostfat.c]

    Sector buffers are lists of bytes (each byte a [Z] in [0, 256)), multi-byte
    struct fields are read and written little-endian at their byte offsets, as
    the C code does through its packed structs, and 32-bit unsigned arithmetic
    is written with its wrap-around. *)

From Stdlib Require Import ZArith Lia Bool.
From stdpp Require Import base tactics list strings sorting gmap.

Local Open Scope Z_scope.

(** ** Fixed-width unsigned integers *)

Definition u8 (x : Z) : Z := x mod 2 ^ 8.
Definition u16 (x : Z) : Z := x mod 2 ^ 16.
Definition u32 (x : Z) : Z := x mod 2 ^ 32.

(** ** Byte buffers: [uint8_t *data] with little-endian field access *)

Module Buf.

Abbreviation t := (list Z).

(** [memset(data, 0, n)] on a fresh buffer. *)
Definition zeros (n : nat) : t := replicate n 0.

(** [data[off]] *)
Definition get8 (d : t) (off : Z) : Z := d !!! Z.to_nat off.

(** [data[off] = v] *)
Definition set8 (d : t) (off v : Z) : t := <[Z.to_nat off := u8 v]> d.

(** [*(uint16_t * )(data + off)] *)
Definition get16 (d : t) (off : Z) : Z :=
  get8 d off + 2 ^ 8 * get8 d (off + 1).

(** [*(uint16_t * )(data + off) = v] *)
Definition set16 (d : t) (off v : Z) : t :=
  set8 (set8 d off v) (off + 1) (v / 2 ^ 8).

(** [*(uint32_t * )(data + off)] *)
Definition get32 (d : t) (off : Z) : Z :=
  get8 d off + 2 ^ 8 * get8 d (off + 1)
  + 2 ^ 16 * get8 d (off + 2) + 2 ^ 24 * get8 d (off + 3).

(** [*(uint32_t * )(data + off) = v] *)
Definition set32 (d : t) (off v : Z) : t :=
  set8 (set8 (set8 (set8 d off v) (off + 1) (v / 2 ^ 8))
              (off + 2) (v / 2 ^ 16)) (off + 3) (v / 2 ^ 24).

(** [memcpy(data + off, src, length src)] *)
Definition memcpy (d : t) (off : Z) (src : list Z) : t :=
  list_inserts (Z.to_nat off) src d.

(** Every element is a byte. *)
Definition bytes (d : t) : Prop := Forall (fun b => 0 <= b < 256) d.

(** The buffer holds only zero bytes. *)
Definition all_zero (d : t) : bool := forallb (fun b => b =? 0) d.

End Buf.

(** ** Constants of the build

    Modelled from the spec: the header [uf2.h] (with [compile_date.h]) is not
    part of the sources.  It supplies the configuration surface of spec §6:
    the emulated sector count, the flash-image bound, the family identifier,
    the maximum supported block count and the build date and time.  The
    partition [_part_ota0] found by [uf2_init] is a run-time input and is
    kept with them: its reported size, and [esp_partition_read]. *)

Record Config := mkConfig {
  CFG_UF2_NUM_BLOCKS : Z;
  CFG_UF2_FLASH_SIZE : Z;
  CFG_UF2_FAMILY_ID : Z;
  MAX_BLOCKS : Z;
  DOSTIME : Z;
  DOSDATE : Z;
  SECONDS_INT : Z;
  (** [_part_ota0->size] *)
  part_size : Z;
  (** [esp_partition_read(_part_ota0, addr, dst, len)]: the bytes copied to
      [dst], or [None] when the call fails and leaves [dst] as it was. *)
  esp_partition_read : Z -> Z -> option (list Z)
}.

(** Modelled from the spec: the magic words and flag bits of the upload block
    packet, declared in the absent [uf2.h]; these are the values of the UF2
    file format. *)
Definition UF2_MAGIC_START0 : Z := 0x0A324655.
Definition UF2_MAGIC_START1 : Z := 0x9E5D5157.
Definition UF2_MAGIC_END : Z := 0x0AB16F30.
Definition UF2_FLAG_NOFLASH : Z := 0x00000001.
Definition UF2_FLAG_FAMILYID : Z := 0x00002000.

(** Modelled from the spec: the packed struct [UF2_Block] of the absent
    [uf2.h], as the byte offsets of its fields in the 512-byte packet (two
    leading magic words, flags, target address, payload length, block index,
    total block count, family identifier, 476 payload bytes, trailing magic
    word).  A field access [bl->f] on [UF2_Block *bl = (void * ) data] is a read
    of [data] at the offset of [f]. *)
Module UF2_Block.
Definition off_magicStart0 : Z := 0.
Definition off_magicStart1 : Z := 4.
Definition off_flags : Z := 8.
Definition off_targetAddr : Z := 12.
Definition off_payloadSize : Z := 16.
Definition off_blockNo : Z := 20.
Definition off_numBlocks : Z := 24.
Definition off_familyID : Z := 28.
Definition off_data : Z := 32.
Definition off_magicEnd : Z := 508.

Definition magicStart0 (bl : Buf.t) : Z := Buf.get32 bl off_magicStart0.
Definition magicStart1 (bl : Buf.t) : Z := Buf.get32 bl off_magicStart1.
Definition flags (bl : Buf.t) : Z := Buf.get32 bl off_flags.
Definition targetAddr (bl : Buf.t) : Z := Buf.get32 bl off_targetAddr.
Definition payloadSize (bl : Buf.t) : Z := Buf.get32 bl off_payloadSize.
Definition blockNo (bl : Buf.t) : Z := Buf.get32 bl off_blockNo.
Definition numBlocks (bl : Buf.t) : Z := Buf.get32 bl off_numBlocks.
Definition familyID (bl : Buf.t) : Z := Buf.get32 bl off_familyID.
Definition magicEnd (bl : Buf.t) : Z := Buf.get32 bl off_magicEnd.
End UF2_Block.

Definition BPB_SECTOR_SIZE : Z := 512.

(** A sector handed to the device: 512 bytes. *)
Definition is_sector (data : Buf.t) : Prop :=
  length data = Z.to_nat BPB_SECTOR_SIZE /\ Buf.bytes data.

(** ** Write ingestion *)

(** Modelled from the spec: the struct [WriteState] of the absent [uf2.h]:
    the learned total block count, the count of unique blocks absorbed and
    the fixed-capacity bitmask [uint8_t writtenMask[MAX_BLOCKS / 8 + 1]]. *)
Record WriteState := mkWriteState {
  numBlocks : Z;
  numWritten : Z;
  writtenMask : list Z
}.

Definition is_uf2_block (bl : Buf.t) : bool :=
  (UF2_Block.magicStart0 bl =? UF2_MAGIC_START0) &&
  (UF2_Block.magicStart1 bl =? UF2_MAGIC_START1) &&
  (UF2_Block.magicEnd bl =? UF2_MAGIC_END) &&
  negb (Z.land (UF2_Block.flags bl) UF2_FLAG_FAMILYID =? 0) &&
  (Z.land (UF2_Block.flags bl) UF2_FLAG_NOFLASH =? 0).

Section WriteIngestion.

Variable cfg : Config.

(** The state a session starts from: nothing learned, nothing written. *)
Definition fresh_state : WriteState :=
  {| numBlocks := 0; numWritten := 0;
     writtenMask := replicate (Z.to_nat (MAX_BLOCKS cfg / 8 + 1)) 0 |}.

(** The bitmask has the capacity of its C array. *)
Definition state_ok (state : WriteState) : Prop :=
  length (writtenMask state) = Z.to_nat (MAX_BLOCKS cfg / 8 + 1).

(** [uf2_write_block]: the returned [int] and the state it leaves.
    [block_no] is unused by the source as well. *)
Definition uf2_write_block (block_no : Z) (data : Buf.t) (state : WriteState)
  : Z * WriteState :=
  let bl := data in
  if negb (is_uf2_block bl) then (-1, state)
  else
    (* the comparison of bl->familyID with CFG_UF2_FAMILY_ID guards an
       empty statement *)
    let _ := UF2_Block.familyID bl =? CFG_UF2_FAMILY_ID cfg in
    let state :=
      if negb (UF2_Block.numBlocks bl =? 0) then
        (* Update state num blocks if needed *)
        let state :=
          if negb (numBlocks state =? UF2_Block.numBlocks bl) then
            if (MAX_BLOCKS cfg <=? UF2_Block.numBlocks bl)
               || negb (numBlocks state =? 0)
            then {| numBlocks := 0xffffffff;
                    numWritten := numWritten state;
                    writtenMask := writtenMask state |}
            else {| numBlocks := UF2_Block.numBlocks bl;
                    numWritten := numWritten state;
                    writtenMask := writtenMask state |}
          else state in
        if UF2_Block.blockNo bl <? MAX_BLOCKS cfg then
          let mask := Z.shiftl 1 (UF2_Block.blockNo bl mod 8) in
          let pos := UF2_Block.blockNo bl / 8 in
          (* only increase written number with new write *)
          if Z.land (writtenMask state !!! Z.to_nat pos) mask =? 0 then
            {| numBlocks := numBlocks state;
               numWritten := u32 (numWritten state + 1);
               writtenMask :=
                 <[Z.to_nat pos :=
                     Z.lor (writtenMask state !!! Z.to_nat pos) mask]>
                   (writtenMask state) |}
          else state
          (* flush last blocks: the test numWritten >= numBlocks that follows
             in the source guards a disabled call, see [complete] *)
        else state
      else state in
    (BPB_SECTOR_SIZE, state).

(** The state after a write, and after a stream of writes in arrival
    order. *)
Definition write_state (data : Buf.t) (state : WriteState) : WriteState :=
  snd (uf2_write_block 0 data state).

Definition write_stream (blocks : list Buf.t) (state : WriteState)
  : WriteState :=
  foldl (fun st data => write_state data st) state blocks.

(** The completion test of the source: [numWritten >= numBlocks]. *)
Definition complete (state : WriteState) : bool :=
  numBlocks state <=? numWritten state.

(** Bit [bn] of the bitmask, as the source tests it. *)
Definition written (state : WriteState) (bn : Z) : bool :=
  negb (Z.land (writtenMask state !!! Z.to_nat (bn / 8))
               (Z.shiftl 1 (bn mod 8)) =? 0).

(** The two updates of [uf2_write_block] on their own, for the proofs:
    learning the declared total, and marking a block index.
    [uf2_write_block_accepted] below shows that an accepted block declaring
    a nonzero total does the first and then the second. *)
Definition learn_total (total : Z) (state : WriteState) : WriteState :=
  if negb (numBlocks state =? total) then
    if (MAX_BLOCKS cfg <=? total) || negb (numBlocks state =? 0)
    then {| numBlocks := 0xffffffff;
            numWritten := numWritten state;
            writtenMask := writtenMask state |}
    else {| numBlocks := total;
            numWritten := numWritten state;
            writtenMask := writtenMask state |}
  else state.

Definition mark_block (bn : Z) (state : WriteState) : WriteState :=
  if bn <? MAX_BLOCKS cfg then
    if written state bn then state
    else
      {| numBlocks := numBlocks state;
         numWritten := u32 (numWritten state + 1);
         writtenMask :=
           <[Z.to_nat (bn / 8) :=
               Z.lor (writtenMask state !!! Z.to_nat (bn / 8))
                     (Z.shiftl 1 (bn mod 8))]> (writtenMask state) |}
  else state.

(** A block that passes validation, as a 512-byte sector. *)
Definition upload_block (data : Buf.t) : Prop :=
  is_sector data /\ is_uf2_block data = true.

End WriteIngestion.

(** A valid block of a stream whose blocks all declare [total]. *)
Definition stream_block (total : Z) (data : Buf.t) : Prop :=
  upload_block data /\ UF2_Block.numBlocks data = total.

(** Ascending block-index order of a set of blocks. *)
Definition blockNo_le (a b : Buf.t) : Prop :=
  UF2_Block.blockNo a <= UF2_Block.blockNo b.

#[global] Instance blockNo_le_dec : RelDecision blockNo_le :=
  fun a b => decide (UF2_Block.blockNo a <= UF2_Block.blockNo b).

Definition ascending_order (blocks : list Buf.t) : list Buf.t :=
  merge_sort blockNo_le blocks.

(** ** The file table *)

(** The characters of a C string literal, without its terminating NUL. *)
Definition chars (s : string) : list Z :=
  map (fun a => Z.of_nat (Ascii.nat_of_ascii a))
      (String.list_ascii_of_string s).

(** [strlen]: the characters before the first NUL; the end of the list stands
    for the terminator of the array. *)
Fixpoint strlen (s : list Z) : Z :=
  match s with
  | [] => 0
  | c :: s' => if c =? 0 then 0 else 1 + strlen s'
  end.

Record TextFile := mkTextFile {
  (** [char const name[11]] *)
  name : list Z;
  (** [char const *content], [None] for [NULL] *)
  content : option (list Z)
}.

Definition CR : Z := 13.
Definition LF : Z := 10.
Definition DQUOTE : Z := 34.

Definition UF2_VERSION : list Z := chars "0.0.0".
Definition UF2_PRODUCT_NAME : list Z := chars "Espressif saola".
Definition UF2_BOARD_ID : list Z := chars "adafruit-test-board".
Definition UF2_VOLUME_LABEL : list Z := chars "ESP32SBOOT".
Definition UF2_INDEX_URL : list Z := chars "https://adafruit.com".

Definition infoUf2File : list Z :=
  chars "UF2 Bootloader " ++ UF2_VERSION ++ [CR; LF] ++
  chars "Model: " ++ UF2_PRODUCT_NAME ++ [CR; LF] ++
  chars "Board-ID: " ++ UF2_BOARD_ID ++ [CR; LF].

Definition indexFile : list Z :=
  chars "<!doctype html>" ++ [LF] ++
  chars "<html>" ++
  chars "<body>" ++
  chars "<script>" ++ [LF] ++
  chars "location.replace(" ++ [DQUOTE] ++ UF2_INDEX_URL ++ [DQUOTE] ++
  chars ");" ++ [LF] ++
  chars "</script>" ++
  chars "</body>" ++
  chars "</html>" ++ [LF].

Definition info : list TextFile := [
  {| name := chars "INFO_UF2TXT"; content := Some infoUf2File |};
  {| name := chars "INDEX   HTM"; content := Some indexFile |};
  (* current.uf2 must be the last element and its content must be NULL *)
  {| name := chars "CURRENT UF2"; content := None |}
].

(** ** Geometry *)

Definition BPB_SECTORS_PER_CLUSTER : Z := 1.
Definition BPB_RESERVED_SECTORS : Z := 1.
Definition BPB_NUMBER_OF_FATS : Z := 2.
Definition BPB_ROOT_DIR_ENTRIES : Z := 64.
Definition BPB_MEDIA_DESCRIPTOR_BYTE : Z := 0xF8.
Definition FAT_ENTRY_SIZE : Z := 2.
Definition FAT_ENTRIES_PER_SECTOR : Z := BPB_SECTOR_SIZE / FAT_ENTRY_SIZE.
Definition sizeof_DirEntry : Z := 32.
Definition DIRENTRIES_PER_SECTOR : Z := BPB_SECTOR_SIZE / sizeof_DirEntry.
Definition ROOT_DIR_SECTOR_COUNT : Z :=
  BPB_ROOT_DIR_ENTRIES / DIRENTRIES_PER_SECTOR.
Definition NUM_FILES : Z := Z.of_nat (length info).
Definition NUM_DIRENTRIES : Z := NUM_FILES + 1.
Definition UF2_FIRMWARE_BYTES_PER_SECTOR : Z := 256.
Definition USER_FLASH_START : Z := 0.
Definition UF2_FIRST_SECTOR : Z := (NUM_FILES + 1) * BPB_SECTORS_PER_CLUSTER.
Definition FS_START_FAT0_SECTOR : Z := BPB_RESERVED_SECTORS.

(** Offsets of the fields of the packed struct [DirEntry]. *)
Module DirEntry.
Definition off_name : Z := 0.
Definition off_ext : Z := 8.
Definition off_attrs : Z := 11.
Definition off_reserved : Z := 12.
Definition off_createTimeFine : Z := 13.
Definition off_createTime : Z := 14.
Definition off_createDate : Z := 16.
Definition off_lastAccessDate : Z := 18.
Definition off_highStartCluster : Z := 20.
Definition off_updateTime : Z := 22.
Definition off_updateDate : Z := 24.
Definition off_startCluster : Z := 26.
Definition off_size : Z := 28.

Definition startCluster (data : Buf.t) (d : Z) : Z :=
  Buf.get16 data (d + off_startCluster).
Definition highStartCluster (data : Buf.t) (d : Z) : Z :=
  Buf.get16 data (d + off_highStartCluster).
Definition size (data : Buf.t) (d : Z) : Z :=
  Buf.get32 data (d + off_size).
End DirEntry.

(** [BootBlock.VolumeLabel]: [uint8_t VolumeLabel[11]] initialised from the
    ten characters of [UF2_VOLUME_LABEL], the rest of the array zero. *)
Definition BootBlock_VolumeLabel : list Z :=
  UF2_VOLUME_LABEL ++ replicate (11 - length UF2_VOLUME_LABEL)%nat 0.

(** [padded_memcpy(dst, src, len)] with [dst = data + off]: copy up to the NUL
    of [src], then pad with spaces. *)
Fixpoint padded_memcpy (data : Buf.t) (off : Z) (src : list Z) (len : nat)
  : Buf.t :=
  match len with
  | O => data
  | S len' =>
      match src with
      | c :: src' =>
          if c =? 0 then padded_memcpy (Buf.set8 data off 32) (off + 1) src len'
          else padded_memcpy (Buf.set8 data off c) (off + 1) src' len'
      | [] => padded_memcpy (Buf.set8 data off 32) (off + 1) [] len'
      end
  end.

Section SectorGenerator.

Variable cfg : Config.

Definition BPB_TOTAL_SECTORS : Z := CFG_UF2_NUM_BLOCKS cfg.

(* NOTE: MS specification explicitly allows FAT to be larger than necessary *)
Definition BPB_SECTORS_PER_FAT : Z :=
  BPB_TOTAL_SECTORS / FAT_ENTRIES_PER_SECTOR
  + (if BPB_TOTAL_SECTORS mod FAT_ENTRIES_PER_SECTOR =? 0 then 0 else 1).

Definition NUM_SECTORS_IN_DATA_REGION : Z :=
  BPB_TOTAL_SECTORS - BPB_RESERVED_SECTORS
  - BPB_NUMBER_OF_FATS * BPB_SECTORS_PER_FAT - ROOT_DIR_SECTOR_COUNT.
Definition CLUSTER_COUNT : Z :=
  NUM_SECTORS_IN_DATA_REGION / BPB_SECTORS_PER_CLUSTER.

Definition UF2_SECTORS : Z := part_size cfg / UF2_FIRMWARE_BYTES_PER_SECTOR.
Definition UF2_SIZE : Z := u32 (UF2_SECTORS * BPB_SECTOR_SIZE).
Definition UF2_LAST_SECTOR : Z :=
  u32 (UF2_FIRST_SECTOR + UF2_SECTORS - 1) * BPB_SECTORS_PER_CLUSTER.

Definition FS_START_FAT1_SECTOR : Z :=
  FS_START_FAT0_SECTOR + BPB_SECTORS_PER_FAT.
Definition FS_START_ROOTDIR_SECTOR : Z :=
  FS_START_FAT1_SECTOR + BPB_SECTORS_PER_FAT.
Definition FS_START_CLUSTERS_SECTOR : Z :=
  FS_START_ROOTDIR_SECTOR + ROOT_DIR_SECTOR_COUNT.

(** The compile-time assertions of the source on the geometry, with the
    ranges of the unsigned 32-bit configuration values. *)
Definition geometry_ok : Prop :=
  0 <= BPB_TOTAL_SECTORS < 2 ^ 32 /\
  0 <= part_size cfg < 2 ^ 32 /\
  0 <= CFG_UF2_FLASH_SIZE cfg < 2 ^ 32 /\
  (* Ensure cluster count results in a valid FAT16 volume, and avoid being
     within 32 of those limits *)
  0x1015 <= CLUSTER_COUNT < 0xFFD5.

(** The packed struct [BootBlock], 62 bytes. *)
Definition BootBlock : Buf.t :=
  let b := Buf.zeros 62 in
  let b := Buf.memcpy b 0 [0xeb; 0x3c; 0x90] in
  let b := Buf.memcpy b 3 (chars "UF2 UF2 ") in
  let b := Buf.set16 b 11 BPB_SECTOR_SIZE in
  let b := Buf.set8 b 13 BPB_SECTORS_PER_CLUSTER in
  let b := Buf.set16 b 14 BPB_RESERVED_SECTORS in
  let b := Buf.set8 b 16 BPB_NUMBER_OF_FATS in
  let b := Buf.set16 b 17 BPB_ROOT_DIR_ENTRIES in
  let b := Buf.set16 b 19
             (if 0xFFFF <? BPB_TOTAL_SECTORS then 0 else BPB_TOTAL_SECTORS) in
  let b := Buf.set8 b 21 BPB_MEDIA_DESCRIPTOR_BYTE in
  let b := Buf.set16 b 22 BPB_SECTORS_PER_FAT in
  let b := Buf.set16 b 24 1 in
  let b := Buf.set16 b 26 1 in
  let b := Buf.set32 b 32
             (if 0xFFFF <? BPB_TOTAL_SECTORS then BPB_TOTAL_SECTORS else 0) in
  let b := Buf.set8 b 36 0x80 in
  let b := Buf.set8 b 38 0x29 in
  let b := Buf.set32 b 39 0x00420042 in
  let b := Buf.memcpy b 43 BootBlock_VolumeLabel in
  Buf.memcpy b 54 (chars "FAT16   ").

(** [for ( uint32_t i = 1; i < end; ++i ) data[i] = 0xff;] with [n] the
    iterations left. *)
Fixpoint fat_reserved_loop (n : nat) (i : Z) (data : Buf.t) : Buf.t :=
  match n with
  | O => data
  | S n' => fat_reserved_loop n' (i + 1) (Buf.set8 data i 0xff)
  end.

(** The FAT chain of the firmware file: the loop over the entries of one
    FAT sector, with [n] the iterations left. *)
Fixpoint fat_chain_loop (n : nat) (i : Z) (sectionIdx : Z) (data : Buf.t)
  : Buf.t :=
  match n with
  | O => data
  | S n' =>
      let v := u32 (u32 (sectionIdx * FAT_ENTRIES_PER_SECTOR) + i) in
      let data :=
        if (UF2_FIRST_SECTOR <=? v) && (v <=? UF2_LAST_SECTOR) then
          Buf.set16 data (FAT_ENTRY_SIZE * i)
            (if v =? UF2_LAST_SECTOR then 0xffff else u32 (v + 1))
        else data in
      fat_chain_loop n' (i + 1) sectionIdx data
  end.

(** The global cluster number [v] of entry [i] of logical FAT sector
    [sectionIdx], the test of the chain loop on it and the link it
    stores. *)
Definition fat_v (sectionIdx i : Z) : Z :=
  u32 (u32 (sectionIdx * FAT_ENTRIES_PER_SECTOR) + i).

Definition in_chain (v : Z) : bool :=
  (UF2_FIRST_SECTOR <=? v) && (v <=? UF2_LAST_SECTOR).

Definition chain_link (v : Z) : Z :=
  if v =? UF2_LAST_SECTOR then 0xffff else u32 (v + 1).

(** One pass of the body of the directory loop: the entry of file [i] at
    [DirEntry *d = data + d]. *)
Definition dir_entry (i : Z) (inf : TextFile) (d : Z) (data : Buf.t)
  : Buf.t :=
  (* WARNING -- code presumes all but last file take exactly one sector *)
  let startCluster := u16 (i + 2) in
  let data := padded_memcpy data (d + DirEntry.off_name) (name inf) 11 in
  let data := Buf.set8 data (d + DirEntry.off_createTimeFine)
                (SECONDS_INT cfg mod 2 * 100) in
  let data := Buf.set16 data (d + DirEntry.off_createTime) (DOSTIME cfg) in
  let data := Buf.set16 data (d + DirEntry.off_createDate) (DOSDATE cfg) in
  let data := Buf.set16 data (d + DirEntry.off_lastAccessDate) (DOSDATE cfg) in
  let data := Buf.set16 data (d + DirEntry.off_highStartCluster)
                (Z.shiftr startCluster 16) in
  let data := Buf.set16 data (d + DirEntry.off_updateTime) (DOSTIME cfg) in
  let data := Buf.set16 data (d + DirEntry.off_updateDate) (DOSDATE cfg) in
  let data := Buf.set16 data (d + DirEntry.off_startCluster)
                (Z.land startCluster 0xFFFF) in
  Buf.set32 data (d + DirEntry.off_size)
    (match content inf with
     | Some c => strlen c
     | None => UF2_SIZE
     end).

(** The directory loop, [i] and [d] advancing together; [fuel] bounds the
    iterations, and [NUM_FILES] of it is never used up. *)
Fixpoint dir_loop (fuel : nat) (i d remainingEntries : Z) (data : Buf.t)
  : Buf.t :=
  match fuel with
  | O => data
  | S fuel' =>
      if (0 <? remainingEntries) && (i <? NUM_FILES) then
        match info !! Z.to_nat i with
        | Some inf =>
            dir_loop fuel' (u32 (i + 1)) (d + sizeof_DirEntry)
              remainingEntries (dir_entry i inf d data)
        | None => data
        end
      else data
  end.

Definition uf2_read_block (block_no : Z) : Buf.t :=
  let data := Buf.zeros (Z.to_nat BPB_SECTOR_SIZE) in
  let sectionIdx := block_no in
  if block_no =? 0 then
    (* Requested boot block *)
    let data := Buf.memcpy data 0 BootBlock in
    let data := Buf.set8 data 510 0x55 in
    Buf.set8 data 511 0xaa
  else if block_no <? FS_START_ROOTDIR_SECTOR then
    (* Requested FAT table sector *)
    let sectionIdx := u32 (sectionIdx - FS_START_FAT0_SECTOR) in
    (* second FAT is same as the first... *)
    let sectionIdx :=
      if BPB_SECTORS_PER_FAT <=? sectionIdx
      then u32 (sectionIdx - BPB_SECTORS_PER_FAT) else sectionIdx in
    let data :=
      if sectionIdx =? 0 then
        (* first FAT entry must match BPB MediaDescriptor *)
        let data := Buf.set8 data 0 BPB_MEDIA_DESCRIPTOR_BYTE in
        let end_ := NUM_FILES * FAT_ENTRY_SIZE + 2 * FAT_ENTRY_SIZE in
        fat_reserved_loop (Z.to_nat (end_ - 1)) 1 data
      else data in
    fat_chain_loop (Z.to_nat FAT_ENTRIES_PER_SECTOR) 0 sectionIdx data
  else if block_no <? FS_START_CLUSTERS_SECTOR then
    (* Requested root directory sector *)
    let sectionIdx := u32 (sectionIdx - FS_START_ROOTDIR_SECTOR) in
    let d := 0 in
    let remainingEntries := DIRENTRIES_PER_SECTOR in
    let '(data, d, remainingEntries) :=
      if sectionIdx =? 0 then
        (* volume label is first directory entry *)
        let data :=
          padded_memcpy data (d + DirEntry.off_name) BootBlock_VolumeLabel 11 in
        let data := Buf.set8 data (d + DirEntry.off_attrs) 0x28 in
        (data, d + sizeof_DirEntry, remainingEntries - 1)
      else (data, d, remainingEntries) in
    dir_loop (Z.to_nat NUM_FILES) (u32 (DIRENTRIES_PER_SECTOR * sectionIdx))
      d remainingEntries data
  else if block_no <? BPB_TOTAL_SECTORS then
    let sectionIdx := u32 (sectionIdx - FS_START_CLUSTERS_SECTOR) in
    if sectionIdx <? NUM_FILES - 1 then
      match info !! Z.to_nat sectionIdx with
      | Some {| content := Some c |} =>
          Buf.memcpy data 0 (take (Z.to_nat (strlen c)) c)
      | _ => data
      end
    else
      (* generate the UF2 file data on-the-fly *)
      let sectionIdx := u32 (sectionIdx - (NUM_FILES - 1)) in
      let addr :=
        u32 (USER_FLASH_START
             + u32 (sectionIdx * UF2_FIRMWARE_BYTES_PER_SECTOR)) in
      if addr <? CFG_UF2_FLASH_SIZE cfg then
        let bl := data in
        let bl := Buf.set32 bl UF2_Block.off_magicStart0 UF2_MAGIC_START0 in
        let bl := Buf.set32 bl UF2_Block.off_magicStart1 UF2_MAGIC_START1 in
        let bl := Buf.set32 bl UF2_Block.off_magicEnd UF2_MAGIC_END in
        let bl := Buf.set32 bl UF2_Block.off_blockNo sectionIdx in
        let bl := Buf.set32 bl UF2_Block.off_numBlocks UF2_SECTORS in
        let bl := Buf.set32 bl UF2_Block.off_targetAddr addr in
        let bl := Buf.set32 bl UF2_Block.off_payloadSize
                    UF2_FIRMWARE_BYTES_PER_SECTOR in
        let bl := Buf.set32 bl UF2_Block.off_flags UF2_FLAG_FAMILYID in
        let bl := Buf.set32 bl UF2_Block.off_familyID (CFG_UF2_FAMILY_ID cfg) in
        let len := UF2_Block.payloadSize bl in
        match esp_partition_read cfg addr len with
        | Some bytes =>
            Buf.memcpy bl UF2_Block.off_data (take (Z.to_nat len) bytes)
        | None => bl
        end
      else data
  else data.

(** The sector that holds chunk [m] of the firmware file (the inline files
    come first in the data region), and whether reading it yields anything
    but zeros. *)
Definition firmware_sector (m : Z) : Z :=
  FS_START_CLUSTERS_SECTOR + (NUM_FILES - 1) + m.

Definition synthesizes (m : Z) : bool :=
  negb (Buf.all_zero (uf2_read_block (firmware_sector m))).

End SectorGenerator.

(** ** A configuration and blocks to evaluate the functions on *)

(** An instance of the configuration: a drive of 0x10109 sectors, a flash bound
    of 4 MiB, a partition of 0x160000 bytes whose byte at offset [a] is
    [a mod 251]. *)
Definition board_cfg : Config :=
  {| CFG_UF2_NUM_BLOCKS := 0x10109;
     CFG_UF2_FLASH_SIZE := 4 * 1024 * 1024;
     CFG_UF2_FAMILY_ID := 0xbfdd4eee;
     MAX_BLOCKS := 4 * 1024 * 1024 / 256 + 100;
     DOSTIME := 0x6000;
     DOSDATE := 0x5000;
     SECONDS_INT := 7;
     part_size := 0x160000;
     esp_partition_read := fun addr len =>
       if addr + len <=? 0x160000
       then Some (map (fun i => (addr + Z.of_nat i) mod 251)
                      (seq 0 (Z.to_nat len)))
       else None |}.

(** An upload packet with the given header fields and an empty payload. *)
Definition packet (flags blockNo numBlocks familyID : Z) : Buf.t :=
  let bl := Buf.zeros (Z.to_nat BPB_SECTOR_SIZE) in
  let bl := Buf.set32 bl UF2_Block.off_magicStart0 UF2_MAGIC_START0 in
  let bl := Buf.set32 bl UF2_Block.off_magicStart1 UF2_MAGIC_START1 in
  let bl := Buf.set32 bl UF2_Block.off_magicEnd UF2_MAGIC_END in
  let bl := Buf.set32 bl UF2_Block.off_blockNo blockNo in
  let bl := Buf.set32 bl UF2_Block.off_numBlocks numBlocks in
  let bl := Buf.set32 bl UF2_Block.off_flags flags in
  Buf.set32 bl UF2_Block.off_familyID familyID.

(** Three blocks of a three-block upload, and one way they may arrive:
    reversed, with repetitions in between. *)
Definition block0 : Buf.t := packet UF2_FLAG_FAMILYID 0 3 0.
Definition block1 : Buf.t := packet UF2_FLAG_FAMILYID 1 3 0.
Definition block2 : Buf.t := packet UF2_FLAG_FAMILYID 2 3 0.
Definition arrival_example : list Buf.t :=
  [block2; block1; block2; block0; block1].

(** [board_cfg] with a partition of 17 MiB: its firmware file has more
    clusters than a 16-bit FAT entry can number. *)
Definition big_partition_cfg : Config :=
  {| CFG_UF2_NUM_BLOCKS := CFG_UF2_NUM_BLOCKS board_cfg;
     CFG_UF2_FLASH_SIZE := CFG_UF2_FLASH_SIZE board_cfg;
     CFG_UF2_FAMILY_ID := CFG_UF2_FAMILY_ID board_cfg;
     MAX_BLOCKS := MAX_BLOCKS board_cfg;
     DOSTIME := DOSTIME board_cfg;
     DOSDATE := DOSDATE board_cfg;
     SECONDS_INT := SECONDS_INT board_cfg;
     part_size := 17 * 1024 * 1024;
     esp_partition_read := fun addr len =>
       if addr + len <=? 17 * 1024 * 1024
       then Some (map (fun i => (addr + Z.of_nat i) mod 251)
                      (seq 0 (Z.to_nat len)))
       else None |}.

(** [board_cfg] with a drive of 0x8000 sectors: the total fits the 16-bit
    field of the boot sector. *)
Definition small_drive_cfg : Config :=
  {| CFG_UF2_NUM_BLOCKS := 0x8000;
     CFG_UF2_FLASH_SIZE := CFG_UF2_FLASH_SIZE board_cfg;
     CFG_UF2_FAMILY_ID := CFG_UF2_FAMILY_ID board_cfg;
     MAX_BLOCKS := MAX_BLOCKS board_cfg;
     DOSTIME := DOSTIME board_cfg;
     DOSDATE := DOSDATE board_cfg;
     SECONDS_INT := SECONDS_INT board_cfg;
     part_size := part_size board_cfg;
     esp_partition_read := esp_partition_read board_cfg |}.

(** A boolean check that a buffer holds bytes. *)
Definition bytesb (d : Buf.t) : bool :=
  forallb (fun b => (0 <=? b) && (b <? 256)) d.

(** ** What a stream of writes has absorbed *)

(** The writes that reach the bitmask: the block passes validation, declares
    a nonzero total and has its index below [MAX_BLOCKS]. *)
Definition absorbs (cfg : Config) (data : Buf.t) : bool :=
  is_uf2_block data
  && negb (UF2_Block.numBlocks data =? 0)
  && (UF2_Block.blockNo data <? MAX_BLOCKS cfg).

(** The block indices a stream of writes has brought to the bitmask. *)
Definition absorbed (cfg : Config) (blocks : list Buf.t) : gset Z :=
  list_to_set
    (map UF2_Block.blockNo (filter (fun d => absorbs cfg d = true) blocks)).

(** ** The packets of the firmware file *)

(** The header of the packet of chunk [m], as the data-region branch of
    [uf2_read_block] writes it, before the payload is read from flash. *)
Definition firmware_header (cfg : Config) (m : Z) : Buf.t :=
  let bl := Buf.zeros (Z.to_nat BPB_SECTOR_SIZE) in
  let bl := Buf.set32 bl UF2_Block.off_magicStart0 UF2_MAGIC_START0 in
  let bl := Buf.set32 bl UF2_Block.off_magicStart1 UF2_MAGIC_START1 in
  let bl := Buf.set32 bl UF2_Block.off_magicEnd UF2_MAGIC_END in
  let bl := Buf.set32 bl UF2_Block.off_blockNo m in
  let bl := Buf.set32 bl UF2_Block.off_numBlocks (UF2_SECTORS cfg) in
  let bl := Buf.set32 bl UF2_Block.off_targetAddr
              (m * UF2_FIRMWARE_BYTES_PER_SECTOR) in
  let bl := Buf.set32 bl UF2_Block.off_payloadSize
              UF2_FIRMWARE_BYTES_PER_SECTOR in
  let bl := Buf.set32 bl UF2_Block.off_flags UF2_FLAG_FAMILYID in
  Buf.set32 bl UF2_Block.off_familyID (CFG_UF2_FAMILY_ID cfg).

(** The first [n] sectors of the firmware file. *)
Definition firmware_sectors (cfg : Config) (n : Z) : list Buf.t :=
  map (fun m => uf2_read_block cfg (firmware_sector cfg m)) (seqZ 0 n).

(** The partition read hands out bytes. *)
Definition flash_bytes (cfg : Config) : Prop :=
  forall addr len bytes,
    esp_partition_read cfg addr len = Some bytes -> Buf.bytes bytes.

(** * Facts about byte buffers *)

Section BufFacts.

Implicit Types (d : Buf.t) (o v : Z).

Lemma length_set8 d o v : length (Buf.set8 d o v) = length d.
Proof. apply length_insert. Qed.

Lemma length_set16 d o v : length (Buf.set16 d o v) = length d.
Proof. unfold Buf.set16. by rewrite !length_set8. Qed.

Lemma length_set32 d o v : length (Buf.set32 d o v) = length d.
Proof. unfold Buf.set32. by rewrite !length_set8. Qed.

Lemma length_memcpy d o src : length (Buf.memcpy d o src) = length d.
Proof. apply length_inserts. Qed.

Lemma length_zeros n : length (Buf.zeros n) = n.
Proof. apply length_replicate. Qed.

Lemma get8_zeros n o :
  (Z.to_nat o < n)%nat -> Buf.get8 (Buf.zeros n) o = 0.
Proof. intros Hlt. by apply lookup_total_replicate_2. Qed.

Lemma get8_set8_eq d o v :
  (Z.to_nat o < length d)%nat -> Buf.get8 (Buf.set8 d o v) o = u8 v.
Proof.
  intros Hlt. unfold Buf.get8, Buf.set8.
  by apply list_lookup_total_insert_eq.
Qed.

Lemma get8_set8_ne d o o' v :
  0 <= o -> 0 <= o' -> o <> o' ->
  Buf.get8 (Buf.set8 d o v) o' = Buf.get8 d o'.
Proof.
  intros Ho Ho' Hne. unfold Buf.get8, Buf.set8.
  apply list_lookup_total_insert_ne. lia.
Qed.

Lemma get8_set16_ne d o o' v :
  0 <= o -> 0 <= o' -> o' < o \/ o + 1 < o' ->
  Buf.get8 (Buf.set16 d o v) o' = Buf.get8 d o'.
Proof.
  intros. unfold Buf.set16. rewrite !get8_set8_ne by lia. done.
Qed.

Lemma get8_set32_ne d o o' v :
  0 <= o -> 0 <= o' -> o' < o \/ o + 3 < o' ->
  Buf.get8 (Buf.set32 d o v) o' = Buf.get8 d o'.
Proof.
  intros. unfold Buf.set32. rewrite !get8_set8_ne by lia. done.
Qed.

Lemma get8_memcpy_lt d o src o' :
  0 <= o' < o -> Buf.get8 (Buf.memcpy d o src) o' = Buf.get8 d o'.
Proof.
  intros H. unfold Buf.get8, Buf.memcpy.
  apply list_lookup_total_inserts_lt. lia.
Qed.

Lemma get8_memcpy_ge d o src o' :
  0 <= o -> o + Z.of_nat (length src) <= o' ->
  Buf.get8 (Buf.memcpy d o src) o' = Buf.get8 d o'.
Proof.
  intros Ho H. unfold Buf.get8, Buf.memcpy.
  apply list_lookup_total_inserts_ge. lia.
Qed.

Lemma u8_range v : 0 <= u8 v < 256.
Proof. unfold u8. apply Z.mod_pos_bound. lia. Qed.

Lemma le16_join v : u8 v + 2 ^ 8 * u8 (v / 2 ^ 8) = u16 v.
Proof.
  unfold u8, u16. change (2 ^ 8) with 256. change (2 ^ 16) with 65536.
  Z.to_euclidean_division_equations. lia.
Qed.

Lemma le32_join v :
  u8 v + 2 ^ 8 * u8 (v / 2 ^ 8) + 2 ^ 16 * u8 (v / 2 ^ 16)
  + 2 ^ 24 * u8 (v / 2 ^ 24) = u32 v.
Proof.
  unfold u8, u32.
  change (2 ^ 8) with 256. change (2 ^ 16) with 65536.
  change (2 ^ 24) with 16777216. change (2 ^ 32) with 4294967296.
  Z.to_euclidean_division_equations. lia.
Qed.

Lemma get16_set16_eq d o v :
  0 <= o -> (Z.to_nat (o + 1) < length d)%nat ->
  Buf.get16 (Buf.set16 d o v) o = u16 v.
Proof.
  intros Ho Hlen. unfold Buf.get16, Buf.set16.
  rewrite get8_set8_ne by lia.
  rewrite !get8_set8_eq by (rewrite ?length_set8; lia).
  apply le16_join.
Qed.

Lemma get32_set32_eq d o v :
  0 <= o -> (Z.to_nat (o + 3) < length d)%nat ->
  Buf.get32 (Buf.set32 d o v) o = u32 v.
Proof.
  intros Ho Hlen. unfold Buf.get32, Buf.set32.
  repeat first
    [ rewrite get8_set8_eq by (rewrite ?length_set8; lia)
    | rewrite get8_set8_ne by lia ].
  apply le32_join.
Qed.

(** A field read is unchanged by writes that do not overlap it. *)
Lemma get16_frame d d' o :
  (forall o', o <= o' <= o + 1 -> Buf.get8 d' o' = Buf.get8 d o') ->
  Buf.get16 d' o = Buf.get16 d o.
Proof. intros H. unfold Buf.get16. rewrite !H by lia. done. Qed.

Lemma get32_frame d d' o :
  (forall o', o <= o' <= o + 3 -> Buf.get8 d' o' = Buf.get8 d o') ->
  Buf.get32 d' o = Buf.get32 d o.
Proof. intros H. unfold Buf.get32. rewrite !H by lia. done. Qed.

Lemma get32_set32_ne d o o' v :
  0 <= o -> 0 <= o' -> o' + 3 < o \/ o + 3 < o' ->
  Buf.get32 (Buf.set32 d o v) o' = Buf.get32 d o'.
Proof.
  intros. apply get32_frame. intros. apply get8_set32_ne; lia.
Qed.

Lemma get8_bytes d o : Buf.bytes d -> 0 <= Buf.get8 d o < 256.
Proof.
  intros Hb. unfold Buf.get8.
  destruct (d !! Z.to_nat o) as [b|] eqn:Hl.
  - rewrite (list_lookup_total_correct _ _ _ Hl).
    eapply (Forall_lookup_1 _ _ _ _ Hb Hl).
  - rewrite list_lookup_total_alt, Hl.
    compute. split; [discriminate | reflexivity].
Qed.

Lemma get32_bytes d o : Buf.bytes d -> 0 <= Buf.get32 d o < 2 ^ 32.
Proof.
  intros Hb. unfold Buf.get32.
  pose proof (get8_bytes d o Hb). pose proof (get8_bytes d (o + 1) Hb).
  pose proof (get8_bytes d (o + 2) Hb). pose proof (get8_bytes d (o + 3) Hb).
  lia.
Qed.

Lemma all_zero_get8 d o :
  (Z.to_nat o < length d)%nat -> Buf.all_zero d = true -> Buf.get8 d o = 0.
Proof.
  unfold Buf.all_zero, Buf.get8. intros Hlt H.
  pose proof (list_lookup_lookup_total_lt d _ Hlt) as Hl.
  rewrite forallb_forall in H.
  apply Z.eqb_eq, H, list_elem_of_In. by eapply list_elem_of_lookup_2.
Qed.

Lemma all_zero_zeros n : Buf.all_zero (Buf.zeros n) = true.
Proof.
  unfold Buf.all_zero, Buf.zeros. apply forallb_forall.
  intros x Hx. apply list_elem_of_In, elem_of_replicate in Hx as [-> _]. done.
Qed.

End BufFacts.

(** * Facts about single bits of a mask byte *)

Section Bits.

Implicit Types (b j : Z).

Lemma testbit_set_bit b j i :
  0 <= j -> 0 <= i ->
  Z.testbit (Z.lor b (Z.shiftl 1 j)) i = Z.testbit b i || (j =? i).
Proof.
  intros Hj Hi. by rewrite Z.lor_spec, Z.shiftl_1_l, Z.pow2_bits_eqb.
Qed.

Lemma bit_clear_testbit b j :
  0 <= j -> (Z.land b (Z.shiftl 1 j) =? 0) = negb (Z.testbit b j).
Proof.
  intros Hj. rewrite Z.shiftl_1_l.
  destruct (Z.testbit b j) eqn:Hb; simpl.
  - apply Z.eqb_neq. intros H0.
    apply (f_equal (fun x => Z.testbit x j)) in H0.
    rewrite Z.land_spec, Hb, Z.pow2_bits_eqb, Z.eqb_refl, Z.bits_0 in H0 by lia.
    discriminate.
  - apply Z.eqb_eq, Z.bits_inj'. intros i Hi.
    rewrite Z.land_spec, Z.pow2_bits_eqb, Z.bits_0 by lia.
    destruct (Z.eqb_spec j i) as [->|]; [by rewrite Hb | apply andb_false_r].
Qed.

Lemma set_bit_twice b j :
  0 <= j ->
  Z.lor (Z.lor b (Z.shiftl 1 j)) (Z.shiftl 1 j) = Z.lor b (Z.shiftl 1 j).
Proof. intros _. by rewrite <- Z.lor_assoc, Z.lor_diag. Qed.

Lemma set_bit_comm b j1 j2 :
  Z.lor (Z.lor b (Z.shiftl 1 j1)) (Z.shiftl 1 j2)
  = Z.lor (Z.lor b (Z.shiftl 1 j2)) (Z.shiftl 1 j1).
Proof.
  rewrite <- !Z.lor_assoc. f_equal. apply Z.lor_comm.
Qed.

(** A block index is its byte position and its bit within the byte. *)
Lemma pos_bit_inj bn1 bn2 :
  bn1 / 8 = bn2 / 8 -> bn1 mod 8 = bn2 mod 8 -> bn1 = bn2.
Proof.
  intros Hd Hm.
  rewrite (Z.div_mod bn1 8), (Z.div_mod bn2 8) by lia. congruence.
Qed.

End Bits.

(** * Facts about the write-ingestion state machine *)

Section WriteFacts.

Variable cfg : Config.

Implicit Types (s : WriteState) (data : Buf.t) (bn : Z).

Lemma WriteState_eq s1 s2 :
  numBlocks s1 = numBlocks s2 -> numWritten s1 = numWritten s2 ->
  writtenMask s1 = writtenMask s2 -> s1 = s2.
Proof. destruct s1, s2; simpl; congruence. Qed.

(** A rejected block: the sentinel and the state as it was. *)
Lemma uf2_write_block_rejected block_no data s :
  is_uf2_block data = false ->
  uf2_write_block cfg block_no data s = (-1, s).
Proof. intros H. unfold uf2_write_block. by rewrite H. Qed.

(** An accepted block: the sector size, and the two updates in turn. *)
Lemma uf2_write_block_accepted block_no data s :
  is_uf2_block data = true ->
  uf2_write_block cfg block_no data s
  = (BPB_SECTOR_SIZE,
     if UF2_Block.numBlocks data =? 0 then s
     else mark_block cfg (UF2_Block.blockNo data)
            (learn_total cfg (UF2_Block.numBlocks data) s)).
Proof.
  intros H. unfold uf2_write_block. rewrite H. cbv zeta. simpl negb.
  cbv iota. f_equal.
  destruct (UF2_Block.numBlocks data =? 0) eqn:Hn; simpl negb; cbv iota;
    [done|].
  unfold mark_block, written.
  fold (learn_total cfg (UF2_Block.numBlocks data) s).
  destruct (UF2_Block.blockNo data <? MAX_BLOCKS cfg); [|done].
  by destruct (Z.land _ _ =? 0).
Qed.

Lemma write_state_rejected data s :
  is_uf2_block data = false -> write_state cfg data s = s.
Proof.
  intros H. unfold write_state. by rewrite uf2_write_block_rejected.
Qed.

Lemma write_state_accepted data s :
  is_uf2_block data = true ->
  write_state cfg data s
  = if UF2_Block.numBlocks data =? 0 then s
    else mark_block cfg (UF2_Block.blockNo data)
           (learn_total cfg (UF2_Block.numBlocks data) s).
Proof.
  intros H. unfold write_state. by rewrite uf2_write_block_accepted.
Qed.

(** ** Learning the total *)

Lemma learn_total_numWritten total s :
  numWritten (learn_total cfg total s) = numWritten s.
Proof. unfold learn_total. destruct (negb _); [|done]. by destruct (_ || _). Qed.

Lemma learn_total_writtenMask total s :
  writtenMask (learn_total cfg total s) = writtenMask s.
Proof. unfold learn_total. destruct (negb _); [|done]. by destruct (_ || _). Qed.

Lemma learn_total_numBlocks total s :
  numBlocks (learn_total cfg total s)
  = if numBlocks s =? total then numBlocks s
    else if (MAX_BLOCKS cfg <=? total) || negb (numBlocks s =? 0)
         then 0xffffffff else total.
Proof.
  unfold learn_total. destruct (numBlocks s =? total) eqn:E; [done|].
  simpl. by destruct (_ || _).
Qed.

Lemma learn_total_idem total s :
  learn_total cfg total (learn_total cfg total s) = learn_total cfg total s.
Proof.
  apply WriteState_eq;
    rewrite ?learn_total_numWritten, ?learn_total_writtenMask; try done.
  rewrite !learn_total_numBlocks.
  destruct (numBlocks s =? total) eqn:E1; [by rewrite E1|].
  destruct ((MAX_BLOCKS cfg <=? total) || negb (numBlocks s =? 0)) eqn:E2.
  - destruct (4294967295 =? total) eqn:E3; [done|].
    by rewrite orb_true_r.
  - by rewrite Z.eqb_refl.
Qed.

Lemma learn_total_sentinel total s :
  numBlocks s = 0xffffffff ->
  numBlocks (learn_total cfg total s) = 0xffffffff.
Proof.
  intros H. rewrite learn_total_numBlocks, H.
  destruct (4294967295 =? total); [done|]. by rewrite orb_true_r.
Qed.

Lemma learn_total_ok total s :
  state_ok cfg s -> state_ok cfg (learn_total cfg total s).
Proof. unfold state_ok. by rewrite learn_total_writtenMask. Qed.

(** ** Marking a block index *)

Lemma mark_block_numBlocks bn s :
  numBlocks (mark_block cfg bn s) = numBlocks s.
Proof.
  unfold mark_block. destruct (bn <? MAX_BLOCKS cfg); [|done].
  by destruct (written s bn).
Qed.

Lemma mark_block_ok bn s :
  state_ok cfg s -> state_ok cfg (mark_block cfg bn s).
Proof.
  unfold state_ok, mark_block. intros H.
  destruct (bn <? MAX_BLOCKS cfg); [|done].
  destruct (written s bn); [done|]. simpl. by rewrite length_insert.
Qed.

Lemma mark_learn_comm bn total s :
  learn_total cfg total (mark_block cfg bn s)
  = mark_block cfg bn (learn_total cfg total s).
Proof.
  unfold mark_block, written.
  rewrite !learn_total_writtenMask.
  destruct (bn <? MAX_BLOCKS cfg); [|done].
  destruct (negb (Z.land _ _ =? 0)); [done|].
  unfold learn_total. simpl.
  destruct (negb _); [|done]. by destruct (_ || _).
Qed.

(** The byte position of an index below [MAX_BLOCKS] is inside the mask. *)
Lemma pos_in_mask bn s :
  state_ok cfg s -> 0 <= bn < MAX_BLOCKS cfg ->
  (Z.to_nat (bn / 8) < length (writtenMask s))%nat.
Proof.
  unfold state_ok. intros -> Hbn.
  assert (0 <= bn / 8 <= MAX_BLOCKS cfg / 8).
  { split; [apply Z.div_pos; lia | apply Z.div_le_mono; lia]. }
  lia.
Qed.

(** After marking [bn], exactly [bn] is added to the written indices. *)
Lemma written_mark_block bn bn' s :
  state_ok cfg s -> 0 <= bn < MAX_BLOCKS cfg -> 0 <= bn' ->
  written (mark_block cfg bn s) bn'
  = written s bn' || (bn' =? bn).
Proof.
  intros Hok Hbn Hbn'.
  pose proof (pos_in_mask bn s Hok Hbn) as Hpos.
  assert (0 <= bn mod 8 < 8) by (apply Z.mod_pos_bound; lia).
  assert (0 <= bn' mod 8 < 8) by (apply Z.mod_pos_bound; lia).
  unfold mark_block.
  destruct (Z.ltb_spec bn (MAX_BLOCKS cfg)); [|lia].
  destruct (written s bn) eqn:Hw.
  - destruct (Z.eqb_spec bn' bn) as [->|]; [by rewrite Hw|].
    by rewrite orb_false_r.
  - unfold written in *. simpl.
    rewrite !bit_clear_testbit in * by lia.
    destruct (decide (Z.to_nat (bn' / 8) = Z.to_nat (bn / 8))) as [Hp|Hp].
    + rewrite Hp, list_lookup_total_insert_eq by done.
      rewrite testbit_set_bit by lia.
      rewrite !negb_involutive. f_equal.
      destruct (Z.eqb_spec (bn mod 8) (bn' mod 8)) as [Hm|Hm];
        destruct (Z.eqb_spec bn' bn) as [He|He]; try done.
      * exfalso. apply He, pos_bit_inj; [|done].
        assert (0 <= bn / 8) by (apply Z.div_pos; lia).
        assert (0 <= bn' / 8) by (apply Z.div_pos; lia). lia.
      * subst. done.
    + rewrite list_lookup_total_insert_ne by done.
      destruct (Z.eqb_spec bn' bn) as [->|]; [done|].
      by rewrite orb_false_r.
Qed.

Lemma mark_block_seen bn s :
  written s bn = true -> mark_block cfg bn s = s.
Proof.
  intros H. unfold mark_block. rewrite H. by destruct (bn <? MAX_BLOCKS cfg).
Qed.

Lemma mark_block_new bn s :
  bn < MAX_BLOCKS cfg -> written s bn = false ->
  mark_block cfg bn s
  = {| numBlocks := numBlocks s;
       numWritten := u32 (numWritten s + 1);
       writtenMask :=
         <[Z.to_nat (bn / 8) :=
             Z.lor (writtenMask s !!! Z.to_nat (bn / 8))
                   (Z.shiftl 1 (bn mod 8))]> (writtenMask s) |}.
Proof.
  intros Hlt H. unfold mark_block. rewrite H.
  by destruct (Z.ltb_spec bn (MAX_BLOCKS cfg)); [|lia].
Qed.

Lemma mark_block_beyond bn s :
  MAX_BLOCKS cfg <= bn -> mark_block cfg bn s = s.
Proof.
  intros Hge. unfold mark_block.
  by destruct (Z.ltb_spec bn (MAX_BLOCKS cfg)); [lia|].
Qed.

Lemma mark_block_idem bn s :
  state_ok cfg s -> 0 <= bn ->
  mark_block cfg bn (mark_block cfg bn s) = mark_block cfg bn s.
Proof.
  intros Hok Hbn.
  destruct (Z.lt_ge_cases bn (MAX_BLOCKS cfg)) as [Hlt|Hge].
  - apply mark_block_seen.
    rewrite written_mark_block by (done || lia).
    by rewrite Z.eqb_refl, orb_true_r.
  - by rewrite !mark_block_beyond.
Qed.

Lemma mark_block_comm bn1 bn2 s :
  state_ok cfg s -> 0 <= bn1 -> 0 <= bn2 ->
  mark_block cfg bn1 (mark_block cfg bn2 s)
  = mark_block cfg bn2 (mark_block cfg bn1 s).
Proof.
  intros Hok H1 H2.
  destruct (decide (bn1 = bn2)) as [->|Hne]; [done|].
  destruct (Z.lt_ge_cases bn1 (MAX_BLOCKS cfg)) as [Hlt1|Hge1];
    [|by rewrite !(mark_block_beyond bn1)].
  destruct (Z.lt_ge_cases bn2 (MAX_BLOCKS cfg)) as [Hlt2|Hge2];
    [|by rewrite !(mark_block_beyond bn2)].
  pose proof (written_mark_block bn2 bn1 s Hok ltac:(lia) H1) as Hw1.
  pose proof (written_mark_block bn1 bn2 s Hok ltac:(lia) H2) as Hw2.
  replace (bn1 =? bn2) with false in Hw1 by (symmetry; apply Z.eqb_neq; lia).
  replace (bn2 =? bn1) with false in Hw2 by (symmetry; apply Z.eqb_neq; lia).
  rewrite orb_false_r in Hw1, Hw2.
  destruct (written s bn1) eqn:E1.
  { by rewrite (mark_block_seen bn1 (mark_block cfg bn2 s)),
      (mark_block_seen bn1 s). }
  destruct (written s bn2) eqn:E2.
  { by rewrite (mark_block_seen bn2 (mark_block cfg bn1 s)),
      (mark_block_seen bn2 s). }
  rewrite (mark_block_new bn1 (mark_block cfg bn2 s)) by done.
  rewrite (mark_block_new bn2 (mark_block cfg bn1 s)) by done.
  rewrite (mark_block_new bn1 s), (mark_block_new bn2 s) by done.
  simpl. f_equal.
  destruct (decide (Z.to_nat (bn1 / 8) = Z.to_nat (bn2 / 8))) as [Hp|Hp].
  - rewrite Hp.
    rewrite !list_lookup_total_insert_eq by (by apply pos_in_mask).
    rewrite !list_insert_insert_eq. f_equal. apply set_bit_comm.
  - rewrite !list_lookup_total_insert_ne by congruence.
    by apply list_insert_insert_ne.
Qed.

End WriteFacts.

(** * Streams of commuting, idempotent updates

    A stream of updates that commute pairwise and are idempotent leaves a
    state that depends only on the set of updates in it, not on their order
    or their repetitions. *)

Section OrderInsensitive.

Context {A St : Type} `{!EqDecision A}.
Variables (f : A -> St -> St) (P : A -> Prop) (I : St -> Prop).

Hypothesis f_inv : forall a s, P a -> I s -> I (f a s).
Hypothesis f_comm :
  forall a b s, P a -> P b -> I s -> f a (f b s) = f b (f a s).
Hypothesis f_idem : forall a s, P a -> I s -> f a (f a s) = f a s.

Local Abbreviation run l s := (foldl (fun s' a => f a s') s l).

Lemma run_absorb l a s :
  a ∈ l -> Forall P l -> I s -> run l (f a s) = run l s.
Proof.
  revert s. induction l as [|x l IH]; intros s Hin HP Hs.
  - by apply elem_of_nil in Hin.
  - apply Forall_cons in HP as [Hx HP]. simpl.
    destruct (decide (a = x)) as [->|Hne].
    + by rewrite f_idem.
    + apply elem_of_cons in Hin as [?|Hin]; [done|].
      assert (P a) by (by eapply Forall_forall in HP).
      rewrite f_comm by done. apply IH; auto.
Qed.

Lemma run_drop_seen l a s :
  P a -> Forall P l -> I s ->
  run l (f a s) = run (filter (fun x => x <> a) l) (f a s).
Proof.
  intros Ha. revert s. induction l as [|x l IH]; intros s HP Hs; [done|].
  apply Forall_cons in HP as [Hx HP]. simpl.
  destruct (decide (x = a)) as [->|Hne].
  - rewrite filter_cons_False by (intros ?; done).
    rewrite f_idem by done. by apply IH.
  - rewrite filter_cons_True by done. simpl.
    rewrite !(f_comm x a) by done. apply IH; auto.
Qed.

Lemma Forall_filter_keep (Q : A -> Prop) `{!forall x, Decision (Q x)} l :
  Forall P l -> Forall P (filter Q l).
Proof.
  rewrite !Forall_forall. intros HPl x Hx.
  apply list_elem_of_filter in Hx as [_ Hx]. by apply HPl.
Qed.

Lemma run_same_elements l1 l2 s :
  Forall P l1 -> Forall P l2 -> I s ->
  (forall a, a ∈ l1 <-> a ∈ l2) ->
  run l1 s = run l2 s.
Proof.
  remember (length l1) as n eqn:Hn. revert l1 l2 s Hn.
  induction n as [n IH] using lt_wf_ind. intros l1 l2 s -> HP1 HP2 Hs Heq.
  destruct l1 as [|a l1].
  - rewrite (elem_of_nil_inv l2); [done|].
    intros x Hx. apply Heq in Hx. by apply elem_of_nil in Hx.
  - pose proof HP1 as HP1'. apply Forall_cons in HP1' as [Ha HP1'].
    assert (a ∈ l2) as Hin2 by (apply Heq; left).
    rewrite <- (run_absorb l2 a s) by done.
    simpl. rewrite run_drop_seen by done.
    rewrite (run_drop_seen l2) by done.
    eapply IH; [| reflexivity | | | |].
    + simpl. pose proof (length_filter (fun x => x <> a) l1). lia.
    + by apply Forall_filter_keep.
    + by apply Forall_filter_keep.
    + by apply f_inv.
    + intros x. rewrite !list_elem_of_filter. rewrite <- Heq.
      rewrite elem_of_cons. tauto.
Qed.

End OrderInsensitive.

(** * Streams of upload blocks *)

Section StreamFacts.

Variable cfg : Config.

Implicit Types (s : WriteState) (data : Buf.t).

Lemma upload_block_blockNo data : upload_block data -> 0 <= UF2_Block.blockNo data.
Proof. intros [[_ Hb] _]. apply get32_bytes, Hb. Qed.

Lemma write_state_ok data s :
  state_ok cfg s -> state_ok cfg (write_state cfg data s).
Proof.
  intros Hok. destruct (is_uf2_block data) eqn:Hv.
  - rewrite write_state_accepted by done.
    destruct (_ =? 0); [done|]. by apply mark_block_ok, learn_total_ok.
  - by rewrite write_state_rejected.
Qed.

Lemma write_stream_ok blocks s :
  state_ok cfg s -> state_ok cfg (write_stream cfg blocks s).
Proof.
  revert s. induction blocks as [|b bs IH]; intros s Hok; [done|].
  simpl. apply IH. by apply write_state_ok.
Qed.

Lemma write_state_idem data s :
  upload_block data -> state_ok cfg s ->
  write_state cfg data (write_state cfg data s) = write_state cfg data s.
Proof.
  intros Hb Hok. pose proof (upload_block_blockNo _ Hb).
  destruct Hb as [_ Hv]. rewrite !write_state_accepted by done.
  destruct (_ =? 0); [done|].
  rewrite mark_learn_comm, learn_total_idem.
  by apply mark_block_idem; [apply learn_total_ok|].
Qed.

Lemma write_state_comm total a b s :
  stream_block total a -> stream_block total b -> state_ok cfg s ->
  write_state cfg a (write_state cfg b s)
  = write_state cfg b (write_state cfg a s).
Proof.
  intros [Ha Hta] [Hb Htb] Hok.
  pose proof (upload_block_blockNo _ Ha).
  pose proof (upload_block_blockNo _ Hb).
  destruct Ha as [_ Hva], Hb as [_ Hvb].
  rewrite !write_state_accepted by done. rewrite Hta, Htb.
  destruct (total =? 0); [done|].
  rewrite !mark_learn_comm, !learn_total_idem.
  by apply mark_block_comm; [apply learn_total_ok| |].
Qed.

(** Two streams of valid blocks declaring the same total, with the same
    blocks in them, leave the same state. *)
Lemma write_stream_same_blocks total l1 l2 s :
  Forall (stream_block total) l1 -> Forall (stream_block total) l2 ->
  state_ok cfg s ->
  (forall b, b ∈ l1 <-> b ∈ l2) ->
  write_stream cfg l1 s = write_stream cfg l2 s.
Proof.
  intros H1 H2 Hok Heq. unfold write_stream.
  apply (run_same_elements (write_state cfg) (stream_block total)
           (state_ok cfg)); try done.
  - intros a s' _ Hs'. by apply write_state_ok.
  - intros a b s' Ha Hb Hs'. by eapply write_state_comm.
  - intros a s' [Ha _] Hs'. by apply write_state_idem.
Qed.

End StreamFacts.

(** * The write-ingestion claims *)

Section WriteClaims.

Variable cfg : Config.

Implicit Types (s : WriteState) (data : Buf.t).

(** The five checks of [is_uf2_block], one by one. *)
Lemma is_uf2_block_true data :
  is_uf2_block data = true <->
  UF2_Block.magicStart0 data = UF2_MAGIC_START0 /\
  UF2_Block.magicStart1 data = UF2_MAGIC_START1 /\
  UF2_Block.magicEnd data = UF2_MAGIC_END /\
  Z.land (UF2_Block.flags data) UF2_FLAG_FAMILYID <> 0 /\
  Z.land (UF2_Block.flags data) UF2_FLAG_NOFLASH = 0.
Proof.
  unfold is_uf2_block.
  rewrite !andb_true_iff, negb_true_iff, !Z.eqb_eq, Z.eqb_neq. tauto.
Qed.

Lemma is_uf2_block_false data :
  is_uf2_block data = false <->
  UF2_Block.magicStart0 data <> UF2_MAGIC_START0 \/
  UF2_Block.magicStart1 data <> UF2_MAGIC_START1 \/
  UF2_Block.magicEnd data <> UF2_MAGIC_END \/
  Z.land (UF2_Block.flags data) UF2_FLAG_FAMILYID = 0 \/
  Z.land (UF2_Block.flags data) UF2_FLAG_NOFLASH <> 0.
Proof.
  unfold is_uf2_block.
  rewrite !andb_false_iff, negb_false_iff, !Z.eqb_neq, Z.eqb_eq. tauto.
Qed.

(** The header fields other than the family identifier do not move when
    the family identifier is overwritten. *)
Lemma set_familyID_fields data fam :
  let data' := Buf.set32 data UF2_Block.off_familyID fam in
  UF2_Block.magicStart0 data' = UF2_Block.magicStart0 data /\
  UF2_Block.magicStart1 data' = UF2_Block.magicStart1 data /\
  UF2_Block.magicEnd data' = UF2_Block.magicEnd data /\
  UF2_Block.flags data' = UF2_Block.flags data /\
  UF2_Block.blockNo data' = UF2_Block.blockNo data /\
  UF2_Block.numBlocks data' = UF2_Block.numBlocks data.
Proof.
  repeat split; apply get32_set32_ne; compute; intuition discriminate.
Qed.

(** C5: a 512-byte block that fails any of the start-magic, end-magic or
    flag checks is answered with the rejected sentinel [-1], and the
    ingestion state (learned total, counter, bitmask) is left as it was. *)
Theorem C5_rejected_state_unchanged block_no data s :
  length data = Z.to_nat BPB_SECTOR_SIZE ->
  UF2_Block.magicStart0 data <> UF2_MAGIC_START0 \/
  UF2_Block.magicStart1 data <> UF2_MAGIC_START1 \/
  UF2_Block.magicEnd data <> UF2_MAGIC_END \/
  Z.land (UF2_Block.flags data) UF2_FLAG_FAMILYID = 0 \/
  Z.land (UF2_Block.flags data) UF2_FLAG_NOFLASH <> 0 ->
  uf2_write_block cfg block_no data s = (-1, s).
Proof.
  intros _ Hbad. apply uf2_write_block_rejected.
  by apply is_uf2_block_false.
Qed.

(** C9: a 512-byte block that passes validation is answered with the
    accepted result 512, never with the retry-later result 0 (nor with the
    rejected sentinel), whatever its index, its declared total and the
    state, hence whether or not the completion condition holds after the
    call. *)
Theorem C9_accepted_returns_512 block_no data s :
  length data = Z.to_nat BPB_SECTOR_SIZE ->
  is_uf2_block data = true ->
  fst (uf2_write_block cfg block_no data s) = 512 /\
  fst (uf2_write_block cfg block_no data s) <> 0 /\
  fst (uf2_write_block cfg block_no data s) <> -1.
Proof.
  intros _ Hv. rewrite uf2_write_block_accepted by done. simpl.
  unfold BPB_SECTOR_SIZE. lia.
Qed.

(** C10: acceptance does not depend on the value of the family identifier.
    A block with both start magics, the end magic, the family-id-present
    flag set and the no-flash flag clear is accepted whatever its family
    identifier, and it is folded into the state: unless it declares a total
    of 0, the declared total is learned and the block's index is marked.
    Result and state are those of the same block carrying any other family
    identifier [fam] (the configured one included). *)
Theorem C10_familyID_value_ignored block_no data s fam :
  length data = Z.to_nat BPB_SECTOR_SIZE ->
  UF2_Block.magicStart0 data = UF2_MAGIC_START0 ->
  UF2_Block.magicStart1 data = UF2_MAGIC_START1 ->
  UF2_Block.magicEnd data = UF2_MAGIC_END ->
  Z.land (UF2_Block.flags data) UF2_FLAG_FAMILYID <> 0 ->
  Z.land (UF2_Block.flags data) UF2_FLAG_NOFLASH = 0 ->
  fst (uf2_write_block cfg block_no data s) = 512 /\
  uf2_write_block cfg block_no data s
  = uf2_write_block cfg block_no
      (Buf.set32 data UF2_Block.off_familyID fam) s /\
  snd (uf2_write_block cfg block_no data s)
  = if UF2_Block.numBlocks data =? 0 then s
    else mark_block cfg (UF2_Block.blockNo data)
           (learn_total cfg (UF2_Block.numBlocks data) s).
Proof.
  intros Hlen H0 H1 He Hf Hn.
  assert (is_uf2_block data = true) as Hv by (by apply is_uf2_block_true).
  destruct (set_familyID_fields data fam) as (E0 & E1 & Ee & Ef & Eb & Et).
  assert (is_uf2_block (Buf.set32 data UF2_Block.off_familyID fam) = true)
    as Hv'.
  { apply is_uf2_block_true. rewrite E0, E1, Ee, Ef. done. }
  rewrite !uf2_write_block_accepted by done. simpl.
  split; [done|]. split; [|done]. by rewrite Eb, Et.
Qed.

(** The sentinel total is never left again. *)
Lemma write_state_sentinel data s :
  numBlocks s = 0xffffffff ->
  numBlocks (write_state cfg data s) = 0xffffffff.
Proof.
  intros Hs. destruct (is_uf2_block data) eqn:Hv.
  - rewrite write_state_accepted by done. destruct (_ =? 0); [done|].
    rewrite mark_block_numBlocks. by apply learn_total_sentinel.
  - by rewrite write_state_rejected.
Qed.

Lemma write_stream_sentinel blocks s :
  numBlocks s = 0xffffffff ->
  numBlocks (write_stream cfg blocks s) = 0xffffffff.
Proof.
  revert s. induction blocks as [|b bs IH]; intros s Hs; [done|].
  simpl. apply IH. by apply write_state_sentinel.
Qed.

(** C7 (amended): an accepted block declaring a nonzero total that differs
    from the learned one sets the learned total to the sentinel
    [0xffffffff] when a total was already learned or the declared total is
    at least [MAX_BLOCKS] (not only when it exceeds it), and to the
    declared total otherwise.  Once set, the sentinel stays under every
    further write, and [numWritten >= numBlocks] then fails as long as the
    counter is below [0xffffffff]. *)
Theorem C7_learned_total block_no data s :
  is_uf2_block data = true ->
  UF2_Block.numBlocks data <> 0 ->
  UF2_Block.numBlocks data <> numBlocks s ->
  let s' := snd (uf2_write_block cfg block_no data s) in
  (numBlocks s <> 0 \/ MAX_BLOCKS cfg <= UF2_Block.numBlocks data ->
   numBlocks s' = 0xffffffff /\
   forall later,
     let s'' := write_stream cfg later s' in
     numBlocks s'' = 0xffffffff /\
     (numWritten s'' < 0xffffffff -> complete s'' = false)) /\
  (numBlocks s = 0 /\ UF2_Block.numBlocks data < MAX_BLOCKS cfg ->
   numBlocks s' = UF2_Block.numBlocks data).
Proof.
  intros Hv Hnz Hne s'. subst s'.
  rewrite uf2_write_block_accepted by done. simpl.
  destruct (Z.eqb_spec (UF2_Block.numBlocks data) 0) as [|_]; [done|].
  rewrite mark_block_numBlocks, learn_total_numBlocks.
  destruct (Z.eqb_spec (numBlocks s) (UF2_Block.numBlocks data)) as [|_];
    [congruence|].
  split.
  - intros Hcase.
    assert ((MAX_BLOCKS cfg <=? UF2_Block.numBlocks data)
            || negb (numBlocks s =? 0) = true) as ->.
    { apply orb_true_iff. destruct Hcase as [H0|Hmax].
      - right. by apply negb_true_iff, Z.eqb_neq.
      - left. by apply Z.leb_le. }
    split; [done|]. intros later. cbv zeta.
    match goal with
    | |- context [write_stream cfg later ?st] =>
        assert (numBlocks (write_stream cfg later st) = 0xffffffff) as Hst
    end.
    { apply write_stream_sentinel.
      rewrite mark_block_numBlocks, learn_total_numBlocks.
      destruct (Z.eqb_spec (numBlocks s) (UF2_Block.numBlocks data));
        [congruence|].
      destruct Hcase as [H0|Hmax].
      - replace (numBlocks s =? 0) with false
          by (symmetry; by apply Z.eqb_neq).
        by rewrite orb_true_r.
      - replace (MAX_BLOCKS cfg <=? UF2_Block.numBlocks data) with true
          by (symmetry; by apply Z.leb_le).
        done. }
    split; [done|]. intros Hlt. unfold complete. rewrite Hst.
    apply Z.leb_gt. lia.
  - intros [H0 Hlt].
    assert ((MAX_BLOCKS cfg <=? UF2_Block.numBlocks data)
            || negb (numBlocks s =? 0) = false) as ->; [|done].
    apply orb_false_iff. split; [by apply Z.leb_gt|].
    by apply negb_false_iff, Z.eqb_eq.
Qed.

(** C6 (amended): an accepted block that declares a nonzero total and whose
    index is below [MAX_BLOCKS] has its bit, at byte [blockNo / 8] and bit
    [blockNo mod 8], set and the counter incremented (modulo 2^32) if and
    only if the bit was not set before; otherwise counter and bitmask stay.
    The value of the declared total beyond being nonzero plays no part.  An
    accepted block that declares a total of 0 leaves the whole state, bitmask
    and counter included, as it was. *)
Theorem C6_mark_fresh_bit block_no data s :
  upload_block data -> state_ok cfg s ->
  let bn := UF2_Block.blockNo data in
  let pos := Z.to_nat (bn / 8) in
  let mask := Z.shiftl 1 (bn mod 8) in
  let s' := snd (uf2_write_block cfg block_no data s) in
  (UF2_Block.numBlocks data = 0 -> s' = s) /\
  (UF2_Block.numBlocks data <> 0 -> bn < MAX_BLOCKS cfg ->
   written s' bn = true /\
   if Z.land (writtenMask s !!! pos) mask =? 0 then
     numWritten s' = u32 (numWritten s + 1) /\
     writtenMask s' = <[pos := Z.lor (writtenMask s !!! pos) mask]>
                        (writtenMask s)
   else
     numWritten s' = numWritten s /\ writtenMask s' = writtenMask s).
Proof.
  intros Hup Hok bn pos mask s'.
  pose proof (upload_block_blockNo _ Hup) as Hbn.
  destruct Hup as [_ Hv]. subst s'.
  rewrite uf2_write_block_accepted by done. simpl.
  split.
  { intros ->. done. }
  intros Hnz Hlt.
  destruct (Z.eqb_spec (UF2_Block.numBlocks data) 0) as [|_]; [done|].
  set (s1 := learn_total cfg (UF2_Block.numBlocks data) s).
  assert (state_ok cfg s1) as Hok1 by (by apply learn_total_ok).
  split.
  { rewrite written_mark_block by (done || lia).
    by rewrite Z.eqb_refl, orb_true_r. }
  assert (written s1 bn = negb (Z.land (writtenMask s !!! pos) mask =? 0))
    as Hw.
  { unfold written, s1. by rewrite learn_total_writtenMask. }
  destruct (Z.land (writtenMask s !!! pos) mask =? 0); simpl in Hw.
  - rewrite mark_block_new by done. simpl. unfold s1.
    by rewrite learn_total_numWritten, learn_total_writtenMask.
  - rewrite mark_block_seen by done. unfold s1.
    by rewrite learn_total_numWritten, learn_total_writtenMask.
Qed.

(** C4 (amended): applying the same valid block twice in succession
    increments the counter once (modulo 2^32) when the block declares a
    nonzero total, its index is below [MAX_BLOCKS] and its bit was not yet
    set, and not at all otherwise; never twice.  The second application
    leaves the whole state, counter and bitmask included, unchanged. *)
Theorem C4_same_block_twice block_no data s :
  upload_block data -> state_ok cfg s ->
  let s1 := snd (uf2_write_block cfg block_no data s) in
  let s2 := snd (uf2_write_block cfg block_no data s1) in
  s2 = s1 /\
  numWritten s2
  = if negb (UF2_Block.numBlocks data =? 0)
       && (UF2_Block.blockNo data <? MAX_BLOCKS cfg)
       && negb (written s (UF2_Block.blockNo data))
    then u32 (numWritten s + 1) else numWritten s.
Proof.
  intros Hup Hok s1 s2.
  assert (s2 = s1) as Heq by (by apply write_state_idem).
  split; [done|]. rewrite Heq. subst s1 s2. clear Heq.
  destruct Hup as [_ Hv].
  rewrite uf2_write_block_accepted by done. simpl.
  destruct (UF2_Block.numBlocks data =? 0); [done|]. simpl.
  set (s1 := learn_total cfg (UF2_Block.numBlocks data) s).
  assert (written s1 (UF2_Block.blockNo data)
          = written s (UF2_Block.blockNo data)) as Hw.
  { unfold written, s1. by rewrite learn_total_writtenMask. }
  destruct (Z.ltb_spec (UF2_Block.blockNo data) (MAX_BLOCKS cfg)); simpl.
  - rewrite <- Hw. destruct (written s1 _) eqn:E; simpl.
    + rewrite mark_block_seen by done. apply learn_total_numWritten.
    + rewrite mark_block_new by done. simpl. unfold s1.
      by rewrite learn_total_numWritten.
  - rewrite mark_block_beyond by done. apply learn_total_numWritten.
Qed.

(** [ascending_order] is a rearrangement of the blocks, sorted by block
    index. *)
Lemma ascending_order_sorted blocks :
  Sorted blockNo_le (ascending_order blocks) /\
  ascending_order blocks ≡ₚ blocks.
Proof.
  split; [|apply merge_sort_Permutation].
  assert (Total blockNo_le) by (intros a b; unfold blockNo_le; lia).
  by apply Sorted_merge_sort.
Qed.

(** C3: valid blocks that all declare the same total leave, in any arrival
    order and with any repetitions, the bitmask and the completion result
    [numWritten >= numBlocks] (indeed the whole state) that they leave when
    applied once each in ascending block-index order. *)
Theorem C3_arrival_order_irrelevant total blocks arrival s :
  state_ok cfg s ->
  Forall (stream_block total) blocks ->
  NoDup blocks ->
  (forall b, b ∈ arrival <-> b ∈ blocks) ->
  let s1 := write_stream cfg arrival s in
  let s2 := write_stream cfg (ascending_order blocks) s in
  writtenMask s1 = writtenMask s2 /\ complete s1 = complete s2 /\ s1 = s2.
Proof.
  intros Hok Hbs _ Harr s1 s2.
  assert (s1 = s2) as ->; [|done].
  pose proof (ascending_order_sorted blocks) as [_ Hperm].
  apply (write_stream_same_blocks cfg total); try done.
  - rewrite Forall_forall in *. intros b Hb. by apply Hbs, Harr.
  - by rewrite Hperm.
  - intros b. by rewrite Harr, Hperm.
Qed.

End WriteClaims.

(** * Facts about the sector generator *)

(** Decide the comparisons of the goal, and close the impossible cases. *)
Ltac cmp_cases :=
  repeat match goal with
    | |- context [?a <=? ?b] => destruct (Z.leb_spec a b)
    | |- context [?a <? ?b] => destruct (Z.ltb_spec a b)
    | |- context [?a =? ?b] => destruct (Z.eqb_spec a b)
    end;
  simpl; try done; try lia.

Section ReadFacts.

Variable cfg : Config.

Implicit Types (data : Buf.t) (o d i : Z).

Lemma get16_set16_ne data o o' v :
  0 <= o -> 0 <= o' -> o' + 1 < o \/ o + 1 < o' ->
  Buf.get16 (Buf.set16 data o v) o' = Buf.get16 data o'.
Proof.
  intros. apply get16_frame. intros. apply get8_set16_ne; lia.
Qed.

(** ** [padded_memcpy] *)

Lemma length_padded_memcpy len data o src :
  length (padded_memcpy data o src len) = length data.
Proof.
  revert data o src. induction len as [|len IH]; intros data o src; [done|].
  simpl. destruct src as [|c src]; [|destruct (c =? 0)];
    rewrite IH; apply length_set8.
Qed.

Lemma get8_padded_memcpy_out len data o src o' :
  0 <= o -> 0 <= o' -> o' < o \/ o + Z.of_nat len <= o' ->
  Buf.get8 (padded_memcpy data o src len) o' = Buf.get8 data o'.
Proof.
  revert data o src. induction len as [|len IH]; intros data o src Ho Ho' H;
    [done|].
  simpl. destruct src as [|c src]; [|destruct (c =? 0)];
    rewrite IH by lia; apply get8_set8_ne; lia.
Qed.

(** ** The FAT loops *)

Lemma length_fat_reserved_loop n i data :
  length (fat_reserved_loop n i data) = length data.
Proof.
  revert i data. induction n as [|n IH]; intros i data; [done|].
  simpl. rewrite IH. apply length_set8.
Qed.

Lemma get8_fat_reserved_loop n i data o :
  0 <= i -> 0 <= o -> (Z.to_nat (i + Z.of_nat n) <= length data)%nat ->
  Buf.get8 (fat_reserved_loop n i data) o
  = if (i <=? o) && (o <? i + Z.of_nat n) then 0xff else Buf.get8 data o.
Proof.
  revert i data. induction n as [|n IH]; intros i data Hi Ho Hlen.
  - simpl fat_reserved_loop. cmp_cases.
  - simpl fat_reserved_loop. rewrite IH by (rewrite ?length_set8; lia).
    destruct (decide (o = i)) as [->|Hne].
    + rewrite get8_set8_eq by lia. cmp_cases.
    + rewrite get8_set8_ne by lia. cmp_cases.
Qed.

Lemma length_fat_chain_loop n i sectionIdx data :
  length (fat_chain_loop cfg n i sectionIdx data) = length data.
Proof.
  revert i data. induction n as [|n IH]; intros i data; [done|].
  simpl. rewrite IH. destruct (_ && _); [apply length_set16|done].
Qed.

Lemma get16_fat_chain_loop n i sectionIdx data j :
  0 <= i -> 0 <= j ->
  (Z.to_nat (2 * (i + Z.of_nat n)) <= length data)%nat ->
  Buf.get16 (fat_chain_loop cfg n i sectionIdx data) (2 * j)
  = if (i <=? j) && (j <? i + Z.of_nat n) && in_chain cfg (fat_v sectionIdx j)
    then u16 (chain_link cfg (fat_v sectionIdx j))
    else Buf.get16 data (2 * j).
Proof.
  revert i data. induction n as [|n IH]; intros i data Hi Hj Hlen.
  - simpl fat_chain_loop. cmp_cases.
  - simpl fat_chain_loop. fold (fat_v sectionIdx i).
    fold (in_chain cfg (fat_v sectionIdx i)).
    fold (chain_link cfg (fat_v sectionIdx i)).
    unfold FAT_ENTRY_SIZE.
    rewrite IH
      by (try destruct (in_chain cfg (fat_v sectionIdx i));
          rewrite ?length_set16; lia).
    destruct (decide (j = i)) as [->|Hne].
    + destruct (in_chain cfg (fat_v sectionIdx i)) eqn:Hc.
      * rewrite get16_set16_eq by lia. cmp_cases.
      * cmp_cases.
    + destruct (in_chain cfg (fat_v sectionIdx i)) eqn:Hc.
      * rewrite get16_set16_ne by lia. cmp_cases.
      * cmp_cases.
Qed.

(** ** Geometry *)

Lemma u32_small x : 0 <= x < 2 ^ 32 -> u32 x = x.
Proof. intros. unfold u32. by apply Z.mod_small. Qed.

Lemma u16_small x : 0 <= x < 2 ^ 16 -> u16 x = x.
Proof. intros. unfold u16. by apply Z.mod_small. Qed.

Lemma NUM_FILES_eq : NUM_FILES = 3.
Proof. reflexivity. Qed.

Lemma geometry_bounds :
  geometry_ok cfg ->
  1 <= BPB_SECTORS_PER_FAT cfg <= 258 /\
  0 < BPB_TOTAL_SECTORS cfg < 66014 /\
  BPB_TOTAL_SECTORS cfg <= 256 * BPB_SECTORS_PER_FAT cfg /\
  FS_START_CLUSTERS_SECTOR cfg = 5 + 2 * BPB_SECTORS_PER_FAT cfg /\
  FS_START_CLUSTERS_SECTOR cfg + 0x1015 <= BPB_TOTAL_SECTORS cfg.
Proof.
  unfold geometry_ok, CLUSTER_COUNT, NUM_SECTORS_IN_DATA_REGION,
    FS_START_CLUSTERS_SECTOR, FS_START_ROOTDIR_SECTOR, FS_START_FAT1_SECTOR,
    FS_START_FAT0_SECTOR, BPB_SECTORS_PER_FAT.
  change FAT_ENTRIES_PER_SECTOR with 256.
  change BPB_SECTORS_PER_CLUSTER with 1.
  change BPB_RESERVED_SECTORS with 1.
  change BPB_NUMBER_OF_FATS with 2.
  change ROOT_DIR_SECTOR_COUNT with 4.
  generalize (BPB_TOTAL_SECTORS cfg). intros T.
  rewrite Z.div_1_r. intros (HT & _ & _ & Hc).
  destruct (Z.eqb_spec (T mod 256) 0);
    Z.to_euclidean_division_equations; lia.
Qed.

Lemma UF2_LAST_SECTOR_eq :
  geometry_ok cfg ->
  UF2_LAST_SECTOR cfg = NUM_FILES + 1 + UF2_SECTORS cfg - 1
  /\ 0 <= UF2_SECTORS cfg < 2 ^ 24.
Proof.
  intros (_ & Hp & _). unfold UF2_LAST_SECTOR, UF2_FIRST_SECTOR, UF2_SECTORS.
  change BPB_SECTORS_PER_CLUSTER with 1.
  change UF2_FIRMWARE_BYTES_PER_SECTOR with 256.
  rewrite NUM_FILES_eq, !Z.mul_1_r.
  assert (0 <= part_size cfg / 256 < 2 ^ 24) as Hs.
  { change (2 ^ 32) with 4294967296 in Hp. change (2 ^ 24) with 16777216.
    Z.to_euclidean_division_equations. lia. }
  split; [|done]. apply u32_small.
  change (2 ^ 24) with 16777216 in Hs. change (2 ^ 32) with 4294967296. lia.
Qed.

(** A firmware file that fits the clusters of the volume has a last cluster
    that fits a 16-bit entry and lies inside the FAT. *)
Lemma firmware_fits_volume :
  geometry_ok cfg ->
  UF2_LAST_SECTOR cfg <= CLUSTER_COUNT cfg + 1 ->
  UF2_LAST_SECTOR cfg < 2 ^ 16 /\
  UF2_LAST_SECTOR cfg < FAT_ENTRIES_PER_SECTOR * BPB_SECTORS_PER_FAT cfg.
Proof.
  intros Hg Hfit. destruct (geometry_bounds Hg) as (Hspf & HT & HT' & HC & _).
  destruct Hg as (_ & _ & _ & Hcc).
  assert (CLUSTER_COUNT cfg = BPB_TOTAL_SECTORS cfg
                              - FS_START_CLUSTERS_SECTOR cfg) as Hcount.
  { unfold CLUSTER_COUNT, NUM_SECTORS_IN_DATA_REGION,
      FS_START_CLUSTERS_SECTOR, FS_START_ROOTDIR_SECTOR, FS_START_FAT1_SECTOR.
    change FS_START_FAT0_SECTOR with 1.
    change BPB_SECTORS_PER_CLUSTER with 1.
    change BPB_RESERVED_SECTORS with 1.
    change BPB_NUMBER_OF_FATS with 2.
    rewrite Z.div_1_r. lia. }
  change FAT_ENTRIES_PER_SECTOR with 256. change (2 ^ 16) with 65536.
  lia.
Qed.

(** A FAT sector: sector [sec] of either copy is the chain loop run over a
    zeroed sector, with the reserved run first in sector 0.  The two copies
    are the same. *)
Lemma uf2_read_block_fat copy sec :
  geometry_ok cfg -> copy = 0 \/ copy = 1 ->
  0 <= sec < BPB_SECTORS_PER_FAT cfg ->
  uf2_read_block cfg
    (FS_START_FAT0_SECTOR + copy * BPB_SECTORS_PER_FAT cfg + sec)
  = fat_chain_loop cfg (Z.to_nat FAT_ENTRIES_PER_SECTOR) 0 sec
      (if sec =? 0 then
         fat_reserved_loop
           (Z.to_nat (NUM_FILES * FAT_ENTRY_SIZE + 2 * FAT_ENTRY_SIZE - 1)) 1
           (Buf.set8 (Buf.zeros (Z.to_nat BPB_SECTOR_SIZE)) 0
              BPB_MEDIA_DESCRIPTOR_BYTE)
       else Buf.zeros (Z.to_nat BPB_SECTOR_SIZE)).
Proof.
  intros Hg Hcopy Hsec.
  destruct (geometry_bounds Hg) as (Hspf & HT & _).
  unfold uf2_read_block, FS_START_ROOTDIR_SECTOR, FS_START_FAT1_SECTOR.
  change FS_START_FAT0_SECTOR with 1.
  set (SPF := BPB_SECTORS_PER_FAT cfg) in *.
  destruct (Z.eqb_spec (1 + copy * SPF + sec) 0); [lia|].
  destruct (Z.ltb_spec (1 + copy * SPF + sec) (1 + SPF + SPF)); [|lia].
  rewrite (u32_small (1 + copy * SPF + sec - 1))
    by (change (2 ^ 32) with 4294967296; lia).
  destruct Hcopy as [-> | ->].
  - destruct (Z.leb_spec SPF (1 + 0 * SPF + sec - 1)); [lia|].
    by replace (1 + 0 * SPF + sec - 1) with sec by lia.
  - destruct (Z.leb_spec SPF (1 + 1 * SPF + sec - 1)); [|lia].
    rewrite u32_small by (change (2 ^ 32) with 4294967296; lia).
    by replace (1 + 1 * SPF + sec - 1 - SPF) with sec by lia.
Qed.

End ReadFacts.

(** * The root directory *)

Section DirFacts.

Variable cfg : Config.

Implicit Types (data : Buf.t) (o d i : Z) (inf : TextFile).

Lemma length_dir_entry i inf d data :
  length (dir_entry cfg i inf d data) = length data.
Proof.
  unfold dir_entry.
  by rewrite length_set32, !length_set16, length_set8, length_padded_memcpy.
Qed.

Lemma get8_dir_entry_out i inf d data o :
  0 <= d -> 0 <= o -> o < d \/ d + sizeof_DirEntry <= o ->
  Buf.get8 (dir_entry cfg i inf d data) o = Buf.get8 data o.
Proof.
  unfold sizeof_DirEntry. intros Hd Ho Hout. unfold dir_entry.
  unfold DirEntry.off_size, DirEntry.off_startCluster,
    DirEntry.off_updateDate, DirEntry.off_updateTime,
    DirEntry.off_highStartCluster, DirEntry.off_lastAccessDate,
    DirEntry.off_createDate, DirEntry.off_createTime,
    DirEntry.off_createTimeFine, DirEntry.off_name.
  rewrite get8_set32_ne by lia. rewrite !get8_set16_ne by lia.
  rewrite get8_set8_ne by lia.
  apply get8_padded_memcpy_out; lia.
Qed.

(** The cluster and size fields of the entry just written. *)
Lemma dir_entry_fields i inf d data :
  0 <= d -> (Z.to_nat (d + sizeof_DirEntry) <= length data)%nat ->
  DirEntry.startCluster (dir_entry cfg i inf d data) d
  = u16 (Z.land (u16 (i + 2)) 0xFFFF) /\
  DirEntry.highStartCluster (dir_entry cfg i inf d data) d
  = u16 (Z.shiftr (u16 (i + 2)) 16) /\
  DirEntry.size (dir_entry cfg i inf d data) d
  = u32 (match content inf with
         | Some c => strlen c
         | None => UF2_SIZE cfg
         end).
Proof.
  unfold sizeof_DirEntry. intros Hd Hlen.
  unfold DirEntry.startCluster, DirEntry.highStartCluster, DirEntry.size,
    dir_entry.
  unfold DirEntry.off_size, DirEntry.off_startCluster,
    DirEntry.off_updateDate, DirEntry.off_updateTime,
    DirEntry.off_highStartCluster, DirEntry.off_lastAccessDate,
    DirEntry.off_createDate, DirEntry.off_createTime,
    DirEntry.off_createTimeFine, DirEntry.off_name.
  repeat split.
  - erewrite get16_frame; [|intros; apply get8_set32_ne; lia].
    apply get16_set16_eq; [lia|].
    rewrite !length_set16, length_set8, length_padded_memcpy. lia.
  - erewrite get16_frame; [|intros; apply get8_set32_ne; lia].
    rewrite !get16_set16_ne by lia.
    apply get16_set16_eq; [lia|].
    rewrite !length_set16, length_set8, length_padded_memcpy. lia.
  - apply get32_set32_eq; [lia|].
    rewrite !length_set16, length_set8, length_padded_memcpy. lia.
Qed.

Lemma length_dir_loop fuel i d rem data :
  length (dir_loop cfg fuel i d rem data) = length data.
Proof.
  revert i d data. induction fuel as [|fuel IH]; intros i d data; [done|].
  simpl. destruct (_ && _); [|done].
  destruct (info !! Z.to_nat i); [|done].
  rewrite IH. apply length_dir_entry.
Qed.

(** The loop writes at [d] and above only. *)
Lemma get8_dir_loop_below fuel i d rem data o :
  0 <= d -> 0 <= o < d ->
  Buf.get8 (dir_loop cfg fuel i d rem data) o = Buf.get8 data o.
Proof.
  revert i d data.
  induction fuel as [|fuel IH]; intros i d data Hd Ho; [done|].
  simpl. destruct (_ && _); [|done].
  destruct (info !! Z.to_nat i); [|done].
  unfold sizeof_DirEntry. rewrite IH by lia.
  apply get8_dir_entry_out; lia.
Qed.

(** The entry of file [j] after the loop that started at file [i], with
    [DirEntry *d] at [d]. *)
Lemma dir_loop_fields fuel i d rem data j inf :
  0 < rem -> 0 <= i <= j -> j < NUM_FILES ->
  (Z.to_nat (j - i) < fuel)%nat ->
  info !! Z.to_nat j = Some inf ->
  0 <= d ->
  (Z.to_nat (d + sizeof_DirEntry * (j - i + 1)) <= length data)%nat ->
  let out := dir_loop cfg fuel i d rem data in
  let dj := d + sizeof_DirEntry * (j - i) in
  DirEntry.startCluster out dj = u16 (Z.land (u16 (j + 2)) 0xFFFF) /\
  DirEntry.highStartCluster out dj = u16 (Z.shiftr (u16 (j + 2)) 16) /\
  DirEntry.size out dj
  = u32 (match content inf with
         | Some c => strlen c
         | None => UF2_SIZE cfg
         end).
Proof.
  unfold sizeof_DirEntry.
  revert i d data.
  induction fuel as [|fuel IH]; intros i d data Hrem Hi Hj Hfuel Hinf Hd Hlen;
    [lia|].
  cbv zeta. simpl dir_loop.
  destruct (Z.ltb_spec 0 rem); [|lia].
  destruct (Z.ltb_spec i NUM_FILES); [|lia]. simpl.
  destruct (info !! Z.to_nat i) as [inf0|] eqn:Hinf0.
  2:{ apply lookup_ge_None_1 in Hinf0. unfold NUM_FILES in *. lia. }
  rewrite (u32_small (i + 1))
    by (rewrite NUM_FILES_eq in *; change (2 ^ 32) with 4294967296; lia).
  unfold sizeof_DirEntry.
  destruct (decide (j = i)) as [->|Hne].
  - replace (d + 32 * (i - i)) with d by lia.
    assert (inf0 = inf) as -> by congruence.
    destruct (dir_entry_fields i inf d data Hd) as (E1 & E2 & E3).
    { unfold sizeof_DirEntry. lia. }
    split; [|split].
    + etransitivity; [|exact E1]. apply get16_frame. intros.
      apply get8_dir_loop_below; unfold DirEntry.off_startCluster in *; lia.
    + etransitivity; [|exact E2]. apply get16_frame. intros.
      apply get8_dir_loop_below;
        unfold DirEntry.off_highStartCluster in *; lia.
    + etransitivity; [|exact E3]. apply get32_frame. intros.
      apply get8_dir_loop_below; unfold DirEntry.off_size in *; lia.
  - replace (d + 32 * (j - i)) with (d + 32 + 32 * (j - (i + 1))) by lia.
    apply IH; try lia; try done.
    rewrite length_dir_entry. lia.
Qed.

(** The first root-directory sector: the volume label, then the loop over
    the file table. *)
Lemma uf2_read_block_rootdir :
  geometry_ok cfg ->
  uf2_read_block cfg (FS_START_ROOTDIR_SECTOR cfg)
  = dir_loop cfg (Z.to_nat NUM_FILES) 0 sizeof_DirEntry
      (DIRENTRIES_PER_SECTOR - 1)
      (Buf.set8
         (padded_memcpy (Buf.zeros (Z.to_nat BPB_SECTOR_SIZE))
            DirEntry.off_name BootBlock_VolumeLabel 11)
         DirEntry.off_attrs 0x28).
Proof.
  intros Hg. destruct (geometry_bounds cfg Hg) as (Hspf & HT & _).
  unfold uf2_read_block, FS_START_CLUSTERS_SECTOR.
  change ROOT_DIR_SECTOR_COUNT with 4.
  assert (FS_START_ROOTDIR_SECTOR cfg = 1 + 2 * BPB_SECTORS_PER_FAT cfg)
    as Hr.
  { unfold FS_START_ROOTDIR_SECTOR, FS_START_FAT1_SECTOR.
    change FS_START_FAT0_SECTOR with 1. lia. }
  set (R := FS_START_ROOTDIR_SECTOR cfg) in *.
  destruct (Z.eqb_spec R 0); [lia|].
  destruct (Z.ltb_spec R R); [lia|].
  destruct (Z.ltb_spec R (R + 4)); [|lia].
  rewrite Z.sub_diag. done.
Qed.

End DirFacts.

(** * The sector-generator claims *)

Section ReadClaims.

Variable cfg : Config.

(** C1 (amended): in each FAT sector of either copy, with the firmware file
    on the clusters [F .. L] ([F] the number of files plus one, [L = F +
    UF2_SECTORS - 1]), the 16-bit entry of a cluster [k] of the FAT is
    [(k + 1) mod 2^16] for [F <= k < L], which is [k + 1] whenever [k + 1]
    fits the entry, and [0xFFFF] for [k = L].  The sector read is a function
    of the sector index alone: [k / 256] within the copy, entry [k mod 256]
    in it. *)
Theorem C1_fat_chain_entries (copy k : Z) :
  geometry_ok cfg ->
  let F := NUM_FILES + 1 in
  let L := F + UF2_SECTORS cfg - 1 in
  let entry :=
    Buf.get16
      (uf2_read_block cfg
         (FS_START_FAT0_SECTOR + copy * BPB_SECTORS_PER_FAT cfg
          + k / FAT_ENTRIES_PER_SECTOR))
      (FAT_ENTRY_SIZE * (k mod FAT_ENTRIES_PER_SECTOR)) in
  copy = 0 \/ copy = 1 ->
  F <= k <= L ->
  k < FAT_ENTRIES_PER_SECTOR * BPB_SECTORS_PER_FAT cfg ->
  UF2_FIRST_SECTOR = F /\ UF2_LAST_SECTOR cfg = L /\
  entry = (if k =? L then 0xFFFF else (k + 1) mod 2 ^ 16) /\
  (k + 1 < 2 ^ 16 -> entry = if k =? L then 0xFFFF else k + 1).
Proof.
  intros Hg F L entry Hcopy Hk Hfat. subst entry.
  destruct (geometry_bounds cfg Hg) as (Hspf & HT & _).
  destruct (UF2_LAST_SECTOR_eq cfg Hg) as [HL Hsec].
  fold F in HL. fold L in HL.
  assert (UF2_FIRST_SECTOR = F) as HF by reflexivity.
  split; [done|]. split; [done|].
  assert (F = 4) as HF4 by reflexivity.
  change FAT_ENTRIES_PER_SECTOR with 256 in *.
  change FAT_ENTRY_SIZE with 2.
  assert (0 <= k / 256 < BPB_SECTORS_PER_FAT cfg) as Hsecr.
  { Z.to_euclidean_division_equations. lia. }
  assert (0 <= k mod 256 < 256) as Hmod by (apply Z.mod_pos_bound; lia).
  rewrite uf2_read_block_fat by done.
  change (Z.to_nat FAT_ENTRIES_PER_SECTOR) with 256%nat.
  rewrite get16_fat_chain_loop.
  2: lia. 2: lia.
  2:{ destruct (k / 256 =? 0);
      rewrite ?length_fat_reserved_loop, ?length_set8, length_zeros;
      change (Z.to_nat BPB_SECTOR_SIZE) with 512%nat; lia. }
  assert (fat_v (k / 256) (k mod 256) = k) as ->.
  { unfold fat_v. change FAT_ENTRIES_PER_SECTOR with 256.
    rewrite (u32_small (k / 256 * 256))
      by (change (2 ^ 32) with 4294967296;
          Z.to_euclidean_division_equations; lia).
    rewrite u32_small
      by (change (2 ^ 32) with 4294967296;
          Z.to_euclidean_division_equations; lia).
    Z.to_euclidean_division_equations. lia. }
  unfold in_chain, chain_link. rewrite HL, HF.
  assert ((0 <=? k mod 256) && (k mod 256 <? 0 + Z.of_nat 256)
          && ((F <=? k) && (k <=? L)) = true) as ->.
  { rewrite !andb_true_iff, !Z.leb_le, Z.ltb_lt. lia. }
  destruct (Z.eqb_spec k L); [done|].
  rewrite u32_small by (change (2 ^ 32) with 4294967296; lia).
  split; [done|]. intros H16.
  apply u16_small. lia.
Qed.

(** C2: for each file of the table that has content (the files before the
    firmware file), at its index [i], the first root-directory sector holds
    after the volume label an entry with starting cluster [i + 2] and with
    the length of the content as its size, and logical FAT sector 0, in
    either copy, holds the end-of-chain marker [0xFFFF] at entry [i + 2]. *)
Theorem C2_inline_file_entry (i : nat) (inf : TextFile) (c : list Z) :
  geometry_ok cfg ->
  info !! i = Some inf -> content inf = Some c ->
  let dir := uf2_read_block cfg (FS_START_ROOTDIR_SECTOR cfg) in
  let d := sizeof_DirEntry * (Z.of_nat i + 1) in
  DirEntry.startCluster dir d = Z.of_nat i + 2 /\
  DirEntry.highStartCluster dir d = 0 /\
  DirEntry.size dir d = strlen c /\
  forall copy, copy = 0 \/ copy = 1 ->
    Buf.get16
      (uf2_read_block cfg
         (FS_START_FAT0_SECTOR + copy * BPB_SECTORS_PER_FAT cfg))
      (FAT_ENTRY_SIZE * (Z.of_nat i + 2)) = 0xFFFF.
Proof.
  intros Hg Hinf Hc dir d.
  destruct (geometry_bounds cfg Hg) as (Hspf & HT & _).
  destruct (UF2_LAST_SECTOR_eq cfg Hg) as [HL Hsec].
  assert ((i < 2)%nat) as Hi.
  { destruct i as [|[|[|i]]]; [lia|lia| |]; simpl in Hinf.
    - injection Hinf as <-. discriminate.
    - by rewrite lookup_nil in Hinf. }
  assert (strlen c < 512) as Hlen.
  { destruct i as [|[|i]]; [| |lia]; simpl in Hinf; injection Hinf as <-;
      simpl in Hc; injection Hc as <-; by vm_compute. }
  assert (0 <= strlen c) as Hlen0.
  { clear. induction c as [|x c IH]; simpl; [lia|].
    destruct (x =? 0); lia. }
  cut ((DirEntry.startCluster dir d = Z.of_nat i + 2 /\
        DirEntry.highStartCluster dir d = 0 /\
        DirEntry.size dir d = strlen c) /\
       forall copy, copy = 0 \/ copy = 1 ->
         Buf.get16
           (uf2_read_block cfg
              (FS_START_FAT0_SECTOR + copy * BPB_SECTORS_PER_FAT cfg))
           (FAT_ENTRY_SIZE * (Z.of_nat i + 2)) = 0xFFFF); [tauto|].
  split.
  - subst dir d. rewrite uf2_read_block_rootdir by done.
    destruct (dir_loop_fields cfg (Z.to_nat NUM_FILES) 0 sizeof_DirEntry
                (DIRENTRIES_PER_SECTOR - 1)
                (Buf.set8
                   (padded_memcpy (Buf.zeros (Z.to_nat BPB_SECTOR_SIZE))
                      DirEntry.off_name BootBlock_VolumeLabel 11)
                   DirEntry.off_attrs 0x28)
                (Z.of_nat i) inf) as (E1 & E2 & E3).
    + done.
    + lia.
    + rewrite NUM_FILES_eq. lia.
    + rewrite NUM_FILES_eq. lia.
    + by rewrite Nat2Z.id.
    + done.
    + rewrite length_set8, length_padded_memcpy, length_zeros.
      unfold sizeof_DirEntry. change (Z.to_nat BPB_SECTOR_SIZE) with 512%nat.
      lia.
    + replace (sizeof_DirEntry + sizeof_DirEntry * (Z.of_nat i - 0))
        with (sizeof_DirEntry * (Z.of_nat i + 1)) in *
        by (unfold sizeof_DirEntry; lia).
      rewrite E1, E2, E3, Hc.
      split; [|split].
      * destruct i as [|[|i]]; [done|done|lia].
      * destruct i as [|[|i]]; [done|done|lia].
      * apply u32_small. change (2 ^ 32) with 4294967296. lia.
  - intros copy Hcopy.
    pose proof (uf2_read_block_fat cfg copy 0 Hg Hcopy ltac:(lia)) as Hfat.
    rewrite Z.add_0_r in Hfat. rewrite Hfat. clear Hfat.
    change FAT_ENTRY_SIZE with 2.
    change (Z.to_nat FAT_ENTRIES_PER_SECTOR) with 256%nat.
    change (0 =? 0) with true. cbv iota.
    rewrite get16_fat_chain_loop.
    2: lia. 2: lia.
    2:{ rewrite length_fat_reserved_loop, length_set8, length_zeros.
        change (Z.to_nat BPB_SECTOR_SIZE) with 512%nat. lia. }
    assert (in_chain cfg (fat_v 0 (Z.of_nat i + 2)) = false) as ->.
    { unfold in_chain, fat_v.
      change (u32 (0 * FAT_ENTRIES_PER_SECTOR)) with 0.
      rewrite u32_small by (change (2 ^ 32) with 4294967296; lia).
      apply andb_false_iff. left. apply Z.leb_gt.
      change UF2_FIRST_SECTOR with 4. lia. }
    rewrite andb_false_r. unfold Buf.get16.
    rewrite !get8_fat_reserved_loop;
      try (rewrite ?length_set8, ?length_zeros;
           change (Z.to_nat BPB_SECTOR_SIZE) with 512%nat;
           rewrite ?NUM_FILES_eq; change FAT_ENTRY_SIZE with 2; lia).
    rewrite NUM_FILES_eq. change FAT_ENTRY_SIZE with 2.
    destruct i as [|[|i]]; [done|done|lia].
Qed.

(** ** The firmware sectors *)

(** The sector of chunk [m] is in the data region, past the inline
    files. *)
Lemma uf2_read_block_firmware m :
  geometry_ok cfg -> 0 <= m ->
  firmware_sector cfg m < BPB_TOTAL_SECTORS cfg ->
  let addr := m * UF2_FIRMWARE_BYTES_PER_SECTOR in
  uf2_read_block cfg (firmware_sector cfg m)
  = if addr <? CFG_UF2_FLASH_SIZE cfg then
      let data := Buf.zeros (Z.to_nat BPB_SECTOR_SIZE) in
      let bl := Buf.set32 data UF2_Block.off_magicStart0 UF2_MAGIC_START0 in
      let bl := Buf.set32 bl UF2_Block.off_magicStart1 UF2_MAGIC_START1 in
      let bl := Buf.set32 bl UF2_Block.off_magicEnd UF2_MAGIC_END in
      let bl := Buf.set32 bl UF2_Block.off_blockNo m in
      let bl := Buf.set32 bl UF2_Block.off_numBlocks (UF2_SECTORS cfg) in
      let bl := Buf.set32 bl UF2_Block.off_targetAddr addr in
      let bl := Buf.set32 bl UF2_Block.off_payloadSize
                  UF2_FIRMWARE_BYTES_PER_SECTOR in
      let bl := Buf.set32 bl UF2_Block.off_flags UF2_FLAG_FAMILYID in
      let bl := Buf.set32 bl UF2_Block.off_familyID (CFG_UF2_FAMILY_ID cfg) in
      let len := UF2_Block.payloadSize bl in
      match esp_partition_read cfg addr len with
      | Some bytes =>
          Buf.memcpy bl UF2_Block.off_data (take (Z.to_nat len) bytes)
      | None => bl
      end
    else Buf.zeros (Z.to_nat BPB_SECTOR_SIZE).
Proof.
  intros Hg Hm Hin addr.
  destruct (geometry_bounds cfg Hg) as (Hspf & HT & _ & HC & _).
  unfold firmware_sector in *. rewrite NUM_FILES_eq in *.
  unfold uf2_read_block.
  assert (FS_START_ROOTDIR_SECTOR cfg = FS_START_CLUSTERS_SECTOR cfg - 4)
    as Hr.
  { unfold FS_START_CLUSTERS_SECTOR. change ROOT_DIR_SECTOR_COUNT with 4.
    lia. }
  rewrite Hr. set (C := FS_START_CLUSTERS_SECTOR cfg) in *.
  destruct (Z.eqb_spec (C + (3 - 1) + m) 0); [lia|].
  destruct (Z.ltb_spec (C + (3 - 1) + m) (C - 4)); [lia|].
  destruct (Z.ltb_spec (C + (3 - 1) + m) C); [lia|].
  destruct (Z.ltb_spec (C + (3 - 1) + m) (BPB_TOTAL_SECTORS cfg)); [|lia].
  rewrite NUM_FILES_eq.
  rewrite (u32_small (C + (3 - 1) + m - C))
    by (change (2 ^ 32) with 4294967296; lia).
  destruct (Z.ltb_spec (C + (3 - 1) + m - C) (3 - 1)); [lia|].
  rewrite (u32_small (C + (3 - 1) + m - C - (3 - 1)))
    by (change (2 ^ 32) with 4294967296; lia).
  replace (C + (3 - 1) + m - C - (3 - 1)) with m by lia.
  change USER_FLASH_START with 0.
  rewrite (u32_small (m * UF2_FIRMWARE_BYTES_PER_SECTOR))
    by (change UF2_FIRMWARE_BYTES_PER_SECTOR with 256;
        change (2 ^ 32) with 4294967296; lia).
  rewrite Z.add_0_l.
  rewrite (u32_small (m * UF2_FIRMWARE_BYTES_PER_SECTOR))
    by (change UF2_FIRMWARE_BYTES_PER_SECTOR with 256;
        change (2 ^ 32) with 4294967296; lia).
  done.
Qed.

(** Past the flash bound the sector is all zero. *)
Lemma read_past_flash_bound m :
  geometry_ok cfg -> 0 <= m ->
  firmware_sector cfg m < BPB_TOTAL_SECTORS cfg ->
  CFG_UF2_FLASH_SIZE cfg <= m * UF2_FIRMWARE_BYTES_PER_SECTOR ->
  uf2_read_block cfg (firmware_sector cfg m)
  = Buf.zeros (Z.to_nat BPB_SECTOR_SIZE) /\
  synthesizes cfg m = false.
Proof.
  intros Hg Hm Hin Hge. unfold synthesizes.
  rewrite uf2_read_block_firmware by done. cbv zeta.
  destruct (Z.ltb_spec (m * UF2_FIRMWARE_BYTES_PER_SECTOR)
              (CFG_UF2_FLASH_SIZE cfg)); [lia|].
  split; [done|]. by rewrite all_zero_zeros.
Qed.

(** Below the flash bound the sector starts with the first magic word. *)
Lemma read_below_flash_bound m :
  geometry_ok cfg -> 0 <= m ->
  firmware_sector cfg m < BPB_TOTAL_SECTORS cfg ->
  m * UF2_FIRMWARE_BYTES_PER_SECTOR < CFG_UF2_FLASH_SIZE cfg ->
  UF2_Block.magicStart0 (uf2_read_block cfg (firmware_sector cfg m))
  = UF2_MAGIC_START0 /\
  synthesizes cfg m = true.
Proof.
  intros Hg Hm Hin Hlt. unfold synthesizes.
  rewrite uf2_read_block_firmware by done. cbv zeta.
  destruct (Z.ltb_spec (m * UF2_FIRMWARE_BYTES_PER_SECTOR)
              (CFG_UF2_FLASH_SIZE cfg)); [|lia].
  match goal with
  | |- UF2_Block.magicStart0 ?out = _ /\ _ =>
      assert (length out = 512%nat) as Hlen;
      [|assert (UF2_Block.magicStart0 out = UF2_MAGIC_START0) as Hmagic]
  end.
  - destruct (esp_partition_read cfg _ _);
      rewrite ?length_memcpy, !length_set32, length_zeros; done.
  - unfold UF2_Block.magicStart0.
    transitivity
      (Buf.get32
         (Buf.set32 (Buf.zeros (Z.to_nat BPB_SECTOR_SIZE))
            UF2_Block.off_magicStart0 UF2_MAGIC_START0)
         UF2_Block.off_magicStart0).
    + apply get32_frame. intros o Ho.
      change UF2_Block.off_magicStart0 with 0 in Ho.
      destruct (esp_partition_read cfg _ _);
        rewrite ?get8_memcpy_lt by (change UF2_Block.off_data with 32; lia);
        rewrite !(get8_set32_ne _ _ o)
          by (unfold UF2_Block.off_familyID, UF2_Block.off_flags,
                UF2_Block.off_payloadSize, UF2_Block.off_targetAddr,
                UF2_Block.off_numBlocks, UF2_Block.off_blockNo,
                UF2_Block.off_magicEnd, UF2_Block.off_magicStart1; lia);
        done.
    + rewrite get32_set32_eq; [done|done|].
      rewrite length_zeros. change (Z.to_nat BPB_SECTOR_SIZE) with 512%nat.
      unfold UF2_Block.off_magicStart0. lia.
  - split; [done|]. apply negb_true_iff, not_true_is_false. intros Hz.
    unfold UF2_Block.magicStart0, Buf.get32 in Hmagic.
    rewrite !all_zero_get8 in Hmagic
      by (done || (rewrite Hlen; unfold UF2_Block.off_magicStart0; lia)).
    discriminate.
Qed.

End ReadClaims.

(** C8: at [board_cfg] the directory declares [UF2_SIZE / 512 = 5632] sectors
    for the firmware file (the partition has 0x160000 bytes), while every
    firmware sector whose address is below the flash bound of 4 MiB, 16384
    of them, is a synthesized packet: the sector of chunk 5632 is inside the
    volume, is not zero, passes [is_uf2_block] and carries block index 5632
    with a total of 5632.  The sectors at or past the bound are zero. *)
Theorem C8_synthesized_past_declared_size :
  let dir := uf2_read_block board_cfg (FS_START_ROOTDIR_SECTOR board_cfg) in
  let declared :=
    DirEntry.size dir (sizeof_DirEntry * NUM_FILES) / BPB_SECTOR_SIZE in
  let past := uf2_read_block board_cfg (firmware_sector board_cfg declared) in
  declared = 5632 /\
  firmware_sector board_cfg declared < BPB_TOTAL_SECTORS board_cfg /\
  Buf.all_zero past = false /\
  is_uf2_block past = true /\
  UF2_Block.blockNo past = declared /\
  UF2_Block.numBlocks past = declared /\
  (forall m, 0 <= m < 16384 -> synthesizes board_cfg m = true) /\
  (forall m, 16384 <= m ->
             firmware_sector board_cfg m < BPB_TOTAL_SECTORS board_cfg ->
             synthesizes board_cfg m = false).
Proof.
  assert (geometry_ok board_cfg) as Hg by (by vm_compute).
  cbv zeta.
  split; [by vm_compute|]. split; [by vm_compute|].
  split; [by vm_compute|]. split; [by vm_compute|].
  split; [by vm_compute|]. split; [by vm_compute|].
  split.
  - intros m Hm. apply read_below_flash_bound; try done; [lia| |].
    + unfold firmware_sector.
      change (FS_START_CLUSTERS_SECTOR board_cfg) with 521.
      change (BPB_TOTAL_SECTORS board_cfg) with 65801.
      rewrite NUM_FILES_eq. lia.
    + change UF2_FIRMWARE_BYTES_PER_SECTOR with 256.
      change (CFG_UF2_FLASH_SIZE board_cfg) with 4194304. lia.
  - intros m Hm Hin. apply read_past_flash_bound; try done; [lia|].
    change UF2_FIRMWARE_BYTES_PER_SECTOR with 256.
    change (CFG_UF2_FLASH_SIZE board_cfg) with 4194304. lia.
Qed.

(** * The claims on concrete inputs *)

Lemma bytesb_bytes d : bytesb d = true -> Buf.bytes d.
Proof.
  unfold bytesb, Buf.bytes. rewrite forallb_forall, Forall_forall.
  intros H b Hb. apply list_elem_of_In, H in Hb.
  apply andb_true_iff in Hb as [H0 H1].
  apply Z.leb_le in H0. apply Z.ltb_lt in H1. lia.
Qed.

Lemma fresh_state_ok cfg : state_ok cfg (fresh_state cfg).
Proof. unfold state_ok, fresh_state. simpl. apply length_replicate. Qed.

(** A packet built by [packet] from in-range fields is a valid block. *)
Ltac check_upload_block :=
  split; [split; [vm_compute; reflexivity
                 | apply bytesb_bytes; vm_compute; reflexivity]
         | vm_compute; reflexivity].

Lemma C1_fat_chain_entries_witness :
  Buf.get16 (uf2_read_block board_cfg (1 + 1 * 258 + 1)) (2 * 44) = 301.
Proof.
  apply (C1_fat_chain_entries board_cfg 1 300);
    vm_compute; intuition discriminate.
Defined.

(** C1 as stated fails: with a partition of 17 MiB the geometry assertions
    hold, cluster 65535 lies in the FAT and inside the chain before its last
    cluster, and its 16-bit entry reads 0, not 65536. *)
Lemma C1_counterexample :
  let cfg := big_partition_cfg in
  let F := NUM_FILES + 1 in
  let L := F + UF2_SECTORS cfg - 1 in
  let k := 65535 in
  let entry :=
    Buf.get16
      (uf2_read_block cfg
         (FS_START_FAT0_SECTOR + 0 * BPB_SECTORS_PER_FAT cfg
          + k / FAT_ENTRIES_PER_SECTOR))
      (FAT_ENTRY_SIZE * (k mod FAT_ENTRIES_PER_SECTOR)) in
  geometry_ok cfg /\
  F <= k <= L - 1 /\
  k < FAT_ENTRIES_PER_SECTOR * BPB_SECTORS_PER_FAT cfg /\
  entry = 0 /\ entry <> k + 1.
Proof. vm_compute. intuition discriminate. Qed.

Lemma C2_inline_file_entry_witness :
  let dir := uf2_read_block board_cfg (FS_START_ROOTDIR_SECTOR board_cfg) in
  DirEntry.startCluster dir 64 = 3 /\
  DirEntry.highStartCluster dir 64 = 0 /\
  DirEntry.size dir 64 = strlen indexFile /\
  forall copy, copy = 0 \/ copy = 1 ->
    Buf.get16
      (uf2_read_block board_cfg
         (FS_START_FAT0_SECTOR + copy * BPB_SECTORS_PER_FAT board_cfg))
      (FAT_ENTRY_SIZE * 3) = 0xFFFF.
Proof.
  apply (C2_inline_file_entry board_cfg 1
           {| name := chars "INDEX   HTM"; content := Some indexFile |}
           indexFile).
  - vm_compute. intuition discriminate.
  - reflexivity.
  - reflexivity.
Defined.

Lemma C3_arrival_order_irrelevant_witness :
  let s1 := write_stream board_cfg arrival_example (fresh_state board_cfg) in
  let s2 := write_stream board_cfg (ascending_order [block0; block1; block2])
              (fresh_state board_cfg) in
  writtenMask s1 = writtenMask s2 /\ complete s1 = complete s2 /\ s1 = s2.
Proof.
  apply (C3_arrival_order_irrelevant board_cfg 3 [block0; block1; block2]
           arrival_example (fresh_state board_cfg)).
  - vm_compute. reflexivity.
  - repeat apply Forall_cons_2; [| | |apply Forall_nil_2];
      (split; [check_upload_block | vm_compute; reflexivity]).
  - apply (bool_decide_unpack _). vm_compute. exact I.
  - intros b. unfold arrival_example.
    rewrite !elem_of_cons, !elem_of_nil. tauto.
Defined.

Lemma C4_same_block_twice_witness :
  let s1 := snd (uf2_write_block board_cfg 0 block0 (fresh_state board_cfg)) in
  let s2 := snd (uf2_write_block board_cfg 0 block0 s1) in
  s2 = s1 /\ numWritten s2 = 1.
Proof.
  apply (C4_same_block_twice board_cfg 0 block0 (fresh_state board_cfg)).
  - check_upload_block.
  - vm_compute. reflexivity.
Defined.

(** C4 as stated fails: on a state in which the block is already marked, two
    further applications leave the counter where it was, not one higher. *)
Lemma C4_counterexample :
  let s := write_state board_cfg block0 (fresh_state board_cfg) in
  let s1 := snd (uf2_write_block board_cfg 0 block0 s) in
  let s2 := snd (uf2_write_block board_cfg 0 block0 s1) in
  is_uf2_block block0 = true /\ numWritten s = 1 /\
  numWritten s2 = 1 /\ numWritten s2 <> numWritten s + 1.
Proof. vm_compute. intuition discriminate. Qed.

Lemma C5_rejected_state_unchanged_witness :
  uf2_write_block board_cfg 0 (Buf.zeros 512) (fresh_state board_cfg)
  = (-1, fresh_state board_cfg).
Proof.
  apply (C5_rejected_state_unchanged board_cfg 0 (Buf.zeros 512)
           (fresh_state board_cfg)).
  - vm_compute. reflexivity.
  - left. vm_compute. discriminate.
Defined.

Lemma C6_mark_fresh_bit_witness :
  let s' := snd (uf2_write_block board_cfg 0 block2 (fresh_state board_cfg)) in
  written s' 2 = true /\
  numWritten s' = 1 /\
  writtenMask s' = <[0%nat := 4]> (writtenMask (fresh_state board_cfg)).
Proof.
  destruct (C6_mark_fresh_bit board_cfg 0 block2 (fresh_state board_cfg))
    as [_ Hset].
  - check_upload_block.
  - vm_compute. reflexivity.
  - apply Hset.
    + vm_compute. discriminate.
    + vm_compute. reflexivity.
Defined.

(** C6 as stated fails: a valid block that declares a total of zero is
    accepted, its index is below [MAX_BLOCKS] and its bit is not set, yet
    neither the bit nor the counter changes. *)
Lemma C6_counterexample :
  let data := packet UF2_FLAG_FAMILYID 5 0 0 in
  let s := fresh_state board_cfg in
  let r := uf2_write_block board_cfg 0 data s in
  is_uf2_block data = true /\ fst r = 512 /\
  UF2_Block.blockNo data = 5 /\ 5 < MAX_BLOCKS board_cfg /\
  written s 5 = false /\
  written (snd r) 5 = false /\ numWritten (snd r) = numWritten s.
Proof. vm_compute. intuition discriminate. Qed.

Lemma C7_learned_total_witness :
  let s' := snd (uf2_write_block board_cfg 0 block0 (fresh_state board_cfg)) in
  (numBlocks (fresh_state board_cfg) <> 0
   \/ MAX_BLOCKS board_cfg <= UF2_Block.numBlocks block0 ->
   numBlocks s' = 0xffffffff /\
   forall later,
     let s'' := write_stream board_cfg later s' in
     numBlocks s'' = 0xffffffff /\
     (numWritten s'' < 0xffffffff -> complete s'' = false)) /\
  (numBlocks (fresh_state board_cfg) = 0
   /\ UF2_Block.numBlocks block0 < MAX_BLOCKS board_cfg ->
   numBlocks s' = UF2_Block.numBlocks block0).
Proof.
  apply (C7_learned_total board_cfg 0 block0 (fresh_state board_cfg)).
  - vm_compute. reflexivity.
  - vm_compute. discriminate.
  - vm_compute. discriminate.
Defined.

(** C7 as stated fails: a first block that declares exactly [MAX_BLOCKS]
    blocks, which does not exceed the maximum, leaves the sentinel and not
    the declared total. *)
Lemma C7_counterexample :
  let data := packet UF2_FLAG_FAMILYID 0 (MAX_BLOCKS board_cfg) 0 in
  let s := fresh_state board_cfg in
  let s' := snd (uf2_write_block board_cfg 0 data s) in
  is_uf2_block data = true /\
  UF2_Block.numBlocks data = MAX_BLOCKS board_cfg /\
  UF2_Block.numBlocks data <> 0 /\
  numBlocks s = 0 /\
  ~ (MAX_BLOCKS board_cfg < UF2_Block.numBlocks data) /\
  numBlocks s' = 0xffffffff /\ numBlocks s' <> UF2_Block.numBlocks data.
Proof. vm_compute. intuition discriminate. Qed.

Lemma C9_accepted_returns_512_witness :
  fst (uf2_write_block board_cfg 7 block1 (fresh_state board_cfg)) = 512 /\
  fst (uf2_write_block board_cfg 7 block1 (fresh_state board_cfg)) <> 0 /\
  fst (uf2_write_block board_cfg 7 block1 (fresh_state board_cfg)) <> -1.
Proof.
  apply (C9_accepted_returns_512 board_cfg 7 block1 (fresh_state board_cfg));
    vm_compute; reflexivity.
Defined.

Lemma C10_familyID_value_ignored_witness :
  UF2_Block.familyID block1 <> CFG_UF2_FAMILY_ID board_cfg /\
  fst (uf2_write_block board_cfg 0 block1 (fresh_state board_cfg)) = 512 /\
  uf2_write_block board_cfg 0 block1 (fresh_state board_cfg)
  = uf2_write_block board_cfg 0
      (Buf.set32 block1 UF2_Block.off_familyID (CFG_UF2_FAMILY_ID board_cfg))
      (fresh_state board_cfg) /\
  snd (uf2_write_block board_cfg 0 block1 (fresh_state board_cfg))
  = {| numBlocks := 3; numWritten := 1;
       writtenMask := <[0%nat := 2]> (writtenMask (fresh_state board_cfg)) |}.
Proof.
  split; [vm_compute; discriminate|].
  destruct (C10_familyID_value_ignored board_cfg 0 block1
              (fresh_state board_cfg) (CFG_UF2_FAMILY_ID board_cfg))
    as (Hret & Hsame & Hstate);
    try (vm_compute; (reflexivity || discriminate)).
  split; [exact Hret|]. split; [exact Hsame|].
  rewrite Hstate. vm_compute. reflexivity.
Defined.

(** * More on the FAT sectors *)

Section FatFacts.

Variable cfg : Config.

(** X1: The second FAT copy reads as the first, sector by sector. *)
Theorem fat_copies_identical (sec : Z) :
  geometry_ok cfg ->
  0 <= sec < BPB_SECTORS_PER_FAT cfg ->
  uf2_read_block cfg (FS_START_FAT1_SECTOR cfg + sec)
  = uf2_read_block cfg (FS_START_FAT0_SECTOR + sec).
Proof.
  intros Hg Hsec.
  pose proof (uf2_read_block_fat cfg 0 sec Hg ltac:(by left) Hsec) as H0.
  pose proof (uf2_read_block_fat cfg 1 sec Hg ltac:(by right) Hsec) as H1.
  unfold FS_START_FAT1_SECTOR.
  replace (FS_START_FAT0_SECTOR + BPB_SECTORS_PER_FAT cfg + sec)
    with (FS_START_FAT0_SECTOR + 1 * BPB_SECTORS_PER_FAT cfg + sec) by lia.
  replace (FS_START_FAT0_SECTOR + sec)
    with (FS_START_FAT0_SECTOR + 0 * BPB_SECTORS_PER_FAT cfg + sec) by lia.
  by rewrite H0, H1.
Qed.

(** The bytes of logical FAT sector 0 before the chain loop runs. *)
Lemma get8_fat_sector0_reserved o :
  0 <= o < BPB_SECTOR_SIZE ->
  Buf.get8
    (fat_reserved_loop
       (Z.to_nat (NUM_FILES * FAT_ENTRY_SIZE + 2 * FAT_ENTRY_SIZE - 1)) 1
       (Buf.set8 (Buf.zeros (Z.to_nat BPB_SECTOR_SIZE)) 0
          BPB_MEDIA_DESCRIPTOR_BYTE)) o
  = if o =? 0 then 0xF8
    else if o <? 2 * (NUM_FILES + 2) then 0xff else 0.
Proof.
  unfold BPB_SECTOR_SIZE. intros Ho.
  rewrite get8_fat_reserved_loop;
    [| lia | lia
     | rewrite length_set8, length_zeros; rewrite NUM_FILES_eq;
       change FAT_ENTRY_SIZE with 2; change (Z.to_nat 512) with 512%nat; lia].
  rewrite NUM_FILES_eq. change FAT_ENTRY_SIZE with 2.
  change (Z.of_nat (Z.to_nat (3 * 2 + 2 * 2 - 1))) with 9.
  destruct (Z.eqb_spec o 0) as [->|Hne]; [done|].
  rewrite get8_set8_ne by lia.
  rewrite get8_zeros by (change (Z.to_nat 512) with 512%nat; lia).
  cmp_cases.
Qed.

(** X2: Every entry of the FAT outside the firmware chain: entry 0 carries the
    media descriptor, the entries up to the firmware file's first cluster
    are end-of-chain, and every other entry is zero (free). *)
Theorem fat_entry_outside_chain (copy k : Z) :
  geometry_ok cfg ->
  copy = 0 \/ copy = 1 ->
  0 <= k < FAT_ENTRIES_PER_SECTOR * BPB_SECTORS_PER_FAT cfg ->
  in_chain cfg k = false ->
  Buf.get16
    (uf2_read_block cfg
       (FS_START_FAT0_SECTOR + copy * BPB_SECTORS_PER_FAT cfg
        + k / FAT_ENTRIES_PER_SECTOR))
    (FAT_ENTRY_SIZE * (k mod FAT_ENTRIES_PER_SECTOR))
  = if k =? 0 then 0xFF00 + BPB_MEDIA_DESCRIPTOR_BYTE
    else if k <=? NUM_FILES + 1 then 0xFFFF
    else 0.
Proof.
  intros Hg Hcopy Hk Hout.
  destruct (geometry_bounds cfg Hg) as (Hspf & HT & _).
  change FAT_ENTRIES_PER_SECTOR with 256 in *.
  change FAT_ENTRY_SIZE with 2.
  assert (0 <= k / 256 < BPB_SECTORS_PER_FAT cfg) as Hsecr.
  { Z.to_euclidean_division_equations. lia. }
  assert (0 <= k mod 256 < 256) as Hmod by (apply Z.mod_pos_bound; lia).
  rewrite uf2_read_block_fat by done.
  change (Z.to_nat FAT_ENTRIES_PER_SECTOR) with 256%nat.
  rewrite get16_fat_chain_loop.
  2: lia. 2: lia.
  2:{ destruct (k / 256 =? 0);
      rewrite ?length_fat_reserved_loop, ?length_set8, length_zeros;
      change (Z.to_nat BPB_SECTOR_SIZE) with 512%nat; lia. }
  assert (fat_v (k / 256) (k mod 256) = k) as ->.
  { unfold fat_v. change FAT_ENTRIES_PER_SECTOR with 256.
    rewrite (u32_small (k / 256 * 256))
      by (change (2 ^ 32) with 4294967296;
          Z.to_euclidean_division_equations; lia).
    rewrite u32_small
      by (change (2 ^ 32) with 4294967296;
          Z.to_euclidean_division_equations; lia).
    Z.to_euclidean_division_equations. lia. }
  rewrite Hout, andb_false_r. unfold Buf.get16.
  destruct (Z.eqb_spec (k / 256) 0) as [Hz|Hnz].
  - assert (k = k mod 256) as Hkm
      by (Z.to_euclidean_division_equations; lia).
    rewrite <- Hkm.
    rewrite !get8_fat_sector0_reserved by (unfold BPB_SECTOR_SIZE; lia).
    rewrite NUM_FILES_eq. change BPB_MEDIA_DESCRIPTOR_BYTE with 0xF8.
    cmp_cases.
  - rewrite !get8_zeros by (change (Z.to_nat BPB_SECTOR_SIZE) with 512%nat; lia).
    rewrite NUM_FILES_eq.
    assert (256 <= k) by (Z.to_euclidean_division_equations; lia).
    cmp_cases.
Qed.

End FatFacts.

(** * More on [padded_memcpy] and the root directory *)

Section DirMoreFacts.

Variable cfg : Config.

Implicit Types (data : Buf.t) (o d i : Z).

Lemma strlen_nonneg (s : list Z) : 0 <= strlen s.
Proof. induction s as [|c s IH]; simpl; [lia|]. destruct (c =? 0); lia. Qed.

Lemma strlen_le_length (s : list Z) : strlen s <= Z.of_nat (length s).
Proof.
  induction s as [|c s IH]; simpl; [lia|]. destruct (c =? 0); lia.
Qed.

Lemma get8_padded_memcpy_in (len : nat) data o (src : list Z) (k : Z) :
  0 <= o -> 0 <= k < Z.of_nat len ->
  (Z.to_nat (o + Z.of_nat len) <= length data)%nat ->
  Buf.get8 (padded_memcpy data o src len) (o + k)
  = if k <? strlen src then u8 (src !!! Z.to_nat k) else 32.
Proof.
  revert data o src k.
  induction len as [|len IH]; intros data o src k Ho Hk Hlen; [lia|].
  simpl padded_memcpy.
  destruct (decide (k = 0)) as [->|Hk0].
  - rewrite Z.add_0_r.
    destruct src as [|c src]; [|destruct (Z.eqb_spec c 0) as [->|Hc]];
      rewrite get8_padded_memcpy_out by lia;
      rewrite get8_set8_eq by lia; simpl strlen.
    + done.
    + done.
    + destruct (Z.eqb_spec c 0); [done|].
      pose proof (strlen_nonneg src).
      destruct (Z.ltb_spec 0 (1 + strlen src)); [done|lia].
  - replace (o + k) with (o + 1 + (k - 1)) by lia.
    destruct src as [|c src]; [|destruct (Z.eqb_spec c 0) as [->|Hc]];
      rewrite IH by (rewrite ?length_set8; lia); simpl strlen.
    + cmp_cases.
    + cmp_cases.
    + destruct (Z.eqb_spec c 0); [done|].
      replace (Z.to_nat k) with (S (Z.to_nat (k - 1))) by lia.
      simpl. cmp_cases.
Qed.

(** X3: [padded_memcpy] fills the [len] bytes of the field: the characters of
    [src] before its NUL, then spaces. *)
Theorem padded_memcpy_field (len : nat) data o (src : list Z) (k : Z) :
  0 <= o -> 0 <= k < Z.of_nat len ->
  (Z.to_nat (o + Z.of_nat len) <= length data)%nat ->
  Buf.get8 (padded_memcpy data o src len) (o + k)
  = if k <? strlen src then u8 (src !!! Z.to_nat k) else 32.
Proof. exact (get8_padded_memcpy_in len data o src k). Qed.

(** The first [n] bytes of two buffers that agree there. *)
Lemma take_get8_ext (n : nat) data data' :
  (n <= length data)%nat -> (n <= length data')%nat ->
  (forall o, 0 <= o < Z.of_nat n -> Buf.get8 data o = Buf.get8 data' o) ->
  take n data = take n data'.
Proof.
  intros Hl Hl' H. apply list_eq_same_length with n;
    [rewrite length_take; lia | rewrite length_take; lia |].
  intros j x y Hj Hx Hy.
  rewrite lookup_take_lt in Hx, Hy by done.
  specialize (H (Z.of_nat j) ltac:(lia)).
  unfold Buf.get8 in H. rewrite Nat2Z.id in H.
  rewrite (list_lookup_total_correct _ _ _ Hx) in H.
  rewrite (list_lookup_total_correct _ _ _ Hy) in H. done.
Qed.

(** The loop leaves the entries after the last file as they were. *)
Lemma get8_dir_loop_above fuel i d rem data o :
  0 <= d -> 0 <= i <= NUM_FILES ->
  d + sizeof_DirEntry * (NUM_FILES - i) <= o ->
  Buf.get8 (dir_loop cfg fuel i d rem data) o = Buf.get8 data o.
Proof.
  unfold sizeof_DirEntry. revert i d data.
  induction fuel as [|fuel IH]; intros i d data Hd Hi Ho; [done|].
  simpl. destruct (0 <? rem); [|done].
  destruct (Z.ltb_spec i NUM_FILES); [|done]. simpl.
  destruct (info !! Z.to_nat i); [|done].
  rewrite (u32_small (i + 1))
    by (rewrite NUM_FILES_eq in *; change (2 ^ 32) with 4294967296; lia).
  unfold sizeof_DirEntry. rewrite IH by lia.
  apply get8_dir_entry_out; unfold sizeof_DirEntry; lia.
Qed.

(** X4: The volume label is the first entry of the first root-directory sector:
    the label padded with a space to eleven characters, the attribute byte
    [0x28], and nothing else. *)
Theorem rootdir_volume_label :
  geometry_ok cfg ->
  take (Z.to_nat sizeof_DirEntry)
    (uf2_read_block cfg (FS_START_ROOTDIR_SECTOR cfg))
  = UF2_VOLUME_LABEL ++ [32] ++ [0x28] ++ replicate 20 0.
Proof.
  intros Hg. rewrite uf2_read_block_rootdir by done.
  transitivity
    (take (Z.to_nat sizeof_DirEntry)
       (Buf.set8
          (padded_memcpy (Buf.zeros (Z.to_nat BPB_SECTOR_SIZE))
             DirEntry.off_name BootBlock_VolumeLabel 11)
          DirEntry.off_attrs 0x28)); [|by vm_compute].
  apply take_get8_ext.
  - rewrite length_dir_loop, length_set8, length_padded_memcpy, length_zeros.
    change (Z.to_nat sizeof_DirEntry) with 32%nat.
    change (Z.to_nat BPB_SECTOR_SIZE) with 512%nat. lia.
  - rewrite length_set8, length_padded_memcpy, length_zeros.
    change (Z.to_nat sizeof_DirEntry) with 32%nat.
    change (Z.to_nat BPB_SECTOR_SIZE) with 512%nat. lia.
  - intros o Ho. apply get8_dir_loop_below; [done|].
    change (Z.of_nat (Z.to_nat sizeof_DirEntry)) with 32 in Ho.
    unfold sizeof_DirEntry. lia.
Qed.

(** X7: After the entries of the files the sector is zero: the directory ends
    with an unused entry. *)
Theorem rootdir_ends_with_unused_entries o :
  geometry_ok cfg ->
  sizeof_DirEntry * NUM_DIRENTRIES <= o < BPB_SECTOR_SIZE ->
  Buf.get8 (uf2_read_block cfg (FS_START_ROOTDIR_SECTOR cfg)) o = 0.
Proof.
  unfold NUM_DIRENTRIES, sizeof_DirEntry, BPB_SECTOR_SIZE.
  rewrite NUM_FILES_eq. intros Hg Ho.
  rewrite uf2_read_block_rootdir by done.
  rewrite get8_dir_loop_above
    by (unfold sizeof_DirEntry; rewrite ?NUM_FILES_eq; lia).
  unfold DirEntry.off_attrs, DirEntry.off_name.
  rewrite get8_set8_ne by lia.
  rewrite get8_padded_memcpy_out by lia.
  apply get8_zeros. change (Z.to_nat BPB_SECTOR_SIZE) with 512%nat. lia.
Qed.

(** X8: The root-directory sectors after the first hold no entry at all. *)
Theorem rootdir_later_sectors_empty (sec : Z) :
  geometry_ok cfg ->
  1 <= sec < ROOT_DIR_SECTOR_COUNT ->
  uf2_read_block cfg (FS_START_ROOTDIR_SECTOR cfg + sec)
  = Buf.zeros (Z.to_nat BPB_SECTOR_SIZE).
Proof.
  change ROOT_DIR_SECTOR_COUNT with 4. intros Hg Hsec.
  destruct (geometry_bounds cfg Hg) as (Hspf & HT & _).
  unfold uf2_read_block, FS_START_CLUSTERS_SECTOR.
  change ROOT_DIR_SECTOR_COUNT with 4.
  assert (FS_START_ROOTDIR_SECTOR cfg = 1 + 2 * BPB_SECTORS_PER_FAT cfg) as Hr.
  { unfold FS_START_ROOTDIR_SECTOR, FS_START_FAT1_SECTOR.
    change FS_START_FAT0_SECTOR with 1. lia. }
  set (R := FS_START_ROOTDIR_SECTOR cfg) in *.
  destruct (Z.eqb_spec (R + sec) 0); [lia|].
  destruct (Z.ltb_spec (R + sec) R); [lia|].
  destruct (Z.ltb_spec (R + sec) (R + 4)); [|lia].
  replace (R + sec - R) with sec by lia.
  rewrite (u32_small sec) by (change (2 ^ 32) with 4294967296; lia).
  destruct (Z.eqb_spec sec 0); [lia|].
  change DIRENTRIES_PER_SECTOR with 16.
  rewrite (u32_small (16 * sec)) by (change (2 ^ 32) with 4294967296; lia).
  change (Z.to_nat NUM_FILES) with 3%nat. simpl dir_loop.
  rewrite NUM_FILES_eq.
  destruct (Z.ltb_spec (16 * sec) 3); [lia|]. done.
Qed.

End DirMoreFacts.

Section DirEntryFacts.

Variable cfg : Config.

Implicit Types (data : Buf.t) (o d i : Z) (inf : TextFile).

(** The name field of the entry just written, and the two bytes after it,
    which the loop body does not write. *)
Lemma dir_entry_name i inf d data k :
  0 <= d -> (Z.to_nat (d + sizeof_DirEntry) <= length data)%nat ->
  0 <= k < 13 ->
  Buf.get8 (dir_entry cfg i inf d data) (d + k)
  = if k <? 11 then
      if k <? strlen (name inf) then u8 (name inf !!! Z.to_nat k) else 32
    else Buf.get8 data (d + k).
Proof.
  unfold sizeof_DirEntry. intros Hd Hlen Hk. unfold dir_entry.
  unfold DirEntry.off_size, DirEntry.off_startCluster,
    DirEntry.off_updateDate, DirEntry.off_updateTime,
    DirEntry.off_highStartCluster, DirEntry.off_lastAccessDate,
    DirEntry.off_createDate, DirEntry.off_createTime,
    DirEntry.off_createTimeFine, DirEntry.off_name.
  rewrite get8_set32_ne by lia. rewrite !get8_set16_ne by lia.
  rewrite get8_set8_ne by lia. rewrite Z.add_0_r.
  destruct (Z.ltb_spec k 11).
  - apply get8_padded_memcpy_in; lia.
  - apply get8_padded_memcpy_out; lia.
Qed.

(** The bytes of the entry of file [j] after the loop are those its pass of
    the loop body wrote, over a buffer that agrees with the initial one from
    that entry on. *)
Lemma dir_loop_entry_bytes fuel i d rem data j inf :
  0 < rem -> 0 <= i <= j -> j < NUM_FILES ->
  (Z.to_nat (j - i) < fuel)%nat ->
  info !! Z.to_nat j = Some inf ->
  0 <= d ->
  (Z.to_nat (d + sizeof_DirEntry * (j - i + 1)) <= length data)%nat ->
  let dj := d + sizeof_DirEntry * (j - i) in
  exists data',
    length data' = length data /\
    (forall o, dj <= o -> Buf.get8 data' o = Buf.get8 data o) /\
    forall o, dj <= o < dj + sizeof_DirEntry ->
      Buf.get8 (dir_loop cfg fuel i d rem data) o
      = Buf.get8 (dir_entry cfg j inf dj data') o.
Proof.
  unfold sizeof_DirEntry. revert i d data.
  induction fuel as [|fuel IH]; intros i d data Hrem Hi Hj Hfuel Hinf Hd Hlen;
    [lia|].
  cbv zeta. simpl dir_loop.
  destruct (Z.ltb_spec 0 rem); [|lia].
  destruct (Z.ltb_spec i NUM_FILES); [|lia]. simpl.
  destruct (info !! Z.to_nat i) as [inf0|] eqn:Hinf0.
  2:{ apply lookup_ge_None_1 in Hinf0. unfold NUM_FILES in *. lia. }
  rewrite (u32_small (i + 1))
    by (rewrite NUM_FILES_eq in *; change (2 ^ 32) with 4294967296; lia).
  unfold sizeof_DirEntry.
  destruct (decide (j = i)) as [->|Hne].
  - replace (d + 32 * (i - i)) with d by lia.
    assert (inf0 = inf) as -> by congruence.
    exists data. split; [done|]. split; [done|].
    intros o Ho. apply get8_dir_loop_below; lia.
  - replace (d + 32 * (j - i)) with (d + 32 + 32 * (j - (i + 1))) by lia.
    destruct (IH (i + 1) (d + 32) (dir_entry cfg i inf0 d data))
      as (data' & Hl' & Hsame & Hbytes); try lia; try done.
    { rewrite length_dir_entry. lia. }
    exists data'. split; [by rewrite Hl', length_dir_entry|].
    split; [|done].
    intros o Ho. rewrite Hsame by done.
    apply get8_dir_entry_out; unfold sizeof_DirEntry; lia.
Qed.

(** X5: The directory entry of file [j] of the table carries the eleven
    characters of its name, and zero attribute and reserved bytes. *)
Theorem rootdir_entry_name (j : nat) inf (k : Z) :
  geometry_ok cfg ->
  info !! j = Some inf ->
  0 <= k < 11 ->
  let dir := uf2_read_block cfg (FS_START_ROOTDIR_SECTOR cfg) in
  let d := sizeof_DirEntry * (Z.of_nat j + 1) in
  Buf.get8 dir (d + k) = name inf !!! Z.to_nat k /\
  Buf.get8 dir (d + DirEntry.off_attrs) = 0 /\
  Buf.get8 dir (d + DirEntry.off_reserved) = 0.
Proof.
  intros Hg Hinf Hk dir d.
  assert ((j < 3)%nat) as Hj.
  { apply lookup_lt_Some in Hinf. by simpl in Hinf. }
  subst dir d. rewrite uf2_read_block_rootdir by done.
  set (base := Buf.set8 _ DirEntry.off_attrs 40).
  assert (length base = 512%nat) as Hlb.
  { unfold base. by rewrite length_set8, length_padded_memcpy, length_zeros. }
  destruct (dir_loop_entry_bytes (Z.to_nat NUM_FILES) 0 sizeof_DirEntry
              (DIRENTRIES_PER_SECTOR - 1) base (Z.of_nat j) inf)
    as (data' & Hl' & Hsame & Hbytes).
  - done.
  - lia.
  - rewrite NUM_FILES_eq. lia.
  - rewrite NUM_FILES_eq. lia.
  - by rewrite Nat2Z.id.
  - done.
  - rewrite Hlb. unfold sizeof_DirEntry. lia.
  - replace (sizeof_DirEntry + sizeof_DirEntry * (Z.of_nat j - 0))
      with (sizeof_DirEntry * (Z.of_nat j + 1)) in *
      by (unfold sizeof_DirEntry; lia).
    unfold sizeof_DirEntry, DirEntry.off_attrs, DirEntry.off_reserved in *.
    rewrite !Hbytes by lia.
    rewrite !dir_entry_name
      by (unfold sizeof_DirEntry; rewrite ?Hl', ?Hlb; lia).
    rewrite !Hsame by lia.
    assert (forall o, 32 <= o < 512 -> Buf.get8 base o = 0) as Hz.
    { intros o Ho. unfold base, DirEntry.off_attrs, DirEntry.off_name.
      rewrite get8_set8_ne by lia. rewrite get8_padded_memcpy_out by lia.
      apply get8_zeros. change (Z.to_nat BPB_SECTOR_SIZE) with 512%nat. lia. }
    rewrite !Hz by lia.
    destruct (Z.ltb_spec k 11); [|lia]. change (11 <? 11) with false.
    change (12 <? 11) with false. cbv iota.
    split; [|done].
    destruct j as [|[|[|j]]]; [| | |lia]; simpl in Hinf;
      injection Hinf as <-; simpl name;
      (assert (k = 0 \/ k = 1 \/ k = 2 \/ k = 3 \/ k = 4 \/ k = 5 \/ k = 6
               \/ k = 7 \/ k = 8 \/ k = 9 \/ k = 10) as Hcases by lia;
       repeat (destruct Hcases as [->|Hcases]; [by vm_compute|]);
       subst k; by vm_compute).
Qed.

(** X6: The entry of the firmware file, the last of the table: it starts at the
    first cluster of the FAT chain, and its size is one sector for each
    cluster of the chain. *)
Theorem rootdir_firmware_entry :
  geometry_ok cfg ->
  part_size cfg < 2 ^ 31 ->
  let dir := uf2_read_block cfg (FS_START_ROOTDIR_SECTOR cfg) in
  let d := sizeof_DirEntry * NUM_FILES in
  DirEntry.startCluster dir d = UF2_FIRST_SECTOR /\
  DirEntry.highStartCluster dir d = 0 /\
  DirEntry.size dir d
  = BPB_SECTOR_SIZE * (UF2_LAST_SECTOR cfg - UF2_FIRST_SECTOR + 1).
Proof.
  intros Hg Hp dir d.
  set (inf := {| name := chars "CURRENT UF2"; content := None |}).
  assert (info !! Z.to_nat (NUM_FILES - 1) = Some inf) as Hinf by reflexivity.
  assert (content inf = None) as Hc by reflexivity.
  destruct (UF2_LAST_SECTOR_eq cfg Hg) as [HL Hsec].
  subst dir d. rewrite uf2_read_block_rootdir by done.
  destruct (dir_loop_fields cfg (Z.to_nat NUM_FILES) 0 sizeof_DirEntry
              (DIRENTRIES_PER_SECTOR - 1)
              (Buf.set8
                 (padded_memcpy (Buf.zeros (Z.to_nat BPB_SECTOR_SIZE))
                    DirEntry.off_name BootBlock_VolumeLabel 11)
                 DirEntry.off_attrs 0x28)
              (NUM_FILES - 1) inf) as (E1 & E2 & E3).
  - done.
  - rewrite NUM_FILES_eq. lia.
  - lia.
  - rewrite NUM_FILES_eq. simpl. lia.
  - done.
  - done.
  - rewrite length_set8, length_padded_memcpy, length_zeros.
    rewrite NUM_FILES_eq. unfold sizeof_DirEntry.
    change (Z.to_nat BPB_SECTOR_SIZE) with 512%nat. lia.
  - replace (sizeof_DirEntry + sizeof_DirEntry * (NUM_FILES - 1 - 0))
      with (sizeof_DirEntry * NUM_FILES) in *
      by (unfold sizeof_DirEntry; lia).
    rewrite E1, E2, E3, Hc, HL.
    split; [done|]. split; [done|].
    unfold UF2_SIZE, UF2_FIRST_SECTOR, BPB_SECTOR_SIZE.
    change BPB_SECTORS_PER_CLUSTER with 1.
    assert (0 <= UF2_SECTORS cfg * 512 < 2 ^ 32) as Hr.
    { unfold UF2_SECTORS. change UF2_FIRMWARE_BYTES_PER_SECTOR with 256.
      destruct Hg as (_ & Hps & _).
      change (2 ^ 31) with 2147483648 in Hp.
      change (2 ^ 32) with 4294967296.
      Z.to_euclidean_division_equations. lia. }
    rewrite (u32_small (UF2_SECTORS cfg * 512)) by exact Hr.
    rewrite (u32_small (UF2_SECTORS cfg * 512)) by exact Hr.
    rewrite NUM_FILES_eq. lia.
Qed.

End DirEntryFacts.

(** * More on the data region *)

Section DataFacts.

Variable cfg : Config.

Implicit Types (data : Buf.t) (o d i m : Z).

Lemma memcpy_zeros_prefix (n : nat) (src : list Z) :
  (length src <= n)%nat ->
  Buf.memcpy (Buf.zeros n) 0 src = src ++ Buf.zeros (n - length src).
Proof.
  unfold Buf.memcpy, Buf.zeros. change (Z.to_nat 0) with 0%nat.
  revert n. induction src as [|c src IH]; intros n Hn.
  - simpl. by rewrite Nat.sub_0_r.
  - destruct n as [|n]; simpl in *; [lia|].
    rewrite list_inserts_cons. simpl. f_equal.
    change (replicate n 0) with (Buf.zeros n).
    specialize (IH n ltac:(lia)).
    unfold Buf.zeros in *.
    rewrite <- IH. symmetry.
    apply list_eq. intros j. destruct j; simpl; [|done].
    destruct src, n; by simpl.
Qed.

(** X9: The sector of an inline file: the characters of the content up to its
    NUL, then zeros to the end of the sector.  It is the sector of the
    cluster its directory entry names, [i + 2]. *)
Theorem read_inline_file_sector (i : nat) inf (c : list Z) :
  geometry_ok cfg ->
  info !! i = Some inf -> content inf = Some c ->
  uf2_read_block cfg (FS_START_CLUSTERS_SECTOR cfg + (Z.of_nat i + 2 - 2))
  = take (Z.to_nat (strlen c)) c
    ++ Buf.zeros (Z.to_nat (BPB_SECTOR_SIZE - strlen c)).
Proof.
  intros Hg Hinf Hc.
  destruct (geometry_bounds cfg Hg) as (Hspf & HT & _ & HC & HCT).
  assert ((i < 2)%nat) as Hi.
  { destruct i as [|[|[|i]]]; [lia|lia| |]; simpl in Hinf.
    - injection Hinf as <-. discriminate.
    - by rewrite lookup_nil in Hinf. }
  assert (strlen c < 512) as Hlen.
  { destruct i as [|[|i]]; [| |lia]; simpl in Hinf; injection Hinf as <-;
      simpl in Hc; injection Hc as <-; by vm_compute. }
  pose proof (strlen_nonneg c) as Hlen0.
  pose proof (strlen_le_length c) as Hlen1.
  unfold uf2_read_block.
  assert (FS_START_ROOTDIR_SECTOR cfg = FS_START_CLUSTERS_SECTOR cfg - 4)
    as Hr.
  { unfold FS_START_CLUSTERS_SECTOR. change ROOT_DIR_SECTOR_COUNT with 4. lia. }
  rewrite Hr. set (C := FS_START_CLUSTERS_SECTOR cfg) in *.
  replace (C + (Z.of_nat i + 2 - 2)) with (C + Z.of_nat i) by lia.
  destruct (Z.eqb_spec (C + Z.of_nat i) 0); [lia|].
  destruct (Z.ltb_spec (C + Z.of_nat i) (C - 4)); [lia|].
  destruct (Z.ltb_spec (C + Z.of_nat i) C); [lia|].
  destruct (Z.ltb_spec (C + Z.of_nat i) (BPB_TOTAL_SECTORS cfg)); [|lia].
  replace (C + Z.of_nat i - C) with (Z.of_nat i) by lia.
  rewrite (u32_small (Z.of_nat i)) by (change (2 ^ 32) with 4294967296; lia).
  rewrite NUM_FILES_eq.
  destruct (Z.ltb_spec (Z.of_nat i) (3 - 1)); [|lia].
  rewrite Nat2Z.id, Hinf. destruct inf as [nm ct]. simpl in Hc. subst ct.
  rewrite memcpy_zeros_prefix.
  - rewrite length_take. f_equal. f_equal.
    change (Z.to_nat BPB_SECTOR_SIZE) with 512%nat. unfold BPB_SECTOR_SIZE. lia.
  - rewrite length_take. change (Z.to_nat BPB_SECTOR_SIZE) with 512%nat. lia.
Qed.

(** X10: A sector index at or past the end of the volume reads as zeros. *)
Theorem read_past_volume block_no :
  geometry_ok cfg ->
  BPB_TOTAL_SECTORS cfg <= block_no ->
  uf2_read_block cfg block_no = Buf.zeros (Z.to_nat BPB_SECTOR_SIZE).
Proof.
  intros Hg Hb.
  destruct (geometry_bounds cfg Hg) as (Hspf & HT & _ & HC & HCT).
  unfold uf2_read_block.
  assert (FS_START_ROOTDIR_SECTOR cfg = FS_START_CLUSTERS_SECTOR cfg - 4)
    as Hr.
  { unfold FS_START_CLUSTERS_SECTOR. change ROOT_DIR_SECTOR_COUNT with 4. lia. }
  rewrite Hr. set (C := FS_START_CLUSTERS_SECTOR cfg) in *.
  destruct (Z.eqb_spec block_no 0); [lia|].
  destruct (Z.ltb_spec block_no (C - 4)); [lia|].
  destruct (Z.ltb_spec block_no C); [lia|].
  destruct (Z.ltb_spec block_no (BPB_TOTAL_SECTORS cfg)); [lia|]. done.
Qed.

End DataFacts.

(** * The bitmask and the counter over a session *)

Section SessionFacts.

Variable cfg : Config.

Implicit Types (s : WriteState) (data : Buf.t) (b : Z).

Lemma written_learn_total total s b :
  written (learn_total cfg total s) b = written s b.
Proof. unfold written. by rewrite learn_total_writtenMask. Qed.

Lemma bytes_blockNo data : Buf.bytes data -> 0 <= UF2_Block.blockNo data.
Proof. intros Hb. by apply get32_bytes. Qed.

(** One write, seen from the bitmask: the bit of the block's index is added
    when the write is absorbed, and no other bit changes. *)
Lemma write_state_written data s b :
  Buf.bytes data -> state_ok cfg s -> 0 <= b ->
  written (write_state cfg data s) b
  = written s b || (absorbs cfg data && (b =? UF2_Block.blockNo data)).
Proof.
  intros Hb Hok Hb0. pose proof (bytes_blockNo data Hb) as Hbn.
  unfold absorbs. destruct (is_uf2_block data) eqn:Hv.
  - rewrite write_state_accepted by done.
    destruct (UF2_Block.numBlocks data =? 0); simpl; [by rewrite orb_false_r|].
    destruct (Z.ltb_spec (UF2_Block.blockNo data) (MAX_BLOCKS cfg)); simpl.
    + rewrite written_mark_block by (try apply learn_total_ok; done || lia).
      by rewrite written_learn_total.
    + rewrite mark_block_beyond by done.
      by rewrite written_learn_total, orb_false_r.
  - rewrite write_state_rejected by done. simpl. by rewrite orb_false_r.
Qed.

(** One write, seen from the counter. *)
Lemma write_state_numWritten data s :
  numWritten (write_state cfg data s)
  = if absorbs cfg data && negb (written s (UF2_Block.blockNo data))
    then u32 (numWritten s + 1) else numWritten s.
Proof.
  unfold absorbs. destruct (is_uf2_block data) eqn:Hv.
  - rewrite write_state_accepted by done.
    destruct (UF2_Block.numBlocks data =? 0); simpl; [done|].
    destruct (Z.ltb_spec (UF2_Block.blockNo data) (MAX_BLOCKS cfg)); simpl.
    + rewrite <- (written_learn_total (UF2_Block.numBlocks data) s).
      destruct (written (learn_total cfg _ s) _) eqn:Hw; simpl.
      * rewrite mark_block_seen by done. apply learn_total_numWritten.
      * rewrite mark_block_new by done. simpl.
        by rewrite learn_total_numWritten.
    + rewrite mark_block_beyond by done. apply learn_total_numWritten.
  - by rewrite write_state_rejected.
Qed.

(** X14: A bit of the bitmask, once set, stays set under every write. *)
Theorem written_bit_never_cleared data s b :
  Buf.bytes data -> state_ok cfg s -> 0 <= b ->
  written s b = true ->
  written (write_state cfg data s) b = true.
Proof.
  intros Hb Hok Hb0 Hw. rewrite write_state_written by done. by rewrite Hw.
Qed.

Lemma write_stream_snoc blocks data s :
  write_stream cfg (blocks ++ [data]) s
  = write_state cfg data (write_stream cfg blocks s).
Proof. unfold write_stream. by rewrite foldl_snoc. Qed.

Lemma absorbed_snoc blocks data :
  absorbed cfg (blocks ++ [data])
  = absorbed cfg blocks
    ∪ (if absorbs cfg data then {[UF2_Block.blockNo data]} else ∅).
Proof.
  unfold absorbed. rewrite filter_app, map_app, list_to_set_app_L. f_equal.
  destruct (absorbs cfg data) eqn:Ha.
  - rewrite filter_cons_True by done. simpl.
    apply (right_id_L ∅ (∪)).
  - rewrite filter_cons_False by congruence. done.
Qed.

Lemma absorbed_range blocks b :
  Forall Buf.bytes blocks -> b ∈ absorbed cfg blocks ->
  0 <= b < MAX_BLOCKS cfg.
Proof.
  intros Hbs Hin. unfold absorbed in Hin.
  apply elem_of_list_to_set, list_elem_of_fmap in Hin as (d & -> & Hd).
  apply list_elem_of_filter in Hd as [Ha Hd].
  rewrite Forall_forall in Hbs. split; [by apply bytes_blockNo, Hbs|].
  unfold absorbs in Ha. apply andb_true_iff in Ha as [_ Ha].
  by apply Z.ltb_lt.
Qed.

Lemma size_in_range (X : gset Z) (n : Z) :
  (forall x, x ∈ X -> 0 <= x < n) -> Z.of_nat (size X) <= Z.max 0 n.
Proof.
  intros HX.
  assert (X ⊆ list_to_set (seqZ 0 n)) as Hsub.
  { intros x Hx. apply elem_of_list_to_set, elem_of_seqZ.
    specialize (HX x Hx). lia. }
  apply subseteq_size in Hsub.
  rewrite size_list_to_set, length_seqZ in Hsub by apply NoDup_seqZ. lia.
Qed.

Lemma session_invariant blocks :
  MAX_BLOCKS cfg < 2 ^ 32 ->
  Forall Buf.bytes blocks ->
  let s := write_stream cfg blocks (fresh_state cfg) in
  (forall b, 0 <= b < MAX_BLOCKS cfg ->
             written s b = bool_decide (b ∈ absorbed cfg blocks)) /\
  numWritten s = Z.of_nat (size (absorbed cfg blocks)).
Proof.
  intros Hmax. induction blocks as [|data blocks IH] using rev_ind;
    intros Hbs; cbv zeta.
  - split; [|done]. intros b Hb. unfold absorbed. simpl.
    unfold written, fresh_state. simpl.
    rewrite lookup_total_replicate_2.
    + by rewrite Z.land_0_l.
    + assert (0 <= b / 8 <= MAX_BLOCKS cfg / 8).
      { split; [apply Z.div_pos; lia | apply Z.div_le_mono; lia]. }
      lia.
  - apply Forall_app in Hbs as [Hbs Hd]. apply Forall_inv in Hd.
    destruct (IH Hbs) as [IHw IHn]. clear IH.
    pose proof (write_stream_ok cfg blocks (fresh_state cfg)
                  (fresh_state_ok cfg)) as Hok.
    pose proof (bytes_blockNo data Hd) as Hbn.
    rewrite write_stream_snoc, absorbed_snoc.
    set (s := write_stream cfg blocks (fresh_state cfg)) in *.
    set (X := absorbed cfg blocks) in *.
    split.
    + intros b Hb. rewrite write_state_written by (done || lia).
      rewrite IHw by done.
      destruct (absorbs cfg data); simpl.
      * destruct (Z.eqb_spec b (UF2_Block.blockNo data)) as [->|Hne].
        -- rewrite orb_true_r. symmetry. apply bool_decide_eq_true.
           apply elem_of_union. right. by apply elem_of_singleton.
        -- rewrite orb_false_r. apply bool_decide_ext.
           rewrite elem_of_union, elem_of_singleton. tauto.
      * rewrite orb_false_r. by rewrite (right_id_L ∅ (∪)).
    + rewrite write_state_numWritten.
      destruct (absorbs cfg data) eqn:Ha; simpl.
      * assert (UF2_Block.blockNo data < MAX_BLOCKS cfg) as Hlt.
        { unfold absorbs in Ha. apply andb_true_iff in Ha as [_ Ha].
          by apply Z.ltb_lt. }
        rewrite IHw by lia.
        destruct (decide (UF2_Block.blockNo data ∈ X)) as [Hin|Hnin].
        -- rewrite bool_decide_true by done. simpl. rewrite IHn.
           f_equal. f_equal. symmetry. rewrite (comm_L (∪)).
           apply subseteq_union_1_L. by apply singleton_subseteq_l.
        -- rewrite bool_decide_false by done. simpl. rewrite IHn.
           assert (X ## ({[UF2_Block.blockNo data]} : gset Z)) as Hdisj
             by (by apply disjoint_singleton_r).
           rewrite size_union by done. rewrite size_singleton.
           assert (Z.of_nat (size (X ∪ {[UF2_Block.blockNo data]}))
                   <= Z.max 0 (MAX_BLOCKS cfg)) as Hsz.
           { apply size_in_range. intros x Hx.
             apply elem_of_union in Hx as [Hx|Hx].
             - by apply (absorbed_range blocks).
             - apply elem_of_singleton in Hx as ->. lia. }
           rewrite size_union, size_singleton in Hsz by done.
           unfold u32. rewrite Z.mod_small; [lia|].
           change (2 ^ 32) with 4294967296 in *. lia.
      * rewrite IHn. by rewrite (right_id_L ∅ (∪)).
Qed.

(** X15: From a fresh state and after any stream of sectors, the bits set in the
    bitmask are the indices of the absorbed writes, and the counter is their
    number: each index is counted once however often it was written. *)
Theorem counter_counts_absorbed_indices blocks :
  MAX_BLOCKS cfg < 2 ^ 32 ->
  Forall Buf.bytes blocks ->
  let s := write_stream cfg blocks (fresh_state cfg) in
  (forall b, 0 <= b < MAX_BLOCKS cfg ->
             written s b = bool_decide (b ∈ absorbed cfg blocks)) /\
  numWritten s = Z.of_nat (size (absorbed cfg blocks)).
Proof. exact (session_invariant blocks). Qed.

(** The total a session has learned from blocks that agree on it. *)
Lemma learned_total_of_stream total blocks :
  total <> 0 -> total < MAX_BLOCKS cfg ->
  Forall (stream_block total) blocks ->
  numBlocks (write_stream cfg blocks (fresh_state cfg))
  = if decide (blocks = []) then 0 else total.
Proof.
  intros Hnz Hlt. induction blocks as [|data blocks IH] using rev_ind;
    intros Hbs; [done|].
  apply Forall_app in Hbs as [Hbs Hd]. apply Forall_inv in Hd.
  destruct Hd as [[_ Hv] Ht].
  rewrite write_stream_snoc, write_state_accepted by done. rewrite Ht.
  destruct (Z.eqb_spec total 0); [done|].
  rewrite mark_block_numBlocks, learn_total_numBlocks, (IH Hbs).
  destruct (decide (blocks ++ [data] = [])) as [He|_];
    [by destruct blocks|].
  destruct (decide (blocks = [])).
  - destruct (Z.eqb_spec 0 total); [lia|].
    destruct (Z.leb_spec (MAX_BLOCKS cfg) total); [lia|]. done.
  - by rewrite Z.eqb_refl.
Qed.

Lemma complete_iff_arrived total blocks :
  MAX_BLOCKS cfg < 2 ^ 32 ->
  0 < total < MAX_BLOCKS cfg ->
  blocks <> [] ->
  Forall (stream_block total) blocks ->
  Forall (fun d => UF2_Block.blockNo d < total) blocks ->
  complete (write_stream cfg blocks (fresh_state cfg)) = true
  <-> forall b, 0 <= b < total ->
        exists d, d ∈ blocks /\ UF2_Block.blockNo d = b.
Proof.
  intros Hmax Ht Hne Hbs Hidx.
  assert (Forall Buf.bytes blocks) as Hbytes.
  { rewrite Forall_forall in *. intros d Hd.
    by destruct (Hbs d Hd) as [[[_ ?] _] _]. }
  destruct (session_invariant blocks Hmax Hbytes) as [_ Hn].
  unfold complete.
  rewrite Hn, (learned_total_of_stream total) by (done || lia).
  destruct (decide (blocks = [])); [done|].
  assert (forall b, b ∈ absorbed cfg blocks
                    <-> exists d, d ∈ blocks /\ UF2_Block.blockNo d = b)
    as Hmem.
  { intros b. unfold absorbed.
    rewrite elem_of_list_to_set, list_elem_of_fmap. split.
    - intros (d & -> & Hd). apply list_elem_of_filter in Hd as [_ Hd].
      by exists d.
    - intros (d & Hd & <-). exists d. split; [done|].
      apply list_elem_of_filter. split; [|done].
      rewrite Forall_forall in Hbs, Hidx.
      destruct (Hbs d Hd) as [[_ Hv] Htot]. specialize (Hidx d Hd).
      unfold absorbs. rewrite Hv, Htot. simpl.
      apply andb_true_iff. split.
      + apply negb_true_iff, Z.eqb_neq. lia.
      + apply Z.ltb_lt. lia. }
  assert (absorbed cfg blocks ⊆ list_to_set (seqZ 0 total)) as Hsub.
  { intros b Hb. apply elem_of_list_to_set, elem_of_seqZ.
    pose proof (absorbed_range blocks b Hbytes Hb).
    apply Hmem in Hb as (d & Hd & <-).
    rewrite Forall_forall in Hidx. specialize (Hidx d Hd). lia. }
  assert (size (list_to_set (seqZ 0 total) : gset Z) = Z.to_nat total)
    as Hsize.
  { by rewrite size_list_to_set, length_seqZ by apply NoDup_seqZ. }
  rewrite Z.leb_le. split.
  - intros Hge b Hb. apply Hmem.
    assert (absorbed cfg blocks = list_to_set (seqZ 0 total)) as ->.
    { apply set_subseteq_size_eq; [done|]. rewrite Hsize. lia. }
    apply elem_of_list_to_set, elem_of_seqZ. lia.
  - intros Hall.
    assert (list_to_set (seqZ 0 total) ⊆ absorbed cfg blocks) as Hsup.
    { intros b Hb. apply elem_of_list_to_set, elem_of_seqZ in Hb.
      apply Hmem, Hall. lia. }
    apply subseteq_size in Hsup. rewrite Hsize in Hsup. lia.
Qed.

(** X16: Completion is detected exactly when every block of the image has
    arrived: for a non-empty stream of valid blocks that all declare the
    total [total], below [MAX_BLOCKS], and carry indices below it, the test
    [numWritten >= numBlocks] holds on the final state if and only if each
    index [0 .. total - 1] occurs in the stream. *)
Theorem completion_iff_all_blocks_arrived total blocks :
  MAX_BLOCKS cfg < 2 ^ 32 ->
  0 < total < MAX_BLOCKS cfg ->
  blocks <> [] ->
  Forall (stream_block total) blocks ->
  Forall (fun d => UF2_Block.blockNo d < total) blocks ->
  complete (write_stream cfg blocks (fresh_state cfg)) = true
  <-> forall b, 0 <= b < total ->
        exists d, d ∈ blocks /\ UF2_Block.blockNo d = b.
Proof. exact (complete_iff_arrived total blocks). Qed.

End SessionFacts.

(** * The packets synthesized for the firmware file *)

Section PacketFacts.

Variable cfg : Config.

Implicit Types (data : Buf.t) (o m : Z).

Ltac uf2_offsets :=
  unfold UF2_Block.off_familyID, UF2_Block.off_flags,
    UF2_Block.off_payloadSize, UF2_Block.off_targetAddr,
    UF2_Block.off_numBlocks, UF2_Block.off_blockNo,
    UF2_Block.off_magicEnd, UF2_Block.off_magicStart1,
    UF2_Block.off_magicStart0, UF2_Block.off_data in *.

Ltac header_field :=
  unfold firmware_header; cbv zeta; uf2_offsets;
  repeat first
    [ rewrite get32_set32_eq
        by (rewrite ?length_set32, ?length_zeros;
            change (Z.to_nat BPB_SECTOR_SIZE) with 512%nat; lia)
    | rewrite get32_set32_ne by lia ].

Lemma length_firmware_header m : length (firmware_header cfg m) = 512%nat.
Proof.
  unfold firmware_header. cbv zeta. by rewrite !length_set32, length_zeros.
Qed.

Lemma firmware_header_fields m :
  UF2_Block.magicStart0 (firmware_header cfg m) = UF2_MAGIC_START0 /\
  UF2_Block.magicStart1 (firmware_header cfg m) = UF2_MAGIC_START1 /\
  UF2_Block.magicEnd (firmware_header cfg m) = UF2_MAGIC_END /\
  UF2_Block.blockNo (firmware_header cfg m) = u32 m /\
  UF2_Block.numBlocks (firmware_header cfg m) = u32 (UF2_SECTORS cfg) /\
  UF2_Block.targetAddr (firmware_header cfg m)
  = u32 (m * UF2_FIRMWARE_BYTES_PER_SECTOR) /\
  UF2_Block.payloadSize (firmware_header cfg m)
  = UF2_FIRMWARE_BYTES_PER_SECTOR /\
  UF2_Block.flags (firmware_header cfg m) = UF2_FLAG_FAMILYID /\
  UF2_Block.familyID (firmware_header cfg m) = u32 (CFG_UF2_FAMILY_ID cfg).
Proof.
  unfold UF2_Block.magicStart0, UF2_Block.magicStart1, UF2_Block.magicEnd,
    UF2_Block.blockNo, UF2_Block.numBlocks, UF2_Block.targetAddr,
    UF2_Block.payloadSize, UF2_Block.flags, UF2_Block.familyID.
  repeat split; header_field; done.
Qed.

(** The sector of chunk [m], below the flash bound: the header, with the
    256 bytes read from the partition copied to the payload field when the
    read succeeds. *)
Lemma uf2_read_block_packet m :
  geometry_ok cfg -> 0 <= m ->
  firmware_sector cfg m < BPB_TOTAL_SECTORS cfg ->
  m * UF2_FIRMWARE_BYTES_PER_SECTOR < CFG_UF2_FLASH_SIZE cfg ->
  uf2_read_block cfg (firmware_sector cfg m)
  = match esp_partition_read cfg (m * UF2_FIRMWARE_BYTES_PER_SECTOR)
            UF2_FIRMWARE_BYTES_PER_SECTOR with
    | Some bytes =>
        Buf.memcpy (firmware_header cfg m) UF2_Block.off_data
          (take (Z.to_nat UF2_FIRMWARE_BYTES_PER_SECTOR) bytes)
    | None => firmware_header cfg m
    end.
Proof.
  intros Hg Hm Hin Hlt.
  rewrite uf2_read_block_firmware by done. cbv zeta.
  destruct (Z.ltb_spec (m * UF2_FIRMWARE_BYTES_PER_SECTOR)
              (CFG_UF2_FLASH_SIZE cfg)); [|lia].
  fold (firmware_header cfg m).
  destruct (firmware_header_fields m) as (_ & _ & _ & _ & _ & _ & -> & _).
  done.
Qed.

(** A header field of the packet is the header's: the payload copy stays
    inside the payload field. *)
Lemma get32_packet_header m (src : list Z) o :
  (length src <= 256)%nat ->
  0 <= o -> o + 3 < 32 \/ 288 <= o ->
  Buf.get32 (Buf.memcpy (firmware_header cfg m) UF2_Block.off_data src) o
  = Buf.get32 (firmware_header cfg m) o.
Proof.
  intros Hlen Ho Hout. apply get32_frame. intros o' Ho'.
  unfold UF2_Block.off_data.
  destruct Hout; [apply get8_memcpy_lt | apply get8_memcpy_ge]; lia.
Qed.

Lemma firmware_sector_packet m :
  geometry_ok cfg -> 0 <= m ->
  firmware_sector cfg m < BPB_TOTAL_SECTORS cfg ->
  m * UF2_FIRMWARE_BYTES_PER_SECTOR < CFG_UF2_FLASH_SIZE cfg ->
  let p := uf2_read_block cfg (firmware_sector cfg m) in
  length p = Z.to_nat BPB_SECTOR_SIZE /\
  is_uf2_block p = true /\
  UF2_Block.blockNo p = m /\
  UF2_Block.numBlocks p = UF2_SECTORS cfg /\
  UF2_Block.targetAddr p = m * UF2_FIRMWARE_BYTES_PER_SECTOR /\
  UF2_Block.payloadSize p = UF2_FIRMWARE_BYTES_PER_SECTOR /\
  UF2_Block.flags p = UF2_FLAG_FAMILYID /\
  UF2_Block.familyID p = u32 (CFG_UF2_FAMILY_ID cfg).
Proof.
  intros Hg Hm Hin Hlt p.
  destruct (geometry_bounds cfg Hg) as (Hspf & HT & _ & HC & _).
  destruct (UF2_LAST_SECTOR_eq cfg Hg) as [_ Hsec].
  destruct (firmware_header_fields m)
    as (E0 & E1 & Ee & Eb & En & Ea & Ep & Ef & Ei).
  assert (m < 66014) as Hm'.
  { unfold firmware_sector in Hin. rewrite NUM_FILES_eq in Hin. lia. }
  rewrite u32_small in Eb by (change (2 ^ 32) with 4294967296; lia).
  rewrite u32_small in En
    by (change (2 ^ 24) with 16777216 in Hsec;
        change (2 ^ 32) with 4294967296; lia).
  rewrite u32_small in Ea
    by (change UF2_FIRMWARE_BYTES_PER_SECTOR with 256;
        change (2 ^ 32) with 4294967296; lia).
  assert (length p = 512%nat /\
          forall o, 0 <= o -> o + 3 < 32 \/ 288 <= o ->
                    Buf.get32 p o = Buf.get32 (firmware_header cfg m) o)
    as [Hlen Hhdr].
  { subst p. rewrite uf2_read_block_packet by done.
    destruct (esp_partition_read cfg _ _) as [bytes|].
    - split; [by rewrite length_memcpy, length_firmware_header|].
      intros o Ho Hout. apply get32_packet_header; [|exact Ho|exact Hout].
      rewrite length_take. change (Z.to_nat UF2_FIRMWARE_BYTES_PER_SECTOR)
        with 256%nat. lia.
    - split; [apply length_firmware_header|done]. }
  unfold is_uf2_block, UF2_Block.magicStart0, UF2_Block.magicStart1,
    UF2_Block.magicEnd, UF2_Block.blockNo, UF2_Block.numBlocks,
    UF2_Block.targetAddr, UF2_Block.payloadSize, UF2_Block.flags,
    UF2_Block.familyID in *.
  rewrite !Hhdr by (uf2_offsets; lia).
  rewrite E0, E1, Ee, Ef, !Z.eqb_refl.
  repeat split; done.
Qed.

(** X12: Every sector synthesized for the firmware file is a well-formed upload
    packet: it passes [is_uf2_block], and carries the chunk number as block
    index, the sector count of the file as total, the flash address of the
    chunk, a payload size of 256, the family-id flag alone and the
    configured family identifier. *)
Theorem firmware_sector_is_upload_packet m :
  geometry_ok cfg -> 0 <= m ->
  firmware_sector cfg m < BPB_TOTAL_SECTORS cfg ->
  m * UF2_FIRMWARE_BYTES_PER_SECTOR < CFG_UF2_FLASH_SIZE cfg ->
  let p := uf2_read_block cfg (firmware_sector cfg m) in
  length p = Z.to_nat BPB_SECTOR_SIZE /\
  is_uf2_block p = true /\
  UF2_Block.blockNo p = m /\
  UF2_Block.numBlocks p = UF2_SECTORS cfg /\
  UF2_Block.targetAddr p = m * UF2_FIRMWARE_BYTES_PER_SECTOR /\
  UF2_Block.payloadSize p = UF2_FIRMWARE_BYTES_PER_SECTOR /\
  UF2_Block.flags p = UF2_FLAG_FAMILYID /\
  UF2_Block.familyID p = u32 (CFG_UF2_FAMILY_ID cfg).
Proof. exact (firmware_sector_packet m). Qed.

Lemma get8_firmware_header_payload m o :
  UF2_Block.off_data <= o < UF2_Block.off_magicEnd ->
  Buf.get8 (firmware_header cfg m) o = 0.
Proof.
  intros Ho. unfold firmware_header. cbv zeta. uf2_offsets.
  rewrite !get8_set32_ne by lia.
  apply get8_zeros. change (Z.to_nat BPB_SECTOR_SIZE) with 512%nat. lia.
Qed.

(** X13: A synthesized packet carries the flash content its own header
    declares: when the partition read at the packet's [targetAddr], of its
    [payloadSize] bytes, succeeds, the bytes after the 32-byte header are the
    bytes read, up to [payloadSize] of them, and every byte from there to the
    end magic is zero. *)
Theorem firmware_sector_payload m (bytes : list Z) o :
  geometry_ok cfg -> 0 <= m ->
  firmware_sector cfg m < BPB_TOTAL_SECTORS cfg ->
  m * UF2_FIRMWARE_BYTES_PER_SECTOR < CFG_UF2_FLASH_SIZE cfg ->
  let p := uf2_read_block cfg (firmware_sector cfg m) in
  esp_partition_read cfg (UF2_Block.targetAddr p) (UF2_Block.payloadSize p)
  = Some bytes ->
  UF2_Block.off_data <= o < UF2_Block.off_magicEnd ->
  Buf.get8 p o
  = if (o - UF2_Block.off_data <? UF2_Block.payloadSize p)
       && (o - UF2_Block.off_data <? Z.of_nat (length bytes))
    then bytes !!! Z.to_nat (o - UF2_Block.off_data)
    else 0.
Proof.
  intros Hg Hm Hin Hlt p Hread Ho. subst p.
  destruct (firmware_sector_packet m Hg Hm Hin Hlt)
    as (_ & _ & _ & _ & Ea & Ep & _).
  rewrite Ea, Ep in Hread. rewrite Ep.
  rewrite uf2_read_block_packet by done. rewrite Hread.
  change UF2_FIRMWARE_BYTES_PER_SECTOR with 256.
  change (Z.to_nat 256) with 256%nat.
  pose proof (length_firmware_header m) as Hlh.
  pose proof (length_take bytes 256) as Hlt'.
  unfold UF2_Block.off_data, UF2_Block.off_magicEnd in *.
  destruct (Z.ltb_spec (o - 32) 256) as [H1|H1];
    [destruct (Z.ltb_spec (o - 32) (Z.of_nat (length bytes))) as [H2|H2]|];
    simpl.
  - unfold Buf.get8, Buf.memcpy. change (Z.to_nat 32) with 32%nat.
    rewrite list_lookup_total_inserts by lia.
    rewrite !list_lookup_total_alt, lookup_take_lt by lia.
    do 2 f_equal. lia.
  - rewrite get8_memcpy_ge by lia.
    apply get8_firmware_header_payload.
    unfold UF2_Block.off_data, UF2_Block.off_magicEnd. lia.
  - rewrite get8_memcpy_ge by lia.
    apply get8_firmware_header_payload.
    unfold UF2_Block.off_data, UF2_Block.off_magicEnd. lia.
Qed.

End PacketFacts.

(** * Reading the firmware file and writing it back *)

Section CopyBack.

Variable cfg : Config.

Implicit Types (data : Buf.t) (o m : Z).

Lemma bytes_set8 data o v : Buf.bytes data -> Buf.bytes (Buf.set8 data o v).
Proof.
  intros Hb. unfold Buf.bytes, Buf.set8. apply Forall_insert; [done|].
  pose proof (u8_range v). lia.
Qed.

Lemma bytes_set32 data o v : Buf.bytes data -> Buf.bytes (Buf.set32 data o v).
Proof. intros Hb. unfold Buf.set32. by repeat apply bytes_set8. Qed.

Lemma bytes_zeros n : Buf.bytes (Buf.zeros n).
Proof. apply Forall_replicate. lia. Qed.

Lemma bytes_memcpy data o (src : list Z) :
  Buf.bytes data -> Buf.bytes src -> Buf.bytes (Buf.memcpy data o src).
Proof.
  unfold Buf.bytes, Buf.memcpy. intros Hd Hs.
  apply Forall_lookup. intros j x Hj.
  destruct (decide (j < Z.to_nat o)%nat) as [Hlt|Hge].
  { rewrite list_lookup_inserts_lt in Hj by done.
    by eapply (Forall_lookup_1 _ _ _ _ Hd). }
  destruct (decide (j < Z.to_nat o + length src)%nat) as [Hin|Hout].
  - assert (j < length data)%nat.
    { apply lookup_lt_Some in Hj. by rewrite length_inserts in Hj. }
    rewrite list_lookup_inserts in Hj by lia.
    by eapply (Forall_lookup_1 _ _ _ _ Hs).
  - rewrite list_lookup_inserts_ge in Hj by lia.
    by eapply (Forall_lookup_1 _ _ _ _ Hd).
Qed.

Lemma bytes_firmware_header m : Buf.bytes (firmware_header cfg m).
Proof.
  unfold firmware_header. cbv zeta.
  repeat apply bytes_set32. apply bytes_zeros.
Qed.

(** A synthesized sector of the firmware file is a valid block of a stream
    that declares the file's sector count. *)
Lemma firmware_sector_stream_block m :
  geometry_ok cfg -> flash_bytes cfg -> 0 <= m ->
  firmware_sector cfg m < BPB_TOTAL_SECTORS cfg ->
  m * UF2_FIRMWARE_BYTES_PER_SECTOR < CFG_UF2_FLASH_SIZE cfg ->
  stream_block (UF2_SECTORS cfg) (uf2_read_block cfg (firmware_sector cfg m))
  /\ UF2_Block.blockNo (uf2_read_block cfg (firmware_sector cfg m)) = m.
Proof.
  intros Hg Hfb Hm Hin Hlt.
  destruct (firmware_sector_packet cfg m Hg Hm Hin Hlt)
    as (Hlen & Hv & Hb & Hn & _).
  split; [|done]. split; [|done]. split; [|done]. split; [done|].
  rewrite uf2_read_block_packet by done.
  destruct (esp_partition_read cfg _ _) as [bytes|] eqn:Hr.
  - apply bytes_memcpy; [apply bytes_firmware_header|].
    apply Forall_take. by eapply Hfb.
  - apply bytes_firmware_header.
Qed.

Lemma copy_back_complete_iff n :
  geometry_ok cfg -> flash_bytes cfg ->
  MAX_BLOCKS cfg < 2 ^ 32 ->
  UF2_SECTORS cfg < MAX_BLOCKS cfg ->
  UF2_SECTORS cfg * UF2_FIRMWARE_BYTES_PER_SECTOR <= CFG_UF2_FLASH_SIZE cfg ->
  firmware_sector cfg (UF2_SECTORS cfg) <= BPB_TOTAL_SECTORS cfg ->
  0 < n <= UF2_SECTORS cfg ->
  let s := write_stream cfg (firmware_sectors cfg n) (fresh_state cfg) in
  numBlocks s = UF2_SECTORS cfg /\
  (complete s = true <-> n = UF2_SECTORS cfg).
Proof.
  intros Hg Hfb Hmax HN Hflash Hvol Hn s. subst s.
  set (N := UF2_SECTORS cfg) in *.
  set (f := fun m => uf2_read_block cfg (firmware_sector cfg m)).
  assert (forall m, 0 <= m < n ->
            stream_block N (f m) /\ UF2_Block.blockNo (f m) = m) as Hf.
  { intros m Hm. apply firmware_sector_stream_block; try done; [lia| |].
    - unfold firmware_sector in *. lia.
    - change UF2_FIRMWARE_BYTES_PER_SECTOR with 256 in *. lia. }
  assert (forall d, d ∈ firmware_sectors cfg n ->
            exists m, d = f m /\ 0 <= m < n) as Hel.
  { intros d Hd. unfold firmware_sectors in Hd.
    apply list_elem_of_fmap in Hd as (m & -> & Hm).
    apply elem_of_seqZ in Hm. exists m. split; [done|lia]. }
  assert (Forall (stream_block N) (firmware_sectors cfg n)) as Hsb.
  { apply Forall_forall. intros d Hd.
    destruct (Hel d Hd) as (m & -> & Hm). by apply Hf. }
  assert (firmware_sectors cfg n <> []) as Hne.
  { intros He. apply (f_equal length) in He.
    unfold firmware_sectors in He.
    rewrite length_map, length_seqZ in He. simpl in He. lia. }
  split.
  { rewrite (learned_total_of_stream cfg N) by (done || lia).
    by destruct (decide _). }
  rewrite (complete_iff_arrived cfg N); try done; try lia.
  - split.
    + intros Hall. destruct (decide (n = N)) as [|Hnn]; [done|].
      destruct (Hall n ltac:(lia)) as (d & Hd & Hbn).
      destruct (Hel d Hd) as (m & -> & Hm).
      destruct (Hf m Hm) as [_ Hbm]. lia.
    + intros -> b Hb. exists (f b). split; [|by apply Hf].
      unfold firmware_sectors. apply list_elem_of_fmap. exists b.
      split; [done|]. apply elem_of_seqZ. lia.
  - apply Forall_forall. intros d Hd.
    destruct (Hel d Hd) as (m & -> & Hm).
    destruct (Hf m Hm) as [_ ->]. lia.
Qed.

(** X17: Copying [CURRENT.UF2] off the drive and back onto it is a complete
    upload: when the file lies below the flash bound, inside the volume and
    below [MAX_BLOCKS] sectors, writing its first [n] sectors to a fresh
    state learns the file's sector count as the total, and the completion
    test [numWritten >= numBlocks] holds exactly when all the sectors have
    been written. *)
Theorem firmware_file_copy_back n :
  geometry_ok cfg -> flash_bytes cfg ->
  MAX_BLOCKS cfg < 2 ^ 32 ->
  UF2_SECTORS cfg < MAX_BLOCKS cfg ->
  UF2_SECTORS cfg * UF2_FIRMWARE_BYTES_PER_SECTOR <= CFG_UF2_FLASH_SIZE cfg ->
  firmware_sector cfg (UF2_SECTORS cfg) <= BPB_TOTAL_SECTORS cfg ->
  0 < n <= UF2_SECTORS cfg ->
  let s := write_stream cfg (firmware_sectors cfg n) (fresh_state cfg) in
  numBlocks s = UF2_SECTORS cfg /\
  (complete s = true <-> n = UF2_SECTORS cfg).
Proof. exact (copy_back_complete_iff n). Qed.

End CopyBack.

(** * The boot sector *)

Section BootFacts.

Variable cfg : Config.

Implicit Types (data : Buf.t) (o : Z).

Lemma get16_set8_ne data o o' v :
  0 <= o -> 0 <= o' -> o < o' \/ o' + 1 < o ->
  Buf.get16 (Buf.set8 data o v) o' = Buf.get16 data o'.
Proof. intros. apply get16_frame. intros. apply get8_set8_ne; lia. Qed.

Lemma get16_set32_ne data o o' v :
  0 <= o -> 0 <= o' -> o' + 1 < o \/ o + 3 < o' ->
  Buf.get16 (Buf.set32 data o v) o' = Buf.get16 data o'.
Proof. intros. apply get16_frame. intros. apply get8_set32_ne; lia. Qed.

Lemma get16_memcpy_lt data o src o' :
  0 <= o' -> o' + 1 < o ->
  Buf.get16 (Buf.memcpy data o src) o' = Buf.get16 data o'.
Proof. intros. apply get16_frame. intros. apply get8_memcpy_lt; lia. Qed.

Lemma get32_set8_ne data o o' v :
  0 <= o -> 0 <= o' -> o < o' \/ o' + 3 < o ->
  Buf.get32 (Buf.set8 data o v) o' = Buf.get32 data o'.
Proof. intros. apply get32_frame. intros. apply get8_set8_ne; lia. Qed.

Lemma get32_set16_ne data o o' v :
  0 <= o -> 0 <= o' -> o + 1 < o' \/ o' + 3 < o ->
  Buf.get32 (Buf.set16 data o v) o' = Buf.get32 data o'.
Proof. intros. apply get32_frame. intros. apply get8_set16_ne; lia. Qed.

Lemma get32_memcpy_lt data o src o' :
  0 <= o' -> o' + 3 < o ->
  Buf.get32 (Buf.memcpy data o src) o' = Buf.get32 data o'.
Proof. intros. apply get32_frame. intros. apply get8_memcpy_lt; lia. Qed.

Lemma length_BootBlock : length (BootBlock cfg) = 62%nat.
Proof.
  unfold BootBlock. cbv zeta.
  by rewrite ?length_memcpy, ?length_set8, ?length_set16, ?length_set32,
    ?length_memcpy, ?length_set8, ?length_set16, ?length_set32,
    ?length_memcpy, ?length_set8, ?length_set16, ?length_set32,
    ?length_memcpy, ?length_set8, ?length_set16, ?length_set32,
    ?length_memcpy, ?length_set8, ?length_set16, ?length_set32,
    ?length_memcpy, ?length_set8, ?length_set16, ?length_set32,
    ?length_memcpy, ?length_set8, ?length_set16, ?length_set32,
    length_zeros.
Qed.

(** Sector 0 carries the boot block in its first 62 bytes. *)
Lemma get8_boot_sector o :
  0 <= o < 62 ->
  Buf.get8 (uf2_read_block cfg 0) o = Buf.get8 (BootBlock cfg) o.
Proof.
  intros Ho. unfold uf2_read_block. simpl.
  rewrite !get8_set8_ne by lia.
  unfold Buf.get8, Buf.memcpy. change (Z.to_nat 0) with 0%nat.
  rewrite list_lookup_total_inserts
    by (rewrite ?length_BootBlock, ?length_zeros;
        change (Z.to_nat BPB_SECTOR_SIZE) with 512%nat; lia).
  f_equal. lia.
Qed.

Ltac boot_len :=
  rewrite ?length_memcpy, ?length_set8, ?length_set16, ?length_set32,
    ?length_memcpy, ?length_set8, ?length_set16, ?length_set32,
    ?length_memcpy, ?length_set8, ?length_set16, ?length_set32,
    ?length_memcpy, ?length_set8, ?length_set16, ?length_set32,
    ?length_memcpy, ?length_set8, ?length_set16, ?length_set32,
    ?length_zeros; lia.

Ltac boot_field :=
  unfold BootBlock; cbv zeta;
  repeat first
    [ rewrite get8_set8_eq by boot_len
    | rewrite get16_set16_eq by (try lia; boot_len)
    | rewrite get32_set32_eq by (try lia; boot_len)
    | rewrite get8_memcpy_lt by lia
    | rewrite get16_memcpy_lt by lia
    | rewrite get32_memcpy_lt by lia
    | rewrite get8_set8_ne by lia
    | rewrite get8_set16_ne by lia
    | rewrite get8_set32_ne by lia
    | rewrite get16_set8_ne by lia
    | rewrite get16_set16_ne by lia
    | rewrite get16_set32_ne by lia
    | rewrite get32_set8_ne by lia
    | rewrite get32_set16_ne by lia
    | rewrite get32_set32_ne by lia ].

Lemma BootBlock_fields :
  Buf.get16 (BootBlock cfg) 11 = u16 BPB_SECTOR_SIZE /\
  Buf.get8 (BootBlock cfg) 13 = u8 BPB_SECTORS_PER_CLUSTER /\
  Buf.get16 (BootBlock cfg) 14 = u16 BPB_RESERVED_SECTORS /\
  Buf.get8 (BootBlock cfg) 16 = u8 BPB_NUMBER_OF_FATS /\
  Buf.get16 (BootBlock cfg) 17 = u16 BPB_ROOT_DIR_ENTRIES /\
  Buf.get16 (BootBlock cfg) 19
  = u16 (if 0xFFFF <? BPB_TOTAL_SECTORS cfg then 0
         else BPB_TOTAL_SECTORS cfg) /\
  Buf.get8 (BootBlock cfg) 21 = u8 BPB_MEDIA_DESCRIPTOR_BYTE /\
  Buf.get16 (BootBlock cfg) 22 = u16 (BPB_SECTORS_PER_FAT cfg) /\
  Buf.get32 (BootBlock cfg) 32
  = u32 (if 0xFFFF <? BPB_TOTAL_SECTORS cfg then BPB_TOTAL_SECTORS cfg
         else 0).
Proof. repeat split; boot_field; done. Qed.

Lemma get16_boot_sector o :
  0 <= o < 61 ->
  Buf.get16 (uf2_read_block cfg 0) o = Buf.get16 (BootBlock cfg) o.
Proof. intros. unfold Buf.get16. by rewrite !get8_boot_sector by lia. Qed.

Lemma get32_boot_sector o :
  0 <= o < 59 ->
  Buf.get32 (uf2_read_block cfg 0) o = Buf.get32 (BootBlock cfg) o.
Proof. intros. unfold Buf.get32. by rewrite !get8_boot_sector by lia. Qed.

(** X11: Sector 0 is a boot sector that describes the volume the other sectors
    make up: the BIOS parameter block gives 512-byte sectors, one sector per
    cluster, one reserved sector, two FATs, 64 root-directory entries, the
    media descriptor, the sectors of one FAT and the total sector count: in
    the 16-bit field when it is at most [0xFFFF], with the 32-bit field
    zero, and in the 32-bit field otherwise, with the 16-bit field zero.
    The sector ends with the signature [0x55 0xAA]. *)
Theorem boot_sector_describes_geometry :
  geometry_ok cfg ->
  let b := uf2_read_block cfg 0 in
  Buf.get16 b 11 = BPB_SECTOR_SIZE /\
  Buf.get8 b 13 = BPB_SECTORS_PER_CLUSTER /\
  Buf.get16 b 14 = FS_START_FAT0_SECTOR /\
  Buf.get8 b 16 = BPB_NUMBER_OF_FATS /\
  Buf.get16 b 17 = ROOT_DIR_SECTOR_COUNT * DIRENTRIES_PER_SECTOR /\
  Buf.get8 b 21 = BPB_MEDIA_DESCRIPTOR_BYTE /\
  Buf.get16 b 22 = BPB_SECTORS_PER_FAT cfg /\
  Buf.get16 b 19
  = (if 0xFFFF <? BPB_TOTAL_SECTORS cfg then 0 else BPB_TOTAL_SECTORS cfg) /\
  Buf.get32 b 32
  = (if 0xFFFF <? BPB_TOTAL_SECTORS cfg then BPB_TOTAL_SECTORS cfg else 0) /\
  (if Buf.get16 b 19 =? 0 then Buf.get32 b 32 else Buf.get16 b 19)
  = BPB_TOTAL_SECTORS cfg /\
  Buf.get8 b 510 = 0x55 /\ Buf.get8 b 511 = 0xaa.
Proof.
  intros Hg b. subst b.
  destruct (geometry_bounds cfg Hg) as (Hspf & HT & _).
  destruct BootBlock_fields
    as (E11 & E13 & E14 & E16 & E17 & E19 & E21 & E22 & E32).
  rewrite !get16_boot_sector, !get8_boot_sector, !get32_boot_sector by lia.
  rewrite E11, E13, E14, E16, E17, E19, E21, E22, E32.
  rewrite (u16_small (BPB_SECTORS_PER_FAT cfg))
    by (change (2 ^ 16) with 65536; lia).
  assert (Buf.get8 (uf2_read_block cfg 0) 510 = 0x55 /\
          Buf.get8 (uf2_read_block cfg 0) 511 = 0xaa) as [-> ->].
  { unfold uf2_read_block. simpl. split.
    - rewrite get8_set8_ne by lia.
      apply get8_set8_eq.
      rewrite length_memcpy, length_zeros.
      change (Z.to_nat BPB_SECTOR_SIZE) with 512%nat. lia.
    - apply get8_set8_eq.
      rewrite length_set8, length_memcpy, length_zeros.
      change (Z.to_nat BPB_SECTOR_SIZE) with 512%nat. lia. }
  destruct (Z.ltb_spec 0xFFFF (BPB_TOTAL_SECTORS cfg)).
  - rewrite (u32_small (BPB_TOTAL_SECTORS cfg))
      by (change (2 ^ 32) with 4294967296; lia).
    repeat split; done.
  - rewrite (u16_small (BPB_TOTAL_SECTORS cfg))
      by (change (2 ^ 16) with 65536; lia).
    change (u32 0) with 0.
    destruct (Z.eqb_spec (BPB_TOTAL_SECTORS cfg) 0); [lia|].
    repeat split; done.
Qed.

End BootFacts.

Section WriteEdgeFacts.

Variable cfg : Config.

(** X18: A block whose index is at or beyond [MAX_BLOCKS] never reaches the
    bitmask: whatever else it carries, bitmask and counter stay as they
    were. *)
Theorem index_beyond_capacity_ignored block_no (data : Buf.t) s :
  MAX_BLOCKS cfg <= UF2_Block.blockNo data ->
  let s' := snd (uf2_write_block cfg block_no data s) in
  writtenMask s' = writtenMask s /\ numWritten s' = numWritten s.
Proof.
  intros Hge s'. subst s'. destruct (is_uf2_block data) eqn:Hv.
  - rewrite uf2_write_block_accepted by done. simpl.
    destruct (_ =? 0); [done|].
    rewrite mark_block_beyond by done.
    by rewrite learn_total_writtenMask, learn_total_numWritten.
  - by rewrite uf2_write_block_rejected.
Qed.

End WriteEdgeFacts.

(** * The further properties on concrete inputs *)

Lemma board_cfg_geometry_ok : geometry_ok board_cfg.
Proof. vm_compute. intuition discriminate. Qed.

Lemma board_cfg_flash_bytes : flash_bytes board_cfg.
Proof.
  intros addr len bytes. simpl.
  destruct (addr + len <=? 1441792); [|discriminate].
  intros [= <-]. apply Forall_forall. intros x Hx.
  apply list_elem_of_fmap in Hx as (i & -> & _).
  pose proof (Z.mod_pos_bound (addr + Z.of_nat i) 251 ltac:(lia)). lia.
Qed.

Lemma fat_copies_identical_witness :
  uf2_read_block board_cfg (FS_START_FAT1_SECTOR board_cfg + 22)
  = uf2_read_block board_cfg (FS_START_FAT0_SECTOR + 22).
Proof.
  apply (fat_copies_identical board_cfg 22).
  - exact board_cfg_geometry_ok.
  - vm_compute. intuition discriminate.
Defined.

Lemma fat_entry_outside_chain_witness :
  Buf.get16 (uf2_read_block board_cfg (1 + 1 * 258 + 22)) (2 * 4) = 0.
Proof.
  apply (fat_entry_outside_chain board_cfg 1 5636).
  - exact board_cfg_geometry_ok.
  - by right.
  - vm_compute. intuition discriminate.
  - vm_compute. reflexivity.
Defined.

Lemma padded_memcpy_field_witness :
  Buf.get8 (padded_memcpy (Buf.zeros 16) 2 [65; 66; 0; 67] 5) (2 + 3) = 32.
Proof.
  apply (padded_memcpy_field 5 (Buf.zeros 16) 2 [65; 66; 0; 67] 3).
  - lia.
  - lia.
  - vm_compute. lia.
Defined.

Lemma rootdir_volume_label_witness :
  take (Z.to_nat sizeof_DirEntry)
    (uf2_read_block board_cfg (FS_START_ROOTDIR_SECTOR board_cfg))
  = UF2_VOLUME_LABEL ++ [32] ++ [0x28] ++ replicate 20 0.
Proof. apply (rootdir_volume_label board_cfg board_cfg_geometry_ok). Defined.

Lemma rootdir_entry_name_witness :
  let dir := uf2_read_block board_cfg (FS_START_ROOTDIR_SECTOR board_cfg) in
  Buf.get8 dir (64 + 6) = 32 /\
  Buf.get8 dir (64 + DirEntry.off_attrs) = 0 /\
  Buf.get8 dir (64 + DirEntry.off_reserved) = 0.
Proof.
  apply (rootdir_entry_name board_cfg 1
           {| name := chars "INDEX   HTM"; content := Some indexFile |} 6).
  - exact board_cfg_geometry_ok.
  - reflexivity.
  - lia.
Defined.

Lemma rootdir_firmware_entry_witness :
  let dir := uf2_read_block board_cfg (FS_START_ROOTDIR_SECTOR board_cfg) in
  DirEntry.startCluster dir 96 = 4 /\
  DirEntry.highStartCluster dir 96 = 0 /\
  DirEntry.size dir 96 = 512 * 5632.
Proof.
  apply (rootdir_firmware_entry board_cfg).
  - exact board_cfg_geometry_ok.
  - vm_compute. reflexivity.
Defined.

Lemma rootdir_ends_with_unused_entries_witness :
  Buf.get8 (uf2_read_block board_cfg (FS_START_ROOTDIR_SECTOR board_cfg)) 128
  = 0.
Proof.
  apply (rootdir_ends_with_unused_entries board_cfg 128).
  - exact board_cfg_geometry_ok.
  - vm_compute. intuition discriminate.
Defined.

Lemma rootdir_later_sectors_empty_witness :
  uf2_read_block board_cfg (FS_START_ROOTDIR_SECTOR board_cfg + 2)
  = Buf.zeros (Z.to_nat BPB_SECTOR_SIZE).
Proof.
  apply (rootdir_later_sectors_empty board_cfg 2).
  - exact board_cfg_geometry_ok.
  - vm_compute. intuition discriminate.
Defined.

Lemma read_inline_file_sector_witness :
  uf2_read_block board_cfg (FS_START_CLUSTERS_SECTOR board_cfg + (0 + 2 - 2))
  = take (Z.to_nat (strlen infoUf2File)) infoUf2File
    ++ Buf.zeros (Z.to_nat (BPB_SECTOR_SIZE - strlen infoUf2File)).
Proof.
  apply (read_inline_file_sector board_cfg 0
           {| name := chars "INFO_UF2TXT"; content := Some infoUf2File |}
           infoUf2File).
  - exact board_cfg_geometry_ok.
  - reflexivity.
  - reflexivity.
Defined.

Lemma read_past_volume_witness :
  uf2_read_block board_cfg 70000 = Buf.zeros (Z.to_nat BPB_SECTOR_SIZE).
Proof.
  apply (read_past_volume board_cfg 70000).
  - exact board_cfg_geometry_ok.
  - vm_compute. discriminate.
Defined.

Lemma small_drive_cfg_geometry_ok : geometry_ok small_drive_cfg.
Proof. vm_compute. intuition discriminate. Qed.

Lemma boot_sector_describes_geometry_witness :
  (let b := uf2_read_block small_drive_cfg 0 in
   Buf.get16 b 11 = 512 /\
   Buf.get8 b 13 = 1 /\
   Buf.get16 b 14 = 1 /\
   Buf.get8 b 16 = 2 /\
   Buf.get16 b 17 = 64 /\
   Buf.get8 b 21 = 0xF8 /\
   Buf.get16 b 22 = 128 /\
   Buf.get16 b 19 = 0x8000 /\
   Buf.get32 b 32 = 0 /\
   (if Buf.get16 b 19 =? 0 then Buf.get32 b 32 else Buf.get16 b 19) = 0x8000 /\
   Buf.get8 b 510 = 0x55 /\ Buf.get8 b 511 = 0xaa) /\
  (let b := uf2_read_block board_cfg 0 in
   Buf.get16 b 11 = 512 /\
   Buf.get8 b 13 = 1 /\
   Buf.get16 b 14 = 1 /\
   Buf.get8 b 16 = 2 /\
   Buf.get16 b 17 = 64 /\
   Buf.get8 b 21 = 0xF8 /\
   Buf.get16 b 22 = 258 /\
   Buf.get16 b 19 = 0 /\
   Buf.get32 b 32 = 0x10109 /\
   (if Buf.get16 b 19 =? 0 then Buf.get32 b 32 else Buf.get16 b 19) = 0x10109 /\
   Buf.get8 b 510 = 0x55 /\ Buf.get8 b 511 = 0xaa).
Proof.
  split.
  - apply (boot_sector_describes_geometry small_drive_cfg
             small_drive_cfg_geometry_ok).
  - apply (boot_sector_describes_geometry board_cfg board_cfg_geometry_ok).
Defined.

Lemma firmware_sector_is_upload_packet_witness :
  let p := uf2_read_block board_cfg (firmware_sector board_cfg 7) in
  length p = 512%nat /\
  is_uf2_block p = true /\
  UF2_Block.blockNo p = 7 /\
  UF2_Block.numBlocks p = 5632 /\
  UF2_Block.targetAddr p = 7 * 256 /\
  UF2_Block.payloadSize p = 256 /\
  UF2_Block.flags p = 0x2000 /\
  UF2_Block.familyID p = 0xbfdd4eee.
Proof.
  apply (firmware_sector_is_upload_packet board_cfg 7).
  - exact board_cfg_geometry_ok.
  - lia.
  - vm_compute. reflexivity.
  - vm_compute. reflexivity.
Defined.

Lemma firmware_sector_payload_witness :
  Buf.get8 (uf2_read_block board_cfg (firmware_sector board_cfg 7)) 40
  = (7 * 256 + 8) mod 251.
Proof.
  apply (firmware_sector_payload board_cfg 7
           (map (fun i => (7 * 256 + Z.of_nat i) mod 251) (seq 0 256)) 40).
  - exact board_cfg_geometry_ok.
  - lia.
  - vm_compute. reflexivity.
  - vm_compute. reflexivity.
  - vm_compute. reflexivity.
  - vm_compute. intuition discriminate.
Defined.

Lemma arrival_example_bytes : Forall Buf.bytes arrival_example.
Proof.
  unfold arrival_example.
  do 5 (apply Forall_cons_2; [apply bytesb_bytes; vm_compute; reflexivity|]).
  apply Forall_nil_2.
Qed.

Lemma written_bit_never_cleared_witness :
  written (write_state board_cfg block1
             (write_state board_cfg block0 (fresh_state board_cfg))) 0 = true.
Proof.
  apply (written_bit_never_cleared board_cfg block1
           (write_state board_cfg block0 (fresh_state board_cfg)) 0).
  - apply bytesb_bytes. vm_compute. reflexivity.
  - vm_compute. reflexivity.
  - lia.
  - vm_compute. reflexivity.
Defined.

Lemma counter_counts_absorbed_indices_witness :
  let s := write_stream board_cfg arrival_example (fresh_state board_cfg) in
  (forall b, 0 <= b < MAX_BLOCKS board_cfg ->
             written s b = bool_decide (b ∈ absorbed board_cfg arrival_example))
  /\ numWritten s = Z.of_nat (size (absorbed board_cfg arrival_example)).
Proof.
  apply (counter_counts_absorbed_indices board_cfg arrival_example).
  - vm_compute. reflexivity.
  - exact arrival_example_bytes.
Defined.

Lemma arrival_example_stream : Forall (stream_block 3) arrival_example.
Proof.
  unfold arrival_example.
  do 5 (apply Forall_cons_2;
        [split; [check_upload_block | vm_compute; reflexivity]|]).
  apply Forall_nil_2.
Qed.

Lemma completion_iff_all_blocks_arrived_witness :
  complete (write_stream board_cfg arrival_example (fresh_state board_cfg))
  = true
  <-> forall b, 0 <= b < 3 ->
        exists d, d ∈ arrival_example /\ UF2_Block.blockNo d = b.
Proof.
  apply (completion_iff_all_blocks_arrived board_cfg 3 arrival_example).
  - vm_compute. reflexivity.
  - vm_compute. intuition discriminate.
  - discriminate.
  - exact arrival_example_stream.
  - unfold arrival_example.
    do 5 (apply Forall_cons_2; [vm_compute; reflexivity|]).
    apply Forall_nil_2.
Defined.

Lemma firmware_file_copy_back_witness :
  let s := write_stream board_cfg (firmware_sectors board_cfg 5632)
             (fresh_state board_cfg) in
  numBlocks s = 5632 /\ (complete s = true <-> 5632 = 5632).
Proof.
  apply (firmware_file_copy_back board_cfg 5632).
  - exact board_cfg_geometry_ok.
  - exact board_cfg_flash_bytes.
  - vm_compute. reflexivity.
  - vm_compute. reflexivity.
  - vm_compute. discriminate.
  - vm_compute. discriminate.
  - vm_compute. intuition discriminate.
Defined.

Lemma index_beyond_capacity_ignored_witness :
  let s' := snd (uf2_write_block board_cfg 0
                   (packet UF2_FLAG_FAMILYID 20000 3 0)
                   (fresh_state board_cfg)) in
  writtenMask s' = writtenMask (fresh_state board_cfg) /\
  numWritten s' = numWritten (fresh_state board_cfg).
Proof.
  apply (index_beyond_capacity_ignored board_cfg 0
           (packet UF2_FLAG_FAMILYID 20000 3 0) (fresh_state board_cfg)).
  vm_compute. discriminate.
Defined.
